(** * logtime: a shallow embedding of [logtime/logtime.py] and [logtime/config.py]

    The development follows the pipeline of the program:
    raw lines -> parsed tuples -> timestamps -> deltas -> per-line results
    -> grouped aggregates -> summary text / time entries.

    Modelling conventions.
    - A Python [str] is a [string]; one [ascii] stands for one character with
      a code point below 256, and the character classes ([str.isspace], the
      regular expression classes [\s] and [\d]) are Python's on that range.
    - A Python [int] is a [Z].
    - A Python [float] is the rational number it denotes ([Q], kept in lowest
      terms); the rounding of binary64 arithmetic is not modelled.  Every
      float of the program is a minute count divided by 60 or a multiple of
      a quarter.  The float computations are also carried out on primitive
      binary64 numbers (modules [F64] and [F64Saldo]) and give the values
      of the model on the ranges of a day's log; what is proved about the
      results of float arithmetic is stated on those ranges; far beyond
      them binary64 differs, as two lemmas below show.
    - A [dict] that is iterated in insertion order is an association list in
      that order; a [dict] that is only looked up is a [gmap]; a [set] is a
      [gset].
    - Exceptions are the [Raised] outcome of a small state-and-error monad
      over the world the program touches (the log file, the time-entry
      service, the logger).
    - A [Path] is the list of its parts; the home directory that
      [expanduser] reads from the environment is a parameter. *)

From Stdlib Require Import ZArith QArith Qabs Ascii String DecimalString Floats Uint63.
From Stdlib Require DecimalPos DecimalZ.
From stdpp Require Import base option list strings gmap sets sorting.

#[local] Set Warnings "-clear-no-such-hyp".

Local Open Scope string_scope.
Local Open Scope list_scope.
Local Open Scope Z_scope.

(** ** Python's built-in operations used by the program *)

Module Py.

(** Code point of a character. *)
Definition ord (c : ascii) : Z := Z.of_N (N_of_ascii c).

(** [str.isspace] on one character: TAB..CR, FS..US, SPACE, NEL, NBSP. *)
Definition isspace (c : ascii) : bool :=
  let n := ord c in
  ((9 <=? n) && (n <=? 13)) || ((28 <=? n) && (n <=? 31))
  || (n =? 32) || (n =? 133) || (n =? 160).

(** A decimal digit: ['0'..'9'] are the only ones below code point 256. *)
Definition isdecimal (c : ascii) : bool :=
  let n := ord c in (48 <=? n) && (n <=? 57).

Definition digit_value (c : ascii) : Z := ord c - 48.

Definition is_newline (c : ascii) : bool := ord c =? 10.

(** The longest prefix of characters satisfying [p], and what follows it. *)
Fixpoint take_while (p : ascii -> bool) (s : string) : string :=
  match s with
  | String c s' => if p c then String c (take_while p s') else EmptyString
  | EmptyString => EmptyString
  end.

Fixpoint drop_while (p : ascii -> bool) (s : string) : string :=
  match s with
  | String c s' => if p c then drop_while p s' else s
  | EmptyString => EmptyString
  end.

(** [s.rstrip(chars)] for the character set [p]. *)
Fixpoint rstrip_of (p : ascii -> bool) (s : string) : string :=
  match s with
  | EmptyString => EmptyString
  | String c s' =>
      match rstrip_of p s' with
      | EmptyString => if p c then EmptyString else String c EmptyString
      | r => String c r
      end
  end.

Definition lstrip (s : string) : string := drop_while isspace s.
Definition rstrip (s : string) : string := rstrip_of isspace s.

(** [s.strip()] *)
Definition strip (s : string) : string := rstrip (lstrip s).

(** [s.startswith(c)] for a one-character prefix. *)
Definition startswith (c : ascii) (s : string) : bool :=
  match s with
  | String c' _ => Ascii.eqb c' c
  | EmptyString => false
  end.

(** [s.split(sep)] for a one-character separator. *)
Fixpoint split (sep : ascii) (s : string) : list string :=
  match s with
  | EmptyString => [EmptyString]
  | String c s' =>
      if Ascii.eqb c sep then EmptyString :: split sep s'
      else match split sep s' with
           | h :: t => String c h :: t
           | [] => [String c EmptyString]
           end
  end.

(** [sep.join(parts)] *)
Fixpoint join (sep : string) (parts : list string) : string :=
  match parts with
  | [] => EmptyString
  | [x] => x
  | x :: rest => x +:+ sep +:+ join sep rest
  end.

(** The digits of [int(s)]: digits with single underscores between them. *)
Fixpoint int_digits (acc : Z) (after_underscore : bool) (s : string) : option Z :=
  match s with
  | EmptyString => if after_underscore then None else Some acc
  | String c s' =>
      if isdecimal c then int_digits (10 * acc + digit_value c) false s'
      else if Ascii.eqb c "_" && negb after_underscore then int_digits acc true s'
      else None
  end.

Definition int_unsigned (s : string) : option Z :=
  match s with
  | String c s' => if isdecimal c then int_digits (digit_value c) false s' else None
  | EmptyString => None
  end.

(** [int(s)] in base 10; [None] stands for [ValueError]. *)
Definition int_of_str (s : string) : option Z :=
  match strip s with
  | String c r =>
      if Ascii.eqb c "+" then int_unsigned r
      else if Ascii.eqb c "-" then Z.opp <$> int_unsigned r
      else int_unsigned (String c r)
  | EmptyString => None
  end.

(** [str(n)] for an integer. *)
Definition str_of_int (n : Z) : string := NilZero.string_of_int (Z.to_int n).

(** A float is the rational it denotes, in lowest terms. *)
Definition float : Type := Q.

Definition float_of_int (n : Z) : float := inject_Z n.

(** [a / b] on floats and [a * b], [a + b], [a - b], [abs(a)]. *)
Definition fdiv (a b : float) : float := Qred (a / b).
Definition fmul (a b : float) : float := Qred (a * b).
Definition fadd (a b : float) : float := Qred (a + b).
Definition fsub (a b : float) : float := Qred (a - b).
Definition fabs (a : float) : float := Qred (Qabs a).

(** [int(x)] on a float truncates towards zero. *)
Definition int_of_float (x : float) : Z := Z.quot (Qnum x) (Zpos (Qden x)).

(** [round(x)] with one argument: the nearest integer, ties to even. *)
Definition round (x : float) : Z :=
  let n := Qnum x in
  let d := Zpos (Qden x) in
  let lo := n / d in
  match 2 * (n mod d) ?= d with
  | Lt => lo
  | Gt => lo + 1
  | Eq => if Z.even lo then lo else lo + 1
  end.

(** [sum(xs)] over integers. *)
Definition sum (xs : list Z) : Z := foldl Z.add 0 xs.

(** [sorted(xs)] on strings: code point order. *)
Definition sorted (xs : list string) : list string := merge_sort String.le xs.

End Py.

(** ** The regular expression of [LINE_PATTERN]

    Python's [re] is a backtracking matcher: a greedy quantifier first takes
    as much as it can and gives characters back when what follows fails.
    Each combinator below takes the continuation [k] of the pattern, which
    receives the text the combinator consumed and the rest of the input. *)

Module Re.
Section Combinators.
Context {R : Type}.

Definition cont : Type := string -> string -> option R.

(** [C{n}] for a character class [C] *)
Fixpoint count (n : nat) (p : ascii -> bool) (k : cont) (s : string) : option R :=
  match n with
  | O => k EmptyString s
  | S n' =>
      match s with
      | String c s' => if p c then count n' p (fun m => k (String c m)) s' else None
      | EmptyString => None
      end
  end.

(** [C{0,n}], greedy *)
Fixpoint upto (n : nat) (p : ascii -> bool) (k : cont) (s : string) : option R :=
  match n with
  | O => k EmptyString s
  | S n' =>
      match s with
      | String c s' =>
          if p c then
            match upto n' p (fun m => k (String c m)) s' with
            | Some r => Some r
            | None => k EmptyString s
            end
          else k EmptyString s
      | EmptyString => k EmptyString s
      end
  end.

(** [C*], greedy *)
Fixpoint star (p : ascii -> bool) (k : cont) (s : string) : option R :=
  match s with
  | String c s' =>
      if p c then
        match star p (fun m => k (String c m)) s' with
        | Some r => Some r
        | None => k EmptyString s
        end
      else k EmptyString s
  | EmptyString => k EmptyString s
  end.

(** [C+], greedy *)
Definition plus (p : ascii -> bool) (k : cont) (s : string) : option R :=
  match s with
  | String c s' => if p c then star p (fun m => k (String c m)) s' else None
  | EmptyString => None
  end.

(** [C{lo,hi}], greedy *)
Definition between (lo hi : nat) (p : ascii -> bool) (k : cont) (s : string) : option R :=
  count lo p (fun m1 => upto (hi - lo) p (fun m2 => k (m1 +:+ m2))) s.

(** a literal character *)
Definition lit (c : ascii) (k : string -> option R) (s : string) : option R :=
  match s with
  | String c' s' => if Ascii.eqb c' c then k s' else None
  | EmptyString => None
  end.

(** [(r)?], greedy: the group is tried first and skipped when the rest fails *)
Definition opt (r : cont -> string -> option R)
    (k : option string -> string -> option R) (s : string) : option R :=
  match r (fun m => k (Some m)) s with
  | Some x => Some x
  | None => k None s
  end.

(** [$]: the end of the input, or just before a newline that ends it *)
Definition eol (x : R) (s : string) : option R :=
  match s with
  | EmptyString => Some x
  | String c EmptyString => if Py.is_newline c then Some x else None
  | _ => None
  end.
End Combinators.
End Re.

(** The groups of [LINE_PATTERN.match(line)], or [None].  The pattern is,
    piece by piece: start of input; group 1 = whitespace (any), one or two
    digits, a colon, two digits; whitespace (at least one); group 2,
    optional = five digits; whitespace (any); group 3 = any characters but
    newline; end of line. *)
Definition LINE_PATTERN (line : string) : option (string * option string * string) :=
  Re.star Py.isspace (fun ws =>
  Re.between 1 2 Py.isdecimal (fun hh =>
  Re.lit ":" (
  Re.count 2 Py.isdecimal (fun mm =>
  Re.plus Py.isspace (fun _ =>
  Re.opt (Re.count 5 Py.isdecimal) (fun g2 =>
  Re.star Py.isspace (fun _ =>
  Re.star (fun c => negb (Py.is_newline c)) (fun g3 =>
  Re.eol (ws +:+ hh +:+ ":" +:+ mm, g2, g3))))))))) line.

(** [parse_line]: [(time_str, task_id, desc)], or [None] when the line does
    not match. *)
Definition parse_line (line : string) : option (string * option string * string) :=
  match LINE_PATTERN line with
  | None => None
  | Some (g1, g2, g3) => Some (Py.strip g1, g2, g3)
  end.


(** ** Insertion-ordered dictionaries

    [Grouped] is a [dict] whose iteration order (the order in which keys were
    first inserted) decides the order of the summary lines, so it is an
    association list; a well-formed one has no repeated key. *)

Module Dict.
Section Ops.
Context {V : Type}.

Definition t : Type := list (string * V).

Definition keys (d : t) : list string := d.*1.
Definition values (d : t) : list V := d.*2.

(** [d.get(k)] *)
Fixpoint get (k : string) (d : t) : option V :=
  match d with
  | [] => None
  | (k', v) :: rest => if String.eqb k' k then Some v else get k rest
  end.

(** [k in d] *)
Definition contains (k : string) (d : t) : bool :=
  match get k d with Some _ => true | None => false end.

(** [d.setdefault(k, v)]: a new key goes last; the dictionary after the
    call (the entry itself is then read with [get]). *)
Definition setdefault (k : string) (v : V) (d : t) : t :=
  if contains k d then d else d ++ [(k, v)].

(** In-place update of the value stored under [k]. *)
Fixpoint alter (f : V -> V) (k : string) (d : t) : t :=
  match d with
  | [] => []
  | (k', v) :: rest =>
      if String.eqb k' k then (k', f v) :: rest else (k', v) :: alter f k rest
  end.
End Ops.

Definition map_values {V W : Type} (f : V -> W) (d : @t V) : @t W :=
  List.map (fun kv => (fst kv, f (snd kv))) d.
End Dict.

(** ** Data model *)

(** [@dataclass TaskResult] *)
Record TaskResult : Type := {
  task_id : option string;
  delta_seconds : Z;
  desc : string
}.

(** The fields of [datetime] the program reads and sets; the timestamps it
    builds have zero seconds, and all share [LOG_TZ]. *)
Record datetime : Type := {
  year : Z; month : Z; day : Z; hour : Z; minute : Z
}.

(** A [timedelta], as its number of seconds. *)
Abbreviation timedelta := Z (only parsing).

Inductive exn : Type := ValueError | FileNotFoundError.

Inductive outcome (A : Type) : Type :=
| Ok (a : A)
| Raised (e : exn).
Arguments Ok {A} a.
Arguments Raised {A} e.

(** A bucket of [grouped] while [group_tasks] accumulates: the keys
    ["delta"], ["desc"] and, when the first result under the key had a task
    id, ["task_id"]. *)
Record bucket : Type := {
  bucket_delta : Z;
  bucket_desc : gset string;
  bucket_task_id : option string
}.

(** A bucket once [group_tasks] has added the computed fields. *)
Record entry : Type := {
  entry_delta : Z;
  entry_desc : gset string;
  entry_task_id : option string;
  task_total_mins : Z;
  task_total_hours : Z;
  task_total_rest : Z;
  rounded_hours : Py.float
}.

Definition Grouped : Type := @Dict.t entry.

Definition EIGHT_HOURS_IN_MINS : Z := 8 * 60.

(** [config.defaults] *)
Definition defaults : gmap string string :=
  list_to_map [
    ("sync", "77549"); ("rezie", "77549"); ("organization", "77549");
    ("standup", "77488"); ("refinement", "77548");
    ("refinement priprava", "77548"); ("review", "77489");
    ("review priprava", "77489"); ("retro", "77489");
    ("retrospektiva", "77489"); ("retrospektiva priprava", "77489");
    ("planning", "77491"); ("planning priprava", "77491");
    ("kontrola prostredi", "77546"); ("cop", "77422"); ("CoP", "77422");
    ("CoP priprava", "80565"); ("cop priprava", "80565")
  ].

(** ** Reading the file *)

(** Text mode with universal newlines: CR LF and a lone CR read as LF. *)
Fixpoint universal_newlines (s : string) : string :=
  match s with
  | String c s' =>
      if Py.ord c =? 13 then
        match s' with
        | String c' s'' =>
            if Py.is_newline c' then String c' (universal_newlines s'')
            else String "010" (universal_newlines s')
        | EmptyString => String "010" EmptyString
        end
      else String c (universal_newlines s')
  | EmptyString => EmptyString
  end.

(** Iterating over a text file: the lines, each with its newline. *)
Fixpoint file_lines (s : string) : list string :=
  match s with
  | EmptyString => []
  | String c s' =>
      if Py.is_newline c then String c EmptyString :: file_lines s'
      else match file_lines s' with
           | [] => [String c EmptyString]
           | h :: t => String c h :: t
           end
  end.

(** The list comprehension of [get_lines]: the lines that are not blank,
    without their newline. *)
Definition nonblank_lines (content : string) : list string :=
  List.map (Py.rstrip_of Py.is_newline)
    (List.filter (fun line => negb (String.eqb (Py.strip line) ""))
       (file_lines (universal_newlines content))).

(** [is_already_parsed], without the log record it writes when true *)
Definition is_already_parsed (lines : list string) : bool :=
  match last lines with
  | None => false
  | Some l => String.eqb (Py.strip l) "already parsed"
  end.


(** ** Timestamps and deltas *)

Definition is_leap (y : Z) : bool :=
  (y mod 4 =? 0) && (negb (y mod 100 =? 0) || (y mod 400 =? 0)).

Definition days_in_month (y m : Z) : Z :=
  if m =? 2 then (if is_leap y then 29 else 28)
  else if (m =? 4) || (m =? 6) || (m =? 9) || (m =? 11) then 30
  else 31.

(** Days of the year before the first of month [m]. *)
Definition days_before_month (y m : Z) : Z :=
  Py.sum (List.map (days_in_month y) (List.map Z.of_nat (seq 1 (Z.to_nat (m - 1))))).

(** The proleptic Gregorian ordinal of a date (1 for 0001-01-01). *)
Definition ymd2ord (y m d : Z) : Z :=
  let y' := y - 1 in
  y' * 365 + y' / 4 - y' / 100 + y' / 400 + days_before_month y m + d.

(** The constructor [datetime(year=, month=, day=, hour=, minute=, tzinfo=)]
    raises [ValueError] on a field out of range. *)
Definition datetime_new (y m d h mi : Z) : outcome datetime :=
  if (1 <=? y) && (y <=? 9999) && (1 <=? m) && (m <=? 12)
     && (1 <=? d) && (d <=? days_in_month y m)
     && (0 <=? h) && (h <=? 23) && (0 <=? mi) && (mi <=? 59)
  then Ok {| year := y; month := m; day := d; hour := h; minute := mi |}
  else Raised ValueError.

(** [j - i] for two datetimes with the same [tzinfo] object: the difference
    of the wall-clock readings. *)
Definition datetime_sub (j i : datetime) : timedelta :=
  (ymd2ord (year j) (month j) (day j) - ymd2ord (year i) (month i) (day i)) * 86400
  + (hour j - hour i) * 3600 + (minute j - minute i) * 60.

(** [td.total_seconds()] *)
Definition total_seconds (td : timedelta) : Py.float := Py.float_of_int td.

(** [hour, minute = map(int, time_str.split(":"))]; [None] stands for the
    [ValueError] the [try] catches. *)
Definition hour_minute (time_str : string) : option (Z * Z) :=
  match List.map Py.int_of_str (Py.split ":" time_str) with
  | [Some h; Some mi] => Some (h, mi)
  | _ => None
  end.

Fixpoint get_timestamps (today : datetime) (lines : list string) : outcome (list datetime) :=
  match lines with
  | [] => Ok []
  | line :: rest =>
      match parse_line line with
      | None => get_timestamps today rest
      | Some (time_str, _, _) =>
          match hour_minute time_str with
          | None => get_timestamps today rest
          | Some (h, mi) =>
              match datetime_new (year today) (month today) (day today) h mi with
              | Raised e => Raised e
              | Ok ts =>
                  match get_timestamps today rest with
                  | Raised e => Raised e
                  | Ok timestamps => Ok (ts :: timestamps)
                  end
              end
          end
      end
  end.

(** [itertools.pairwise] *)
Definition pairwise {A : Type} (l : list A) : list (A * A) :=
  combine l (tail l).

Definition get_deltas (timestamps : list datetime) : list timedelta :=
  if (1 <? length timestamps)%nat
  then List.map (fun ij => datetime_sub (snd ij) (fst ij)) (pairwise timestamps)
  else [].

(** ** Per-line results *)

(** The loop of [get_tasks_results] from the line of index [i] on. *)
Fixpoint tasks_results_from (i : nat) (deltas : list timedelta) (lines : list string)
    : list TaskResult :=
  match lines with
  | [] => []
  | line :: rest =>
      match parse_line line with
      | None => tasks_results_from (S i) deltas rest
      | Some (_, task_id, desc) =>
          match deltas !! i with
          | None => []
          | Some d =>
              {| task_id := task_id;
                 delta_seconds := Py.int_of_float (total_seconds d);
                 desc := desc |} :: tasks_results_from (S i) deltas rest
          end
      end
  end.

Definition get_tasks_results (deltas : list timedelta) (lines : list string)
    : list TaskResult :=
  tasks_results_from 0 deltas lines.

(** The lines [get_tasks_results] warns about: those that do not match,
    up to the [break]. *)
Fixpoint unrecognized_from (i : nat) (deltas : list timedelta) (lines : list string)
    : list string :=
  match lines with
  | [] => []
  | line :: rest =>
      match parse_line line with
      | None => line :: unrecognized_from (S i) deltas rest
      | Some _ =>
          match deltas !! i with
          | None => []
          | Some _ => unrecognized_from (S i) deltas rest
          end
      end
  end.

(** ** Grouping *)

(** Truth value of an optional string: [None] and the empty string are false. *)
Definition truthy (o : option string) : bool :=
  match o with
  | Some (String _ _) => true
  | _ => false
  end.

(** The key under which [group_tasks] files a result. *)
Definition group_key (tr : TaskResult) : string :=
  if truthy (task_id tr) then default "" (task_id tr) +:+ " " +:+ desc tr
  else if String.eqb (desc tr) "" then "#no-desc" else desc tr.

(** One turn of the first loop of [group_tasks].  The quotient of
    [int(tr.delta_seconds / 60)] is exact here; the binary64 quotient is
    the same for the deltas of a day and differs for deltas of some 2^55
    seconds. *)
Definition group_step (grouped : @Dict.t bucket) (tr : TaskResult) : @Dict.t bucket :=
  let mins := Py.int_of_float (Py.fdiv (Py.float_of_int (delta_seconds tr)) (Py.float_of_int 60)) in
  let key := group_key tr in
  let fresh :=
    {| bucket_delta := 0; bucket_desc := ∅;
       bucket_task_id := if truthy (task_id tr) then task_id tr else None |} in
  let grouped := Dict.setdefault key fresh grouped in
  Dict.alter
    (fun b =>
       {| bucket_delta := bucket_delta b + mins;
          bucket_desc := if String.eqb (desc tr) "" then bucket_desc b
                         else bucket_desc b ∪ {[ desc tr ]};
          bucket_task_id := bucket_task_id b |})
    key grouped.

(** [round(total_minutes / 60.0 * 4) / 4], with exact quotients and
    products; binary64 gives the same value for the totals of a day and
    differs for totals of some 2^53 minutes. *)
Definition minutes_to_rounded_decimal_hours (total_minutes : Z) : Py.float :=
  let hours := Py.fdiv (Py.float_of_int total_minutes) (Py.float_of_int 60) in
  Py.fdiv (Py.float_of_int (Py.round (Py.fmul hours (Py.float_of_int 4))))
          (Py.float_of_int 4).

(** The second loop of [group_tasks], on one bucket. *)
Definition finalize (b : bucket) : entry :=
  let total_mins := bucket_delta b in
  {| entry_delta := bucket_delta b;
     entry_desc := bucket_desc b;
     entry_task_id := bucket_task_id b;
     task_total_mins := total_mins;
     task_total_hours := total_mins / 60;
     task_total_rest := total_mins mod 60;
     rounded_hours := minutes_to_rounded_decimal_hours total_mins |}.

Definition group_tasks (tasks_results : list TaskResult) : Grouped :=
  Dict.map_values finalize (foldl group_step [] tasks_results).

(** ** Defaults and totals *)

Definition set_task_id (value : string) (e : entry) : entry :=
  {| entry_delta := entry_delta e;
     entry_desc := entry_desc e;
     entry_task_id := Some value;
     task_total_mins := task_total_mins e;
     task_total_hours := task_total_hours e;
     task_total_rest := task_total_rest e;
     rounded_hours := rounded_hours e |}.

(** [apply_defaults]: the dictionary after the in-place update. *)
Definition apply_defaults (grouped_tasks : Grouped) (defaults_map : gmap string string)
    : Grouped :=
  foldl
    (fun grouped item =>
       if Dict.contains (fst item) grouped
       then Dict.alter (set_task_id (snd item)) (fst item) grouped
       else grouped)
    grouped_tasks (map_to_list defaults_map).

Definition compute_totals (tasks_results : list TaskResult) : Z * Z :=
  let total_delta_work :=
    Py.sum (List.map delta_seconds
              (List.filter (fun tr => negb (Py.startswith "#" (desc tr))) tasks_results)) in
  let total_delta_free :=
    Py.sum (List.map delta_seconds
              (List.filter (fun tr => Py.startswith "#" (desc tr)) tasks_results)) in
  (total_delta_work, total_delta_free).


(** ** The world the program acts on *)

(** A record sent to the time-tracking service by [time_entry.create]. *)
Record time_entry : Type := {
  issue_id : string;
  spent_on : string;
  hours : Py.float;
  comments : string
}.

(** A record handed to the logger. *)
Inductive log_event : Type :=
| LogError (msg : string)
| LogWarning (msg : string)
| LogInfo (msg : string)
| LogInfoGrouped (grouped : Grouped).

Record world : Type := {
  files : gmap string string;   (* path to text, for the files that exist *)
  sent : list time_entry;       (* the entries created so far *)
  logged : list log_event       (* the log, oldest first *)
}.

(** State and exceptions. *)
Definition M (A : Type) : Type := world -> outcome A * world.

Definition ret {A : Type} (a : A) : M A := fun w => (Ok a, w).

Definition bind {A B : Type} (m : M A) (k : A -> M B) : M B :=
  fun w =>
    match m w with
    | (Ok a, w') => k a w'
    | (Raised e, w') => (Raised e, w')
    end.

Definition raise {A : Type} (e : exn) : M A := fun w => (Raised e, w).

Definition lift {A : Type} (o : outcome A) : M A := fun w => (o, w).

Notation "x <- m ;; k" := (bind m (fun x => k))
  (at level 100, m at next level, right associativity).
Notation "m ;;; k" := (bind m (fun _ => k))
  (at level 100, right associativity).

Definition log_record (ev : log_event) : M unit :=
  fun w => (Ok tt, {| files := files w; sent := sent w; logged := logged w ++ [ev] |}).

(** Writing [text] through a handle opened with mode ["a"]: the file is
    created when it does not exist. *)
Definition append_file (path text : string) : M unit :=
  fun w =>
    (Ok tt,
     {| files := <[ path := default "" (files w !! path) +:+ text ]> (files w);
        sent := sent w; logged := logged w |}).

(** [redmine_client.time_entry.create(...)] on a service that accepts the
    entry.  A call that raises (network, authentication, unknown issue) is
    caught by nothing in the program and ends the run: such a run is the
    run of the model cut short at that call. *)
Definition create_time_entry (te : time_entry) : M unit :=
  fun w => (Ok tt, {| files := files w; sent := sent w ++ [te]; logged := logged w |}).

Fixpoint for_each {A : Type} (f : A -> M unit) (l : list A) : M unit :=
  match l with
  | [] => ret tt
  | x :: rest => f x ;;; for_each f rest
  end.

Definition get_lines (path : string) : M (list string) :=
  fun w =>
    match files w !! path with
    | None => (log_record (LogError ("Log file not found: " +:+ path)) ;;;
               raise FileNotFoundError) w
    | Some content => (Ok (nonblank_lines content), w)
    end.

(** [is_already_parsed] with its log record. *)
Definition is_already_parsed_logged (lines : list string) : M bool :=
  if is_already_parsed lines
  then log_record (LogInfo "File already parsed") ;;; ret true
  else ret false.

(** [get_tasks_results] with its warnings. *)
Definition get_tasks_results_logged (deltas : list timedelta) (lines : list string)
    : M (list TaskResult) :=
  for_each (fun line => log_record (LogWarning ("Unrecognized line format (skipping): " +:+ line)))
           (unrecognized_from 0 deltas lines) ;;;
  ret (get_tasks_results deltas lines).

(** ** The summary *)

Section Summary.
(** [repr] of a float, as an f-string prints it; it is not modelled. *)
Variable float_repr : Py.float -> string.

Definition joined_desc (values : entry) : string :=
  Py.join ", " (Py.sorted (elements (entry_desc values))).

(** The label that ends a bucket's line. *)
Definition bucket_text (task : string) (values : entry) : string :=
  let joined := joined_desc values in
  if negb (Py.startswith "#" task) then
    match entry_task_id values with
    | None => joined
    | Some tid => if String.eqb joined tid then joined else tid +:+ " " +:+ joined
    end
  else if String.eqb joined task then joined else task +:+ " " +:+ joined.

Definition bucket_line (task : string) (values : entry) : string :=
  Py.str_of_int (task_total_mins values) +:+ " = "
  +:+ Py.str_of_int (task_total_hours values) +:+ "h "
  +:+ Py.str_of_int (task_total_rest values) +:+ "m ~ "
  +:+ float_repr (rounded_hours values) +:+ "h: "
  +:+ bucket_text task values +:+ "
".

(** [total_rounded_hours] when the loop over the buckets ends. *)
Definition total_rounded_hours (grouped_tasks : Grouped) : Py.float :=
  foldl
    (fun total item =>
       if negb (Py.startswith "#" (fst item))
       then Py.fadd total (rounded_hours (snd item))
       else total)
    (Py.float_of_int 0) grouped_tasks.

(** Seconds to whole minutes: [int(seconds / 60)]. *)
Definition whole_minutes (seconds : Z) : Z :=
  Py.int_of_float (Py.fdiv (Py.float_of_int seconds) (Py.float_of_int 60)).

Definition saldo_mins (grouped_tasks : Grouped) : Z :=
  Py.int_of_float
    (Py.fabs (Py.fsub (Py.fmul (total_rounded_hours grouped_tasks) (Py.float_of_int 60))
                      (Py.float_of_int EIGHT_HOURS_IN_MINS))).

Definition is_saldo_ge_zero (total_delta_work : Z) : bool :=
  EIGHT_HOURS_IN_MINS <=? whole_minutes total_delta_work.

Definition sign (total_delta_work : Z) : string :=
  if is_saldo_ge_zero total_delta_work then "" else "-".

Definition on_target_remark : string :=
  "working " +:+ String "197" (String "161" "ul-nul") +:+ "
".

Definition closing_remark (grouped_tasks : Grouped) (total_delta_work : Z) : string :=
  if saldo_mins grouped_tasks =? 0 then on_target_remark
  else if String.eqb (sign total_delta_work) "" then "working too much
"
  else "working too little
".

Definition totals_lines (grouped_tasks : Grouped) (total_delta_work total_delta_free : Z)
    : string :=
  let total_mins := whole_minutes (total_delta_work + total_delta_free) in
  let total_hours := total_mins / 60 in
  let total_rest := total_mins mod 60 in
  let total_delta_work_mins := whole_minutes total_delta_work in
  let total_delta_free_mins := whole_minutes total_delta_free in
  let total_delta_work_hours := total_delta_work_mins / 60 in
  let total_delta_free_hours := total_delta_free_mins / 60 in
  let total_delta_work_rest := total_delta_work_mins mod 60 in
  let total_delta_free_rest := total_delta_free_mins mod 60 in
  "total: " +:+ Py.str_of_int total_hours +:+ "h " +:+ Py.str_of_int total_rest
    +:+ "m (" +:+ Py.str_of_int total_mins +:+ ")
"
  +:+ "total work: " +:+ Py.str_of_int total_delta_work_hours +:+ "h "
    +:+ Py.str_of_int total_delta_work_rest +:+ "m ("
    +:+ Py.str_of_int total_delta_work_mins +:+ ")
"
  +:+ "total work rounded hours: " +:+ float_repr (total_rounded_hours grouped_tasks) +:+ "
"
  +:+ "total free:  " +:+ Py.str_of_int total_delta_free_hours +:+ "h "
    +:+ Py.str_of_int total_delta_free_rest +:+ "m ("
    +:+ Py.str_of_int total_delta_free_mins +:+ ")
".

Definition saldo_line (grouped_tasks : Grouped) (total_delta_work : Z) : string :=
  let saldo := saldo_mins grouped_tasks in
  let sg := sign total_delta_work in
  "saldo: " +:+ sg +:+ Py.str_of_int (saldo / 60) +:+ "h "
  +:+ Py.str_of_int (saldo mod 60) +:+ "m (" +:+ sg +:+ Py.str_of_int saldo +:+ ")
".

(** Everything [append_result] writes, in order. *)
Definition summary_text (grouped_tasks : Grouped) (total_delta_work total_delta_free : Z)
    : string :=
  "

Summary:
"
  +:+ foldr (fun item rest => bucket_line (fst item) (snd item) +:+ rest) "" grouped_tasks
  +:+ "
"
  +:+ totals_lines grouped_tasks total_delta_work total_delta_free
  +:+ saldo_line grouped_tasks total_delta_work
  +:+ closing_remark grouped_tasks total_delta_work
  +:+ "already parsed".

Definition append_result (path : string) (grouped_tasks : Grouped)
    (total_delta_work total_delta_free : Z) : M unit :=
  append_file path (summary_text grouped_tasks total_delta_work total_delta_free).

(** ** Submission and [main] *)

Definition pad2 (n : Z) : string :=
  if (0 <=? n) && (n <? 10) then "0" +:+ Py.str_of_int n else Py.str_of_int n.

(** [date.strftime("%Y-%m-%d")], as the C library prints it: the month and
    the day with two digits, the year as it is (four digits from the year
    1000 on, fewer below). *)
Definition strftime_ymd (date : datetime) : string :=
  Py.str_of_int (year date) +:+ "-" +:+ pad2 (month date) +:+ "-" +:+ pad2 (day date).

Definition send_time_entries (grouped_tasks : Grouped) (date : datetime) : M unit :=
  let result_date := strftime_ymd date in
  for_each
    (fun grouped_task =>
       if truthy (entry_task_id grouped_task)
          && negb (Qle_bool (rounded_hours grouped_task) 0)
       then create_time_entry
              {| issue_id := default "" (entry_task_id grouped_task);
                 spent_on := result_date;
                 hours := rounded_hours grouped_task;
                 comments := joined_desc grouped_task |}
       else ret tt)
    (Dict.values grouped_tasks).

(** [answer.strip().lower() != "y"] *)
Definition declined (answer : string) : bool :=
  negb (String.eqb (Py.strip answer) "y" || String.eqb (Py.strip answer) "Y").

(** [main], from the line that reads the file on: [today] is the day of
    the log, [path] is [get_path(today)], [answer] is what the user types
    at the prompt.  The prompt is answered and the service accepts every
    entry: a run in which [input] or a [create] call raises is this run
    cut short at that call, which comes after the summary is written. *)
Definition main (today : datetime) (path : string) (answer : string) : M unit :=
  lines <- get_lines path ;;
  already <- is_already_parsed_logged lines ;;
  if already : bool then ret tt
  else
    timestamps <- lift (get_timestamps today lines) ;;
    let deltas := get_deltas timestamps in
    tasks_results <- get_tasks_results_logged deltas lines ;;
    let totals := compute_totals tasks_results in
    let grouped_tasks := apply_defaults (group_tasks tasks_results) defaults in
    append_result path grouped_tasks (fst totals) (snd totals) ;;;
    log_record (LogInfoGrouped grouped_tasks) ;;;
    if declined answer
    then log_record (LogInfo "User declined sending to API. Finishing.")
    else send_time_entries grouped_tasks today.
End Summary.

(** [repr] of a float that is a multiple of a quarter and below 1e16 in
    magnitude, the values the summary prints; used to run the model. *)
Definition quarter_repr (x : Py.float) : string :=
  let q := Qnum (Qred (x * 4)) in
  let a := Z.abs q in
  (if q <? 0 then "-" else "") +:+ Py.str_of_int (a / 4) +:+ "."
  +:+ match a mod 4 with
      | 1 => "25"
      | 2 => "5"
      | 3 => "75"
      | _ => "0"
      end.


(** ** Notions used to state the properties *)

(** The sum of [delta_seconds] over the results that satisfy [p]. *)
Fixpoint seconds_where (p : TaskResult -> bool) (tasks_results : list TaskResult) : Z :=
  match tasks_results with
  | [] => 0
  | tr :: rest => (if p tr then delta_seconds tr else 0) + seconds_where p rest
  end.

(** The description starts with the character [#]. *)
Definition marks_free_time (description : string) : Prop :=
  exists rest : string, description = String "#" rest.

(** The last line that is not empty. *)
Definition last_nonempty_line (lines : list string) : option string :=
  last (List.filter (fun l => negb (String.eqb l "")) lines).

(** The world after a run that only logged [ev]. *)
Definition only_logged (ev : log_event) (w : world) : world :=
  {| files := files w; sent := sent w; logged := logged w ++ [ev] |}.

(** One turn of the loop of [apply_defaults]. *)
Definition default_step (grouped : Grouped) (item : string * string) : Grouped :=
  if Dict.contains (fst item) grouped
  then Dict.alter (set_task_id (snd item)) (fst item) grouped
  else grouped.

(** Two buckets that agree on every field but the task id. *)
Definition same_but_task_id (e e' : entry) : Prop :=
  entry_delta e' = entry_delta e /\ entry_desc e' = entry_desc e
  /\ task_total_mins e' = task_total_mins e
  /\ task_total_hours e' = task_total_hours e
  /\ task_total_rest e' = task_total_rest e
  /\ rounded_hours e' = rounded_hours e.

(** The sum of the rounded hours of the buckets whose key does not start
    with [#]. *)
Fixpoint rounded_work_hours (grouped_tasks : Grouped) : Q :=
  match grouped_tasks with
  | [] => 0%Q
  | (task, values) :: rest =>
      ((if Py.startswith "#" task then 0 else rounded_hours values)
       + rounded_work_hours rest)%Q
  end.

(** A float that is a whole number of quarters. *)
Definition whole_quarters (x : Q) : Prop := exists k : Z, (x == k # 4)%Q.

(** The key of a result as the specification words it: the task id, a
    space and the description when a task id is present (it is a string,
    and not the empty one); otherwise the description; otherwise, when the
    description is empty, "#no-desc". *)
Definition bucket_key (tr : TaskResult) : string :=
  match task_id tr with
  | Some (String c t) => String c t +:+ " " +:+ desc tr
  | _ => match desc tr with
         | EmptyString => "#no-desc"
         | String _ _ => desc tr
         end
  end.

(** The whole minutes of the results filed under [key], summed. *)
Fixpoint minutes_under (key : string) (tasks_results : list TaskResult) : Z :=
  match tasks_results with
  | [] => 0
  | tr :: rest =>
      (if String.eqb (bucket_key tr) key then delta_seconds tr / 60 else 0)
      + minutes_under key rest
  end.

(** The non-empty descriptions of the results filed under [key]. *)
Fixpoint descs_under (key : string) (tasks_results : list TaskResult) : gset string :=
  match tasks_results with
  | [] => ∅
  | tr :: rest =>
      (if String.eqb (bucket_key tr) key && negb (String.eqb (desc tr) "")
       then {[ desc tr ]} else ∅)
      ∪ descs_under key rest
  end.

(** The year, month and day are those of a date that exists. *)
Definition valid_date (d : datetime) : Prop :=
  1 <= year d <= 9999 /\ 1 <= month d <= 12 /\ 1 <= day d <= days_in_month (year d) (month d).

(** What one result adds to the bucket it is filed under. *)
Definition add_result (tr : TaskResult) (b : bucket) : bucket :=
  {| bucket_delta := bucket_delta b + Z.quot (delta_seconds tr) 60;
     bucket_desc := if String.eqb (desc tr) "" then bucket_desc b
                    else bucket_desc b ∪ {[ desc tr ]};
     bucket_task_id := bucket_task_id b |}.

Definition fresh_bucket (tr : TaskResult) : bucket :=
  {| bucket_delta := 0; bucket_desc := ∅;
     bucket_task_id := if truthy (task_id tr) then task_id tr else None |}.

(** The minutes under [key] with the truncation towards zero the code uses. *)
Fixpoint quot_minutes_under (key : string) (tasks_results : list TaskResult) : Z :=
  match tasks_results with
  | [] => 0
  | tr :: rest =>
      (if String.eqb (bucket_key tr) key then Z.quot (delta_seconds tr) 60 else 0)
      + quot_minutes_under key rest
  end.

(** The two lines of the aggregation example. *)
Definition task_a_lines : list string :=
  ["08:00 12345 Task A"; "09:00 12345 Task A"].

(** ** A one-pass reading of [LINE_PATTERN] *)

(** Every character of [s] satisfies [p]. *)
Fixpoint str_all (p : ascii -> bool) (s : string) : bool :=
  match s with
  | EmptyString => true
  | String c s' => p c && str_all p s'
  end.

Definition not_newline (c : ascii) : bool := negb (Py.is_newline c).

(** Exactly [n] leading digits, and what follows them. *)
Fixpoint take_digits (n : nat) (s : string) : option (string * string) :=
  match n with
  | O => Some (EmptyString, s)
  | S n' =>
      match s with
      | String c s' =>
          if Py.isdecimal c then
            match take_digits n' s' with
            | Some (m, r) => Some (String c m, r)
            | None => None
            end
          else None
      | EmptyString => None
      end
  end.

(** Where [$] matches. *)
Definition at_eol (s : string) : bool :=
  match s with
  | EmptyString => true
  | String c EmptyString => Py.is_newline c
  | _ => false
  end.

(** Group 3 when the rest of the line is [s]: everything up to the end of
    the line. *)
Definition line_end (s : string) : option string :=
  if at_eol (Py.drop_while not_newline s) then Some (Py.take_while not_newline s) else None.

(** After the time: whitespace, an optional task id, whitespace, the
    description. *)
Definition scan_after_time (s : string) : option (option string * string) :=
  match s with
  | String c s' =>
      if Py.isspace c then
        let r0 := Py.lstrip s' in
        match take_digits 5 r0 with
        | Some (tid, r1) =>
            match line_end (Py.lstrip r1) with
            | Some description => Some (Some tid, description)
            | None => None
            end
        | None =>
            match line_end r0 with
            | Some description => Some (None, description)
            | None => None
            end
        end
      else None
  | EmptyString => None
  end.

(** The time: one or two digits, a colon, two digits; the two digit groups
    and what follows. *)
Definition scan_time (s : string) : option (string * string * string) :=
  match take_digits 1 s with
  | None => None
  | Some (d1, s1) =>
      let hh_rest :=
        match take_digits 1 s1 with
        | Some (d2, s2) => (d1 +:+ d2, s2)
        | None => (d1, s1)
        end in
      match snd hh_rest with
      | String c s3 =>
          if Ascii.eqb c ":" then
            match take_digits 2 s3 with
            | Some (mm, s4) => Some (fst hh_rest, mm, s4)
            | None => None
            end
          else None
      | EmptyString => None
      end
  end.

(** The groups of a line, read left to right without going back. *)
Definition scan_line (line : string) : option (string * option string * string) :=
  match scan_time (Py.drop_while Py.isspace line) with
  | None => None
  | Some (hh, mm, rest) =>
      match scan_after_time rest with
      | None => None
      | Some (tid, description) =>
          Some (Py.take_while Py.isspace line +:+ hh +:+ ":" +:+ mm, tid, description)
      end
  end.

(** The line the specification rebuilds from the three fields. *)
Definition reassemble (time_str : string) (tid : option string) (description : string)
    : string :=
  match tid with
  | Some t => time_str +:+ " " +:+ t +:+ " " +:+ description
  | None => time_str +:+ " " +:+ description
  end.

(** A string of digits. *)
Definition digits (s : string) : Prop := str_all Py.isdecimal s = true.

(** What [parse_line] returns is always of this form: the time is one or
    two digits, a colon and two digits; a task id is five digits; the
    description has no newline and no leading whitespace, and it does not
    start with five digits when there is no task id. *)
Definition parsed_fields (time_str : string) (tid : option string) (description : string)
    : Prop :=
  (exists hh mm : string,
      time_str = hh +:+ ":" +:+ mm
      /\ digits hh /\ (1 <= String.length hh <= 2)%nat
      /\ digits mm /\ String.length mm = 2%nat)
  /\ match tid with
     | Some t => digits t /\ String.length t = 5%nat
     | None => take_digits 5 description = None
     end
  /\ str_all not_newline description = true
  /\ Py.lstrip description = description.

(** The hour and minute [get_timestamps] reads on a line, when it matches. *)
Definition line_time (line : string) : option (Z * Z) :=
  match parse_line line with
  | Some (time_str, _, _) => hour_minute time_str
  | None => None
  end.

Definition matches_pattern (line : string) : bool :=
  match parse_line line with
  | Some _ => true
  | None => false
  end.

(** The timestamp of [today] at [hm]. *)
Definition at_time (today : datetime) (hm : Z * Z) : datetime :=
  {| year := year today; month := month today; day := day today;
     hour := fst hm; minute := snd hm |}.

(** The result for the line at index [i], when the line parses and
    [deltas] has an entry at [i]. *)
Definition result_at (deltas : list timedelta) (i : nat) (line : string)
    : option TaskResult :=
  match parse_line line, deltas !! i with
  | Some (_, tid, description), Some d =>
      Some {| task_id := tid; delta_seconds := d; desc := description |}
  | _, _ => None
  end.

(** One result for each line that has one, in order, from index [i] on. *)
Fixpoint results_by_index (deltas : list timedelta) (i : nat) (lines : list string)
    : list TaskResult :=
  match lines with
  | [] => []
  | line :: rest =>
      match result_at deltas i line with
      | Some r => r :: results_by_index deltas (S i) rest
      | None => results_by_index deltas (S i) rest
      end
  end.

(** The day of the repository's tests. *)
Definition test_day : datetime :=
  {| year := 2026; month := 2; day := 21; hour := 0; minute := 0 |}.

(** A log whose first line is not a log line. *)
Definition log_with_heading : list string :=
  ["# Saturday"; "08:00 a"; "09:00 b"; "09:30 c"].

(** ** The same arithmetic in binary64

    The two float computations of the program, carried out on Rocq's
    primitive binary64 numbers, to compare the rational model with. *)

Module F64.

(** [float(n)] for an integer below 2^63 in magnitude. *)
Definition of_int (n : Z) : PrimFloat.float :=
  if n <? 0 then PrimFloat.opp (PrimFloat.of_uint63 (Uint63.of_Z (- n)))
  else PrimFloat.of_uint63 (Uint63.of_Z n).

(** The rational a finite binary64 number denotes. *)
Definition to_Q (x : PrimFloat.float) : option Q :=
  match Prim2SF x with
  | S754_zero _ => Some 0%Q
  | S754_finite s m e =>
      let v := if 0 <=? e then inject_Z (Z.shiftl (Zpos m) e)
               else Zpos m # Z.to_pos (Z.shiftl 1 (- e)) in
      Some (if s then Qopp v else v)
  | _ => None
  end.

(** [int(seconds / 60)] *)
Definition whole_minutes (seconds : Z) : option Z :=
  Py.int_of_float <$> to_Q (PrimFloat.div (of_int seconds) (of_int 60)).

(** [round(total_minutes / 60.0 * 4) / 4] *)
Definition minutes_to_rounded_decimal_hours (total_minutes : Z) : option Q :=
  let hours := PrimFloat.div (of_int total_minutes) (of_int 60) in
  match to_Q (PrimFloat.mul hours (of_int 4)) with
  | Some quarters => to_Q (PrimFloat.div (of_int (Py.round quarters)) (of_int 4))
  | None => None
  end.

End F64.

(** The integers from [lo], [n] of them. *)
Fixpoint zrange (lo : Z) (n : nat) : list Z :=
  match n with
  | O => []
  | S n' => lo :: zrange (lo + 1) n'
  end.

Definition agree_on_seconds (seconds : Z) : bool :=
  match F64.whole_minutes seconds with
  | Some v => v =? whole_minutes seconds
  | None => false
  end.

Definition agree_on_minutes (total_minutes : Z) : bool :=
  match F64.minutes_to_rounded_decimal_hours total_minutes with
  | Some v => Qeq_bool v (minutes_to_rounded_decimal_hours total_minutes)
  | None => false
  end.

(** A small log, alone in the file system. *)
Definition sample_world : world :=
  {| files := {[ "log.md" := "08:00 standup
09:00 12345 Task A

10:15 #lunch
11:00 x
" ]};
     sent := []; logged := [] |}.

(** ** Notions used to state the properties of the rest of the pipeline *)

(** A timestamp of the day [today], with a time of day that exists. *)
Definition on_day (today t : datetime) : Prop :=
  year t = year today /\ month t = month today /\ day t = day today
  /\ 0 <= hour t <= 23 /\ 0 <= minute t <= 59.

(** The minutes since midnight of a timestamp. *)
Definition minute_of_day (t : datetime) : Z := hour t * 60 + minute t.

(** A number of seconds that is a whole number of minutes, less than a day
    in either direction. *)
Definition minutes_within_a_day (seconds : Z) : Prop :=
  exists k : Z, seconds = 60 * k /\ -1439 <= k <= 1439.
(** The entry [send_time_entries] creates for a bucket, when it creates one. *)
Definition time_entry_of (date : datetime) (grouped_task : entry) : option time_entry :=
  if truthy (entry_task_id grouped_task) && negb (Qle_bool (rounded_hours grouped_task) 0)
  then Some {| issue_id := default "" (entry_task_id grouped_task);
               spent_on := strftime_ymd date;
               hours := rounded_hours grouped_task;
               comments := joined_desc grouped_task |}
  else None.

(** The world after a run of [main] that got as far as the summary. *)
Definition after_summary (float_repr : Py.float -> string) (today : datetime)
    (path answer content : string) (timestamps : list datetime) (w : world) : world :=
  let lines := nonblank_lines content in
  let deltas := get_deltas timestamps in
  let tasks_results := get_tasks_results deltas lines in
  let totals := compute_totals tasks_results in
  let grouped_tasks := apply_defaults (group_tasks tasks_results) defaults in
  {| files :=
       <[ path := content +:+ summary_text float_repr grouped_tasks (fst totals) (snd totals) ]>
         (files w);
     sent :=
       sent w ++ (if declined answer then []
                  else omap (time_entry_of today) (Dict.values grouped_tasks));
     logged :=
       logged w
       ++ List.map (fun line => LogWarning ("Unrecognized line format (skipping): " +:+ line))
            (unrecognized_from 0 deltas lines)
       ++ [LogInfoGrouped grouped_tasks]
       ++ (if declined answer
           then [LogInfo "User declined sending to API. Finishing."] else []) |}.
(** The distinct elements of a list, in the order in which each occurs
    first. *)
Fixpoint first_occurrences (keys : list string) : list string :=
  match keys with
  | [] => []
  | key :: rest =>
      key :: List.filter (fun key' => negb (String.eqb key key')) (first_occurrences rest)
  end.

(** The minutes the buckets show, added up. *)
Definition bucket_minutes (grouped_tasks : Grouped) : Z :=
  Py.sum (List.map task_total_mins (Dict.values grouped_tasks)).
(** The text of a file that holds [lines], each ended by a newline. *)
Definition text_of_lines (lines : list string) : string :=
  foldr (fun line rest => line +:+ String "010" rest) "" lines.

(** A line as a text file can hold it: no line feed, no carriage return. *)
Definition one_line (s : string) : bool :=
  str_all (fun c => negb (Py.is_newline c) && negb (Py.ord c =? 13)) s.
(** ** The path of the log file *)

(** [config.root_folder] *)
Definition root_folder : string := "~/logtime".

Definition NUMBER_TO_DAY_OF_WEEK (n : Z) : option string :=
  match n with
  | 0 => Some "MO"
  | 1 => Some "TU"
  | 2 => Some "WE"
  | 3 => Some "TH"
  | 4 => Some "FR"
  | 5 => Some "SA"
  | 6 => Some "SU"
  | _ => None
  end.

(** [today.weekday()]: Monday is 0. *)
Definition weekday (d : datetime) : Z := (ymd2ord (year d) (month d) (day d) + 6) mod 7.

(** A [Path] is the list of its parts.  [path_parts s] is [Path(s)] for a
    relative [s]: empty components and the component [.] are dropped. *)
Definition path_parts (s : string) : list string :=
  List.filter (fun part => negb (String.eqb part "" || String.eqb part "."))
    (Py.split "/" s).

(** [p.expanduser()] when the home directory is the path [home]: a first
    part [~] is replaced by it. *)
Definition expanduser (home p : list string) : list string :=
  match p with
  | part :: rest => if String.eqb part "~" then home ++ rest else p
  | [] => p
  end.

(** [get_path]; [None] stands for the [KeyError] of a day number that is
    not in [NUMBER_TO_DAY_OF_WEEK]. *)
Definition get_path (home : list string) (today : datetime) : option (list string) :=
  let year := year today in
  let month := pad2 (month today) in
  let whole_date := strftime_ymd today in
  match NUMBER_TO_DAY_OF_WEEK (weekday today) with
  | None => None
  | Some day_of_the_week =>
      let file_path :=
        path_parts root_folder
        ++ [Py.str_of_int year; month; whole_date +:+ " " +:+ day_of_the_week +:+ ".md"] in
      Some (expanduser home file_path)
  end.

(** The first two characters of [pad2 n] read back as [n]. *)
Definition reads_back (n : Z) : bool :=
  match pad2 n with
  | String a (String b EmptyString) =>
      match Py.int_of_str (String a (String b EmptyString)) with
      | Some v => v =? n
      | None => false
      end
  | _ => false
  end.

(** The whole minutes [int(delta_seconds / 60)] of the results filed under
    [key], added up: what the first loop of [group_tasks] accumulates. *)
Fixpoint whole_minutes_under (key : string) (tasks_results : list TaskResult) : Z :=
  match tasks_results with
  | [] => 0
  | tr :: rest =>
      (if String.eqb (bucket_key tr) key then whole_minutes (delta_seconds tr) else 0)
      + whole_minutes_under key rest
  end.

(** ** The saldo in binary64

    The running sum of the rounded hours and the saldo of [append_result],
    on binary64 numbers, for buckets whose rounded hours are the given
    numbers of quarters. *)

Module F64Saldo.

(** The float [quarters / 4]. *)
Definition of_quarters (quarters : Z) : PrimFloat.float :=
  PrimFloat.div (F64.of_int quarters) (F64.of_int 4).

(** [total_rounded_hours] after the loop: it starts at [0.0] and each
    bucket adds its rounded hours. *)
Definition total_rounded_hours (quarters : list Z) : PrimFloat.float :=
  foldl (fun total j => PrimFloat.add total (of_quarters j)) (F64.of_int 0) quarters.

(** [int(abs(total_rounded_hours * 60 - EIGHT_HOURS_IN_MINS))] *)
Definition saldo_mins (total : PrimFloat.float) : option Z :=
  Py.int_of_float
    <$> F64.to_Q (PrimFloat.abs
                    (PrimFloat.sub (PrimFloat.mul total (F64.of_int 60))
                                   (F64.of_int EIGHT_HOURS_IN_MINS))).

End F64Saldo.







(** * Properties *)

(** ** Arithmetic of the float operations *)

Lemma Qred_quot (x : Q) :
  Z.quot (Qnum (Qred x)) (Zpos (Qden (Qred x))) = Z.quot (Qnum x) (Zpos (Qden x)).
Proof.
  destruct x as [n d]. unfold Qred.
  pose proof (Z.ggcd_correct_divisors n (Zpos d)) as Hdiv.
  pose proof (Z.ggcd_gcd n (Zpos d)) as Hg.
  pose proof (Z.gcd_nonneg n (Zpos d)) as Hnn.
  destruct (Z.ggcd n (Zpos d)) as [g [n' d']]. simpl in *.
  destruct Hdiv as [Hn Hd].
  assert (g <> 0) by (intros Hz; rewrite Hz in Hd; clear - Hd; lia).
  assert (0 < g) by lia.
  assert (0 < d') by nia.
  rewrite Z2Pos.id by assumption.
  rewrite Hn, Hd. symmetry. apply Z.quot_mul_cancel_l; lia.
Qed.

Lemma int_of_float_fdiv (a : Z) (b : positive) :
  Py.int_of_float (Py.fdiv (Py.float_of_int a) (Py.float_of_int (Zpos b))) = Z.quot a (Zpos b).
Proof.
  unfold Py.int_of_float, Py.fdiv, Py.float_of_int. rewrite Qred_quot.
  unfold Qdiv, Qmult, Qinv, inject_Z. simpl.
  rewrite Z.mul_1_r. reflexivity.
Qed.

Lemma whole_minutes_quot (seconds : Z) : whole_minutes seconds = Z.quot seconds 60.
Proof. apply (int_of_float_fdiv seconds 60). Qed.

(** [round] is within a half of its argument. *)
Lemma round_half (x : Q) : (Qabs (inject_Z (Py.round x) - x) <= 1 # 2)%Q.
Proof.
  destruct x as [n d]. unfold Py.round. cbn [Qnum Qden].
  pose proof (Z.div_mod n (Zpos d) ltac:(lia)) as Hdm.
  pose proof (Z.mod_pos_bound n (Zpos d) ltac:(lia)) as Hb.
  set (lo := n / Zpos d) in *. set (r := n mod Zpos d) in *.
  clearbody lo r.
  assert (Hcase : forall k : Z, 2 * Z.abs (k * Zpos d - n) <= Zpos d ->
            (Qabs (inject_Z k - (n # d)) <= 1 # 2)%Q).
  { intros k Hk. unfold Qle, Qabs, Qminus, Qplus, Qopp, inject_Z. simpl.
    rewrite Z.mul_1_r.
    replace (k * Zpos d + - n * 1) with (k * Zpos d - n) by lia.
    rewrite Pos.mul_1_l. lia. }
  destruct (Z.compare_spec (2 * r) (Zpos d)) as [Hc | Hc | Hc].
  - destruct (Z.even lo); apply Hcase; lia.
  - apply Hcase. lia.
  - apply Hcase. lia.
Qed.

(** The argument of [round] in [minutes_to_rounded_decimal_hours] is the
    number of quarters, [total_minutes / 15]. *)
Lemma quarters_value (total_minutes : Z) :
  (Py.fmul (Py.fdiv (Py.float_of_int total_minutes) (Py.float_of_int 60)) (Py.float_of_int 4)
   == total_minutes # 15)%Q.
Proof.
  unfold Py.fmul, Py.fdiv, Py.float_of_int.
  rewrite !Qred_correct.
  unfold Qeq, Qdiv, Qmult, Qinv, inject_Z. cbn [Qnum Qden]. lia.
Qed.

Lemma round_quarters_near (total_minutes : Z) :
  let k := Py.round (Py.fmul (Py.fdiv (Py.float_of_int total_minutes) (Py.float_of_int 60))
                             (Py.float_of_int 4)) in
  2 * Z.abs (15 * k - total_minutes) <= 15.
Proof.
  intros k.
  pose proof (round_half (Py.fmul (Py.fdiv (Py.float_of_int total_minutes) (Py.float_of_int 60))
                                  (Py.float_of_int 4))) as H.
  fold k in H. rewrite quarters_value in H.
  unfold Qle, Qabs, Qminus, Qplus, Qopp, inject_Z in H. cbn [Qnum Qden] in H.
  lia.
Qed.

Lemma rounded_hours_quarters (total_minutes : Z) :
  minutes_to_rounded_decimal_hours total_minutes
  = Qred (Py.round (Py.fmul (Py.fdiv (Py.float_of_int total_minutes) (Py.float_of_int 60))
                            (Py.float_of_int 4)) # 4).
Proof.
  unfold minutes_to_rounded_decimal_hours, Py.fdiv at 1.
  apply Qred_complete.
  unfold Qeq, Qdiv, Qmult, Qinv, Py.float_of_int, inject_Z. cbn [Qnum Qden]. lia.
Qed.

(** ** Totals *)

Lemma sum_foldl (acc : Z) (xs : list Z) : foldl Z.add acc xs = acc + Py.sum xs.
Proof.
  unfold Py.sum. revert acc. induction xs as [| x xs IH]; intros acc; cbn [foldl].
  - lia.
  - rewrite IH, (IH (0 + x)). lia.
Qed.

Lemma sum_cons (x : Z) (xs : list Z) : Py.sum (x :: xs) = x + Py.sum xs.
Proof. unfold Py.sum at 1. cbn [foldl]. rewrite sum_foldl. lia. Qed.

Lemma sum_filter_seconds (p : TaskResult -> bool) (tasks_results : list TaskResult) :
  Py.sum (List.map delta_seconds (List.filter p tasks_results)) = seconds_where p tasks_results.
Proof.
  induction tasks_results as [| tr rest IH]; [reflexivity |].
  cbn [List.filter seconds_where]. destruct (p tr); cbn [List.map].
  - rewrite sum_cons, IH. reflexivity.
  - rewrite IH. lia.
Qed.

Lemma startswith_hash (description : string) :
  Py.startswith "#" description = true <-> marks_free_time description.
Proof.
  unfold marks_free_time. destruct description as [| c rest]; cbn [Py.startswith].
  - split; [discriminate | intros [r Hr]; discriminate].
  - rewrite Ascii.eqb_eq. split.
    + intros ->. eauto.
    + intros [r Hr]. congruence.
Qed.

Lemma seconds_where_split (p : TaskResult -> bool) (tasks_results : list TaskResult) :
  seconds_where (fun tr => negb (p tr)) tasks_results + seconds_where p tasks_results
  = seconds_where (fun _ => true) tasks_results.
Proof.
  induction tasks_results as [| tr rest IH]; [reflexivity |].
  cbn [seconds_where]. destruct (p tr); cbn [negb]; lia.
Qed.

(** C4: [compute_totals] returns (work, free): work is the sum of
    [delta_seconds] over the results whose description does not start with
    [#], free the sum over those whose description does; every result counts
    in exactly one of the two, and work + free is the sum of all deltas. *)
Theorem compute_totals_work_free (tasks_results : list TaskResult) :
  let is_free := fun tr => Py.startswith "#" (desc tr) in
  compute_totals tasks_results
  = (seconds_where (fun tr => negb (is_free tr)) tasks_results,
     seconds_where is_free tasks_results)
  /\ (forall tr, is_free tr = true <-> marks_free_time (desc tr))
  /\ (forall tr, negb (is_free tr) = true <-> ~ marks_free_time (desc tr))
  /\ fst (compute_totals tasks_results) + snd (compute_totals tasks_results)
     = seconds_where (fun _ => true) tasks_results.
Proof.
  intros is_free.
  assert (Hct : compute_totals tasks_results
                = (seconds_where (fun tr => negb (is_free tr)) tasks_results,
                   seconds_where is_free tasks_results)).
  { unfold compute_totals. rewrite !sum_filter_seconds. reflexivity. }
  split; [exact Hct |]. split; [| split].
  - intros tr. apply startswith_hash.
  - intros tr. rewrite <- startswith_hash. fold (is_free tr).
    destruct (is_free tr); cbn; split; congruence.
  - rewrite Hct. cbn [fst snd]. apply seconds_where_split.
Qed.

(** ** The already-parsed marker *)

(** C5, as stated, fails: a last line with surrounding whitespace is not
    exactly the marker, and the file is detected all the same. *)
Lemma already_parsed_not_exact :
  let lines := nonblank_lines "08:00 a
  already parsed " in
  lines = ["08:00 a"; "  already parsed "]
  /\ is_already_parsed lines = true
  /\ last_nonempty_line lines <> Some "already parsed".
Proof. cbv zeta. split; [reflexivity | split; [reflexivity | discriminate]]. Qed.

Lemma main_already_parsed (float_repr : Py.float -> string) (today : datetime)
    (path answer content : string) (w : world) :
  files w !! path = Some content ->
  is_already_parsed (nonblank_lines content) = true ->
  main float_repr today path answer w = (Ok tt, only_logged (LogInfo "File already parsed") w).
Proof.
  intros Hfile Hparsed. unfold main, bind, get_lines. rewrite Hfile.
  unfold is_already_parsed_logged. rewrite Hparsed. reflexivity.
Qed.

Lemma rstrip_of_empty (p : ascii -> bool) (s : string) :
  Py.rstrip_of p s = "" -> forall c rest, s = String c rest -> p c = true /\ Py.rstrip_of p rest = "".
Proof.
  intros H c rest ->. cbn [Py.rstrip_of] in H.
  destruct (Py.rstrip_of p rest); [| discriminate].
  destruct (p c); [auto | discriminate].
Qed.

Lemma strip_blank (s : string) : Py.rstrip_of Py.is_newline s = "" -> Py.strip s = "".
Proof.
  induction s as [| c s IH]; [reflexivity |]. intros H.
  destruct (rstrip_of_empty _ _ H c s eq_refl) as [Hc Hs].
  unfold Py.strip, Py.lstrip. cbn [Py.drop_while].
  assert (Hsp : Py.isspace c = true).
  { unfold Py.is_newline in Hc. apply Z.eqb_eq in Hc. unfold Py.isspace. rewrite Hc. reflexivity. }
  rewrite Hsp. apply IH, Hs.
Qed.

(** The lines [get_lines] returns are not empty, so the last of them is
    the last non-empty line. *)
Lemma nonblank_lines_last (content : string) :
  last_nonempty_line (nonblank_lines content) = last (nonblank_lines content).
Proof.
  unfold last_nonempty_line, nonblank_lines. f_equal.
  induction (file_lines (universal_newlines content)) as [| line rest IH]; [reflexivity |].
  cbn [List.filter]. destruct (String.eqb_spec (Py.strip line) "") as [Hblank | Hfull];
    cbn [negb]; [exact IH |].
  cbn [List.map List.filter].
  destruct (String.eqb_spec (Py.rstrip_of Py.is_newline line) "") as [Hempty | _].
  - exfalso. apply Hfull, strip_blank, Hempty.
  - cbn [negb]. f_equal. exact IH.
Qed.

(** C5, amended: the file is detected as already processed exactly when its
    last non-empty line, with surrounding whitespace stripped, is
    "already parsed" (and never on an empty list); when it is detected,
    [main] returns at once: no file changes, nothing is sent, and the only
    trace is the log record "File already parsed". *)
Theorem already_parsed_detection :
  (forall lines : list string,
      is_already_parsed lines = true
      <-> exists l, last lines = Some l /\ Py.strip l = "already parsed")
  /\ (forall content : string,
         is_already_parsed (nonblank_lines content) = true
         <-> exists l, last_nonempty_line (nonblank_lines content) = Some l
                       /\ Py.strip l = "already parsed")
  /\ is_already_parsed [] = false
  /\ (forall (float_repr : Py.float -> string) (today : datetime)
        (path answer content : string) (w : world),
         files w !! path = Some content ->
         is_already_parsed (nonblank_lines content) = true ->
         let w' := snd (main float_repr today path answer w) in
         fst (main float_repr today path answer w) = Ok tt
         /\ files w' = files w /\ sent w' = sent w
         /\ logged w' = logged w ++ [LogInfo "File already parsed"]).
Proof.
  assert (Hiff : forall lines : list string,
             is_already_parsed lines = true
             <-> exists l, last lines = Some l /\ Py.strip l = "already parsed").
  { intros lines. unfold is_already_parsed. destruct (last lines) as [l |].
    - rewrite String.eqb_eq. split.
      + intros H. exists l. split; [reflexivity | exact H].
      + intros [l' [Hl' H]]. congruence.
    - split; [discriminate | intros [l [Hl _]]; discriminate]. }
  split; [exact Hiff |]. split; [| split].
  - intros content. rewrite nonblank_lines_last. apply Hiff.
  - reflexivity.
  - intros float_repr today path answer content w Hfile Hparsed.
    rewrite (main_already_parsed _ _ _ _ _ _ Hfile Hparsed). cbn. repeat split.
Qed.

(** A file that ends with the marker followed by spaces: [main] leaves it
    as it is. *)
Lemma already_parsed_detection_witness :
  let w := {| files := {[ "log.md" := "08:00 a
already parsed  
" ]}; sent := []; logged := [] |} in
  is_already_parsed (nonblank_lines "08:00 a
already parsed  
") = true
  /\ fst (main quarter_repr
            {| year := 2026; month := 2; day := 21; hour := 0; minute := 0 |}
            "log.md" "y" w) = Ok tt
  /\ files (snd (main quarter_repr
            {| year := 2026; month := 2; day := 21; hour := 0; minute := 0 |}
            "log.md" "y" w)) = files w.
Proof.
  cbv zeta. split; [reflexivity |].
  pose proof (proj2 (proj2 (proj2 already_parsed_detection)) quarter_repr
                {| year := 2026; month := 2; day := 21; hour := 0; minute := 0 |}
                "log.md" "y" "08:00 a
already parsed  
" {| files := {[ "log.md" := "08:00 a
already parsed  
" ]}; sent := []; logged := [] |} (lookup_singleton_eq _ _) eq_refl) as H.
  cbv zeta in H. destruct H as [H1 [H2 _]]. split; assumption.
Defined.

(** ** Dictionaries *)

Section DictFacts.
Context {V : Type}.
Implicit Types (d : @Dict.t V) (k : string) (v : V).

Lemma dict_get_elem_of d k v : Dict.get k d = Some v -> (k, v) ∈ d.
Proof.
  induction d as [| [k' v'] d IH]; cbn [Dict.get]; [discriminate |].
  destruct (String.eqb_spec k' k) as [-> | Hne].
  - intros [= ->]. left.
  - intros H. right. auto.
Qed.

Lemma dict_get_None d k : Dict.get k d = None <-> k ∉ Dict.keys d.
Proof.
  unfold Dict.keys. induction d as [| [k' v'] d IH]; cbn [Dict.get fmap list_fmap fst].
  - split; [intros _; apply not_elem_of_nil | reflexivity].
  - rewrite not_elem_of_cons. destruct (String.eqb_spec k' k) as [-> | Hne].
    + split; [discriminate | intros [H _]; congruence].
    + rewrite IH. split; [intros H; split; [congruence | exact H] | intros [_ H]; exact H].
Qed.

Lemma dict_elem_of_get d k v : NoDup (Dict.keys d) -> (k, v) ∈ d -> Dict.get k d = Some v.
Proof.
  unfold Dict.keys. induction d as [| [k' v'] d IH]; cbn [Dict.get fmap list_fmap fst].
  - intros _ H. inversion H.
  - intros Hnd Hin. apply NoDup_cons in Hnd as [Hnotin Hnd].
    apply elem_of_cons in Hin as [Heq | Hin].
    + injection Heq as -> ->. rewrite String.eqb_refl. reflexivity.
    + destruct (String.eqb_spec k' k) as [-> | Hne].
      * exfalso. apply Hnotin. apply (list_elem_of_fmap_2 fst) in Hin. exact Hin.
      * auto.
Qed.

Lemma dict_contains_true d k : Dict.contains k d = true <-> k ∈ Dict.keys d.
Proof.
  unfold Dict.contains. destruct (Dict.get k d) eqn:Hg.
  - split; [intros _ | reflexivity].
    apply dict_get_elem_of in Hg. apply (list_elem_of_fmap_2 fst) in Hg. exact Hg.
  - apply dict_get_None in Hg. split; [discriminate | contradiction].
Qed.

Lemma dict_keys_alter (f : V -> V) d k : Dict.keys (Dict.alter f k d) = Dict.keys d.
Proof.
  unfold Dict.keys. induction d as [| [k' v'] d IH]; [reflexivity |].
  cbn [Dict.alter]. destruct (String.eqb k' k); cbn [fmap list_fmap fst]; [reflexivity |].
  f_equal. exact IH.
Qed.

Lemma dict_get_alter (f : V -> V) d k k' :
  Dict.get k' (Dict.alter f k d) = if String.eqb k k' then f <$> Dict.get k' d else Dict.get k' d.
Proof.
  induction d as [| [k0 v0] d IH]; cbn [Dict.alter Dict.get].
  - destruct (String.eqb k k'); reflexivity.
  - destruct (String.eqb_spec k0 k) as [-> | Hne]; cbn [Dict.get].
    + destruct (String.eqb_spec k k') as [-> | Hne']; reflexivity.
    + destruct (String.eqb_spec k0 k') as [-> | Hne'].
      * destruct (String.eqb_spec k k') as [-> | _]; [congruence | reflexivity].
      * exact IH.
Qed.

Lemma dict_keys_setdefault d k v :
  Dict.keys (Dict.setdefault k v d)
  = if Dict.contains k d then Dict.keys d else Dict.keys d ++ [k].
Proof.
  unfold Dict.setdefault, Dict.keys. destruct (Dict.contains k d); [reflexivity |].
  rewrite fmap_app. reflexivity.
Qed.

Lemma dict_get_app d1 d2 k :
  Dict.get k (d1 ++ d2) = match Dict.get k d1 with Some v => Some v | None => Dict.get k d2 end.
Proof.
  induction d1 as [| [k' v'] d1 IH]; [reflexivity |].
  cbn [app Dict.get]. destruct (String.eqb k' k); [reflexivity | exact IH].
Qed.

Lemma dict_get_setdefault d k v k' :
  Dict.get k' (Dict.setdefault k v d)
  = match Dict.get k' d with
    | Some x => Some x
    | None => if String.eqb k k' then Some v else None
    end.
Proof.
  unfold Dict.setdefault, Dict.contains. destruct (Dict.get k d) eqn:Hk.
  - destruct (Dict.get k' d) eqn:Hk'; [reflexivity |].
    destruct (String.eqb_spec k k') as [-> | _]; [congruence | reflexivity].
  - rewrite dict_get_app. cbn [Dict.get]. reflexivity.
Qed.
End DictFacts.

Lemma dict_keys_map_values {V W : Type} (f : V -> W) (d : @Dict.t V) :
  Dict.keys (Dict.map_values f d) = Dict.keys d.
Proof.
  unfold Dict.keys, Dict.map_values. induction d as [| [k v] d IH]; [reflexivity |].
  cbn. f_equal. exact IH.
Qed.

Lemma dict_get_map_values {V W : Type} (f : V -> W) (d : @Dict.t V) (k : string) :
  Dict.get k (Dict.map_values f d) = f <$> Dict.get k d.
Proof.
  unfold Dict.map_values. induction d as [| [k' v] d IH]; [reflexivity |].
  cbn [List.map Dict.get fst snd]. destruct (String.eqb k' k); [reflexivity | exact IH].
Qed.

(** ** Default task ids *)

Lemma default_step_keys (grouped : Grouped) (item : string * string) :
  Dict.keys (default_step grouped item) = Dict.keys grouped.
Proof.
  unfold default_step. destruct (Dict.contains (fst item) grouped); [| reflexivity].
  apply dict_keys_alter.
Qed.

Lemma default_fold_keys (items : list (string * string)) (grouped : Grouped) :
  Dict.keys (foldl default_step grouped items) = Dict.keys grouped.
Proof.
  revert grouped. induction items as [| item items IH]; intros grouped; [reflexivity |].
  cbn [foldl]. rewrite IH. apply default_step_keys.
Qed.

Lemma default_step_get (grouped : Grouped) (item : string * string) (key : string) :
  Dict.get key (default_step grouped item)
  = if String.eqb (fst item) key then set_task_id (snd item) <$> Dict.get key grouped
    else Dict.get key grouped.
Proof.
  unfold default_step. destruct (Dict.contains (fst item) grouped) eqn:Hc.
  - apply dict_get_alter.
  - destruct (String.eqb_spec (fst item) key) as [<- | _]; [| reflexivity].
    unfold Dict.contains in Hc. destruct (Dict.get (fst item) grouped); [discriminate | reflexivity].
Qed.

(** The loop over a list of items without repeated description. *)
Lemma default_fold_get (items : list (string * string)) (grouped : Grouped)
    (key : string) (e : entry) :
  NoDup items.*1 ->
  Dict.get key grouped = Some e ->
  (forall value, (key, value) ∈ items ->
     Dict.get key (foldl default_step grouped items) = Some (set_task_id value e))
  /\ (key ∉ items.*1 -> Dict.get key (foldl default_step grouped items) = Some e).
Proof.
  revert grouped e. induction items as [| [d v] items IH]; intros grouped e Hnd Hget.
  - split; [intros value H; inversion H | intros _; exact Hget].
  - cbn [fmap list_fmap fst] in Hnd. apply NoDup_cons in Hnd as [Hfresh Hnd].
    cbn [foldl]. pose proof (default_step_get grouped (d, v) key) as Hstep.
    cbn [fst snd] in Hstep. rewrite Hget in Hstep.
    destruct (String.eqb_spec d key) as [-> | Hne].
    + destruct (IH _ _ Hnd Hstep) as [_ IHout]. split.
      * intros value Hin. apply elem_of_cons in Hin as [Heq | Hin].
        -- injection Heq as ->. auto.
        -- exfalso. apply Hfresh. apply (list_elem_of_fmap_2 fst) in Hin. exact Hin.
      * intros Hnotin. exfalso. apply Hnotin. cbn. left.
    + destruct (IH _ _ Hnd Hstep) as [IHin IHout]. split.
      * intros value Hin. apply elem_of_cons in Hin as [Heq | Hin]; [congruence | auto].
      * intros Hnotin. apply IHout. cbn [fmap list_fmap fst] in Hnotin.
        apply not_elem_of_cons in Hnotin. tauto.
Qed.

Lemma apply_defaults_fold (grouped_tasks : Grouped) (defaults_map : gmap string string) :
  apply_defaults grouped_tasks defaults_map
  = foldl default_step grouped_tasks (map_to_list defaults_map).
Proof. reflexivity. Qed.

Lemma apply_defaults_keys (grouped_tasks : Grouped) (defaults_map : gmap string string) :
  Dict.keys (apply_defaults grouped_tasks defaults_map) = Dict.keys grouped_tasks.
Proof. rewrite apply_defaults_fold. apply default_fold_keys. Qed.

Lemma apply_defaults_get (grouped_tasks : Grouped) (defaults_map : gmap string string)
    (key : string) (e : entry) :
  Dict.get key grouped_tasks = Some e ->
  Dict.get key (apply_defaults grouped_tasks defaults_map)
  = Some (match defaults_map !! key with Some value => set_task_id value e | None => e end).
Proof.
  intros Hget. rewrite apply_defaults_fold.
  destruct (default_fold_get (map_to_list defaults_map) grouped_tasks key e
              (NoDup_fst_map_to_list defaults_map) Hget) as [Hin Hout].
  destruct (defaults_map !! key) as [value |] eqn:Hd.
  - apply Hin. apply elem_of_map_to_list. exact Hd.
  - apply Hout. intros Hk. apply list_elem_of_fmap in Hk as [[k' v'] [Hk Hkv]].
    cbn in Hk. subst k'. apply elem_of_map_to_list in Hkv. congruence.
Qed.

(** C8: after [apply_defaults], the dictionary has the same keys in the same
    order; every bucket whose key is a description of the defaults table has
    the table's value as its task id (whether or not it had one) and is
    otherwise as before; every bucket whose key is not in the table is
    unchanged. *)
Theorem apply_defaults_overrides (grouped_tasks : Grouped) (defaults_map : gmap string string) :
  NoDup (Dict.keys grouped_tasks) ->
  let grouped' := apply_defaults grouped_tasks defaults_map in
  Dict.keys grouped' = Dict.keys grouped_tasks
  /\ forall (key : string) (e : entry),
       (key, e) ∈ grouped_tasks ->
       (forall value, defaults_map !! key = Some value ->
          exists e', Dict.get key grouped' = Some e'
                     /\ entry_task_id e' = Some value /\ same_but_task_id e e')
       /\ (defaults_map !! key = None -> Dict.get key grouped' = Some e).
Proof.
  intros Hnd grouped'. split; [apply apply_defaults_keys |].
  intros key e Hin. pose proof (dict_elem_of_get _ _ _ Hnd Hin) as Hget.
  pose proof (apply_defaults_get _ defaults_map _ _ Hget) as H. fold grouped' in H.
  split.
  - intros value Hd. rewrite Hd in H. exists (set_task_id value e).
    split; [exact H |]. split; [reflexivity |]. repeat split.
  - intros Hd. rewrite Hd in H. exact H.
Qed.

(** A bucket keyed "standup" that has no task id gets the table's "77488";
    a bucket outside the table, and one keyed "Standup", keep what they
    had. *)
Lemma apply_defaults_overrides_witness :
  let e := {| entry_delta := 60; entry_desc := {[ "standup" ]}; entry_task_id := None;
              task_total_mins := 60; task_total_hours := 1; task_total_rest := 0;
              rounded_hours := 1%Q |} in
  let f := {| entry_delta := 15; entry_desc := {[ "Task A" ]}; entry_task_id := Some "12345";
              task_total_mins := 15; task_total_hours := 0; task_total_rest := 15;
              rounded_hours := (1 # 4)%Q |} in
  let g := {| entry_delta := 30; entry_desc := {[ "Standup" ]}; entry_task_id := None;
              task_total_mins := 30; task_total_hours := 0; task_total_rest := 30;
              rounded_hours := (1 # 2)%Q |} in
  let grouped := [("standup", e); ("12345 Task A", f); ("Standup", g)] in
  (exists e', Dict.get "standup" (apply_defaults grouped defaults) = Some e'
              /\ entry_task_id e' = Some "77488" /\ same_but_task_id e e')
  /\ Dict.get "12345 Task A" (apply_defaults grouped defaults) = Some f
  /\ Dict.get "Standup" (apply_defaults grouped defaults) = Some g.
Proof.
  intros e f g grouped.
  assert (Hnd : NoDup (Dict.keys grouped)).
  { apply NoDup_ListNoDup. repeat constructor; cbn; intuition discriminate. }
  destruct (apply_defaults_overrides grouped defaults Hnd) as [_ H].
  split; [| split].
  - apply (H "standup" e); [left | reflexivity].
  - apply (H "12345 Task A" f); [right; left | reflexivity].
  - apply (H "Standup" g); [right; right; left | reflexivity].
Defined.

(** ** The appended summary *)

Lemma str_app_cons (c : ascii) (s t : string) : String c s +:+ t = String c (s +:+ t).
Proof. reflexivity. Qed.

Lemma str_app_nil (t : string) : "" +:+ t = t.
Proof. reflexivity. Qed.

Lemma str_app_assoc (s t u : string) : (s +:+ t) +:+ u = s +:+ (t +:+ u).
Proof.
  induction s as [| c s IH]; [reflexivity |].
  rewrite !str_app_cons. f_equal. exact IH.
Qed.

Lemma str_prefix_app (s t : string) : String.prefix s (s +:+ t) = true.
Proof.
  induction s as [| c s IH]; [destruct t; reflexivity |].
  rewrite str_app_cons. cbn [String.prefix].
  destruct (ascii_dec c c); [exact IH | congruence].
Qed.

Lemma closing_remark_line (grouped_tasks : Grouped) (total_delta_work : Z) :
  exists remark : string,
    closing_remark grouped_tasks total_delta_work = remark +:+ "
".
Proof.
  unfold closing_remark.
  destruct (saldo_mins grouped_tasks =? 0).
  - exists ("working " +:+ String "197" (String "161" "ul-nul")). reflexivity.
  - destruct (String.eqb (sign total_delta_work) "").
    + exists "working too much". reflexivity.
    + exists "working too little". reflexivity.
Qed.

(** What [summary_text] ends with. *)
Lemma summary_text_end (float_repr : Py.float -> string) (grouped_tasks : Grouped)
    (total_delta_work total_delta_free : Z) :
  exists before : string,
    summary_text float_repr grouped_tasks total_delta_work total_delta_free
    = before +:+ saldo_line grouped_tasks total_delta_work
      +:+ closing_remark grouped_tasks total_delta_work +:+ "already parsed".
Proof.
  unfold summary_text. eexists. rewrite <- !str_app_assoc. reflexivity.
Qed.

(** C10: [append_result] only appends.  The text the file held (the empty
    text for a file that did not exist) is a prefix of what it holds
    afterwards; what was added ends with a newline followed by
    "already parsed", and nothing comes after it; no other file, no sent
    entry and no log record changes. *)
Theorem append_result_only_appends (float_repr : Py.float -> string) (path : string)
    (grouped_tasks : Grouped) (total_delta_work total_delta_free : Z) (w : world) :
  let r := append_result float_repr path grouped_tasks total_delta_work total_delta_free w in
  let old := default "" (files w !! path) in
  fst r = Ok tt
  /\ (exists block body : string,
         files (snd r) !! path = Some (old +:+ block)
         /\ String.prefix old (old +:+ block) = true
         /\ block = body +:+ "
" +:+ "already parsed")
  /\ (forall other : string, other <> path -> files (snd r) !! other = files w !! other)
  /\ sent (snd r) = sent w
  /\ logged (snd r) = logged w.
Proof.
  intros r old. unfold r, append_result, append_file. cbn [fst snd files sent logged].
  split; [reflexivity |]. split; [| split; [| split; reflexivity]].
  - destruct (summary_text_end float_repr grouped_tasks total_delta_work total_delta_free)
      as [before Hend].
    destruct (closing_remark_line grouped_tasks total_delta_work) as [remark Hrem].
    exists (summary_text float_repr grouped_tasks total_delta_work total_delta_free).
    exists (before +:+ saldo_line grouped_tasks total_delta_work +:+ remark).
    split; [apply lookup_insert_eq |]. split; [apply str_prefix_app |].
    rewrite Hend, Hrem. rewrite !str_app_assoc. reflexivity.
  - intros other Hne. apply lookup_insert_ne. congruence.
Qed.

(** ** The saldo *)




Lemma whole_quarters_rounded (total_minutes : Z) :
  whole_quarters (minutes_to_rounded_decimal_hours total_minutes).
Proof.
  eexists. rewrite rounded_hours_quarters. apply Qred_correct.
Qed.

Lemma whole_quarters_sum (grouped_tasks : Grouped) :
  Forall (fun item => whole_quarters (rounded_hours (snd item))) grouped_tasks ->
  whole_quarters (rounded_work_hours grouped_tasks).
Proof.
  induction 1 as [| [task values] rest [k Hk] _ [n Hn]]; cbn [rounded_work_hours].
  - exists 0. reflexivity.
  - cbn [snd] in Hk. destruct (Py.startswith "#" task).
    + exists n. rewrite Hn. ring.
    + exists (k + n). rewrite Hk, Hn.
      unfold Qeq, Qplus. cbn [Qnum Qden]. lia.
Qed.

Lemma alter_Forall {V : Type} (P : string * V -> Prop) (f : V -> V) (k : string)
    (d : @Dict.t V) :
  (forall key v, P (key, v) -> P (key, f v)) ->
  Forall P d -> Forall P (Dict.alter f k d).
Proof.
  intros Hf. induction 1 as [| [k' v] rest Hx Hrest IH]; cbn [Dict.alter]; [constructor |].
  destruct (String.eqb k' k); constructor; auto.
Qed.

Lemma apply_defaults_Forall (P : string * entry -> Prop) (grouped_tasks : Grouped)
    (defaults_map : gmap string string) :
  (forall key e value, P (key, e) -> P (key, set_task_id value e)) ->
  Forall P grouped_tasks -> Forall P (apply_defaults grouped_tasks defaults_map).
Proof.
  intros Hf. rewrite apply_defaults_fold. generalize (map_to_list defaults_map) as items.
  intros items. revert grouped_tasks.
  induction items as [| item items IH]; intros grouped H; [exact H |].
  cbn [foldl]. apply IH. unfold default_step.
  destruct (Dict.contains (fst item) grouped); [| exact H].
  apply alter_Forall; [| exact H]. intros key e. apply Hf.
Qed.

Lemma group_tasks_whole_quarters (tasks_results : list TaskResult) :
  Forall (fun item => whole_quarters (rounded_hours (snd item))) (group_tasks tasks_results).
Proof.
  unfold group_tasks, Dict.map_values. apply Forall_forall. intros item Hin.
  apply list_elem_of_In in Hin. apply in_map_iff in Hin as [[key b] [<- _]].
  cbn [snd finalize rounded_hours]. apply whole_quarters_rounded.
Qed.

Lemma pipeline_whole_quarters (tasks_results : list TaskResult)
    (defaults_map : gmap string string) :
  whole_quarters (rounded_work_hours (apply_defaults (group_tasks tasks_results) defaults_map)).
Proof.
  apply whole_quarters_sum.
  apply (apply_defaults_Forall (fun item => whole_quarters (rounded_hours (snd item)))).
  - intros key e value H. exact H.
  - apply group_tasks_whole_quarters.
Qed.


(** ** Grouping *)

Lemma group_key_bucket_key (tr : TaskResult) : group_key tr = bucket_key tr.
Proof.
  unfold group_key, bucket_key. destruct (task_id tr) as [[| c t] |]; cbn [truthy default];
    destruct (desc tr); reflexivity.
Qed.

Lemma group_step_unfold (grouped : @Dict.t bucket) (tr : TaskResult) :
  group_step grouped tr
  = Dict.alter (add_result tr) (bucket_key tr)
      (Dict.setdefault (bucket_key tr) (fresh_bucket tr) grouped).
Proof.
  unfold group_step. rewrite group_key_bucket_key, (int_of_float_fdiv _ 60). reflexivity.
Qed.

Lemma group_step_keys (grouped : @Dict.t bucket) (tr : TaskResult) :
  Dict.keys (group_step grouped tr)
  = if Dict.contains (bucket_key tr) grouped then Dict.keys grouped
    else Dict.keys grouped ++ [bucket_key tr].
Proof. rewrite group_step_unfold, dict_keys_alter. apply dict_keys_setdefault. Qed.

Lemma group_step_get (grouped : @Dict.t bucket) (tr : TaskResult) (key : string) :
  Dict.get key (group_step grouped tr)
  = if String.eqb (bucket_key tr) key
    then Some (add_result tr (default (fresh_bucket tr) (Dict.get key grouped)))
    else Dict.get key grouped.
Proof.
  rewrite group_step_unfold, dict_get_alter, dict_get_setdefault.
  destruct (String.eqb (bucket_key tr) key); destruct (Dict.get key grouped); reflexivity.
Qed.

Lemma group_step_NoDup (grouped : @Dict.t bucket) (tr : TaskResult) :
  NoDup (Dict.keys grouped) -> NoDup (Dict.keys (group_step grouped tr)).
Proof.
  intros Hnd. rewrite group_step_keys.
  destruct (Dict.contains (bucket_key tr) grouped) eqn:Hc; [exact Hnd |].
  apply NoDup_app. split; [exact Hnd |]. split; [| apply NoDup_singleton].
  intros k Hk Hk'. apply list_elem_of_singleton in Hk'. subst k.
  apply dict_contains_true in Hk. congruence.
Qed.

Lemma group_fold_NoDup (tasks_results : list TaskResult) (grouped : @Dict.t bucket) :
  NoDup (Dict.keys grouped) -> NoDup (Dict.keys (foldl group_step grouped tasks_results)).
Proof.
  revert grouped. induction tasks_results as [| tr rest IH]; intros grouped Hnd; [exact Hnd |].
  cbn [foldl]. apply IH, group_step_NoDup, Hnd.
Qed.

Lemma group_fold_keys (tasks_results : list TaskResult) (grouped : @Dict.t bucket)
    (key : string) :
  key ∈ Dict.keys (foldl group_step grouped tasks_results)
  <-> key ∈ Dict.keys grouped \/ exists tr, tr ∈ tasks_results /\ bucket_key tr = key.
Proof.
  revert grouped. induction tasks_results as [| tr rest IH]; intros grouped; cbn [foldl].
  - split; [auto | intros [H | [tr [H _]]]; [exact H | inversion H]].
  - rewrite IH, group_step_keys. split.
    + intros [H | [tr' [Hin Hk]]].
      * destruct (Dict.contains (bucket_key tr) grouped); [auto |].
        apply elem_of_app in H as [H | H]; [auto |].
        apply list_elem_of_singleton in H. right. exists tr. split; [left | auto].
      * right. exists tr'. split; [right; exact Hin | exact Hk].
    + intros [H | [tr' [Hin Hk]]].
      * left. destruct (Dict.contains (bucket_key tr) grouped); [exact H |].
        apply elem_of_app. auto.
      * apply elem_of_cons in Hin as [-> | Hin]; [| right; eauto].
        left. destruct (Dict.contains (bucket_key tr) grouped) eqn:Hc.
        -- apply dict_contains_true in Hc. congruence.
        -- subst key. apply elem_of_app. right. left.
Qed.

(** The bucket under [key] after the loop, from what the dictionary held
    before it. *)
Lemma group_fold_get (tasks_results : list TaskResult) (grouped : @Dict.t bucket)
    (key : string) (b : bucket) :
  Dict.get key (foldl group_step grouped tasks_results) = Some b ->
  bucket_delta b
  = default 0 (bucket_delta <$> Dict.get key grouped) + quot_minutes_under key tasks_results
  /\ bucket_desc b
     = default ∅ (bucket_desc <$> Dict.get key grouped) ∪ descs_under key tasks_results.
Proof.
  revert grouped. induction tasks_results as [| tr rest IH]; intros grouped; cbn [foldl].
  - intros ->. cbn. split; [lia | set_solver].
  - intros Hb. destruct (IH _ Hb) as [Hdelta Hdesc]. clear IH Hb.
    rewrite group_step_get in Hdelta, Hdesc. cbn [quot_minutes_under descs_under].
    destruct (String.eqb (bucket_key tr) key); cbn [andb] in *.
    + cbn [fmap option_fmap option_map default id add_result bucket_delta bucket_desc] in *.
      destruct (Dict.get key grouped) as [b0 |];
        cbn [fmap option_fmap option_map default id fresh_bucket bucket_delta bucket_desc] in *.
      * split; [lia |]. rewrite Hdesc. destruct (String.eqb (desc tr) ""); cbn [negb]; set_solver.
      * split; [lia |]. rewrite Hdesc. destruct (String.eqb (desc tr) ""); cbn [negb]; set_solver.
    + split; [lia |]. rewrite Hdesc. set_solver.
Qed.

Lemma quot_minutes_under_nonneg (key : string) (tasks_results : list TaskResult) :
  Forall (fun tr => 0 <= delta_seconds tr) tasks_results ->
  quot_minutes_under key tasks_results = minutes_under key tasks_results.
Proof.
  induction 1 as [| tr rest Htr _ IH]; [reflexivity |].
  cbn [quot_minutes_under minutes_under]. rewrite IH.
  rewrite Z.quot_div_nonneg by lia. reflexivity.
Qed.

(** ** Timestamps of one day *)

Lemma datetime_new_ok (today : datetime) (h mi : Z) :
  valid_date today -> 0 <= h <= 23 -> 0 <= mi <= 59 ->
  datetime_new (year today) (month today) (day today) h mi
  = Ok {| year := year today; month := month today; day := day today;
          hour := h; minute := mi |}.
Proof.
  intros (Hy & Hm & Hd) Hh Hmi. unfold datetime_new.
  repeat match goal with
         | |- context [?a <=? ?b] =>
             rewrite (proj2 (Z.leb_le a b)) by lia
         end.
  reflexivity.
Qed.

Lemma datetime_new_out_of_range (y m d h mi : Z) :
  ~ (0 <= h <= 23 /\ 0 <= mi <= 59) -> datetime_new y m d h mi = Raised ValueError.
Proof.
  intros Hbad. unfold datetime_new.
  destruct ((1 <=? y) && (y <=? 9999) && (1 <=? m) && (m <=? 12) && (1 <=? d)
            && (d <=? days_in_month y m) && (0 <=? h) && (h <=? 23) && (0 <=? mi)
            && (mi <=? 59)) eqn:Hc; [| reflexivity].
  exfalso. apply Hbad.
  repeat match goal with
         | H : _ && _ = true |- _ => apply andb_true_iff in H as [? ?]
         end.
  lia.
Qed.

Lemma datetime_sub_same_day (y m d h1 mi1 h2 mi2 : Z) :
  datetime_sub {| year := y; month := m; day := d; hour := h2; minute := mi2 |}
               {| year := y; month := m; day := d; hour := h1; minute := mi1 |}
  = ((h2 * 60 + mi2) - (h1 * 60 + mi1)) * 60.
Proof. unfold datetime_sub. cbn [year month day hour minute]. lia. Qed.

Lemma get_timestamps_match (today : datetime) (line : string) (rest : list string)
    (time_str : string) (tid : option string) (description : string) (h mi : Z) :
  parse_line line = Some (time_str, tid, description) ->
  hour_minute time_str = Some (h, mi) ->
  get_timestamps today (line :: rest)
  = match datetime_new (year today) (month today) (day today) h mi with
    | Raised e => Raised e
    | Ok ts =>
        match get_timestamps today rest with
        | Raised e => Raised e
        | Ok timestamps => Ok (ts :: timestamps)
        end
    end.
Proof. intros Hp Hhm. cbn [get_timestamps]. rewrite Hp, Hhm. reflexivity. Qed.

Lemma get_timestamps_skip (today : datetime) (line : string) (rest : list string) :
  parse_line line = None ->
  get_timestamps today (line :: rest) = get_timestamps today rest.
Proof. intros Hp. cbn [get_timestamps]. rewrite Hp. reflexivity. Qed.

Lemma task_a_pipeline (today : datetime) :
  valid_date today ->
  exists timestamps,
    get_timestamps today task_a_lines = Ok timestamps
    /\ get_deltas timestamps = [3600].
Proof.
  intros Hvalid. unfold task_a_lines.
  rewrite (get_timestamps_match today _ _ "08:00" (Some "12345") "Task A" 8 0)
    by reflexivity.
  rewrite (get_timestamps_match today _ _ "09:00" (Some "12345") "Task A" 9 0)
    by reflexivity.
  rewrite !(datetime_new_ok today) by (assumption || lia).
  eexists. split; [reflexivity |].
  unfold get_deltas, pairwise. cbn [length Nat.ltb Nat.leb combine tail List.map fst snd].
  rewrite datetime_sub_same_day. reflexivity.
Qed.

(** ** The backtracking matcher *)

Section ReFacts.
Context {R : Type}.
Implicit Types (k : @Re.cont R) (p : ascii -> bool) (s : string).

Lemma take_drop_while p s : Py.take_while p s +:+ Py.drop_while p s = s.
Proof.
  induction s as [| c s IH]; [reflexivity |]. cbn [Py.take_while Py.drop_while].
  destruct (p c); [| reflexivity]. rewrite str_app_cons, IH. reflexivity.
Qed.

Lemma take_while_all p s : str_all p (Py.take_while p s) = true.
Proof.
  induction s as [| c s IH]; [reflexivity |]. cbn [Py.take_while].
  destruct (p c) eqn:Hc; [| reflexivity]. cbn [str_all]. rewrite Hc, IH. reflexivity.
Qed.

Lemma drop_while_head p s c r : Py.drop_while p s = String c r -> p c = false.
Proof.
  induction s as [| c' s IH]; cbn [Py.drop_while]; [discriminate |].
  destruct (p c') eqn:Hc; [exact IH |]. intros [= -> _]. exact Hc.
Qed.

Lemma drop_while_stop p s :
  match s with String c _ => p c = false | EmptyString => True end ->
  Py.drop_while p s = s /\ Py.take_while p s = "".
Proof. destruct s as [| c s]; [auto |]. cbn. intros ->. auto. Qed.

Lemma drop_while_idem p s : Py.drop_while p (Py.drop_while p s) = Py.drop_while p s.
Proof.
  apply drop_while_stop. destruct (Py.drop_while p s) as [| c r] eqn:H; [exact I |].
  exact (drop_while_head _ _ _ _ H).
Qed.

Lemma drop_while_app p m s : str_all p m = true -> Py.drop_while p (m +:+ s) = Py.drop_while p s.
Proof.
  induction m as [| c m IH]; [reflexivity |]. cbn [str_all]. intros H.
  apply andb_true_iff in H as [Hc Hm]. rewrite str_app_cons. cbn [Py.drop_while].
  rewrite Hc. auto.
Qed.

Lemma take_while_app p m s :
  str_all p m = true -> Py.take_while p (m +:+ s) = m +:+ Py.take_while p s.
Proof.
  induction m as [| c m IH]; [reflexivity |]. cbn [str_all]. intros H.
  apply andb_true_iff in H as [Hc Hm]. rewrite !str_app_cons. cbn [Py.take_while].
  rewrite Hc, IH by exact Hm. reflexivity.
Qed.

(** A greedy star takes the longest run whenever giving characters back
    could not turn a failure of what follows into a success. *)
Lemma star_greedy p k s :
  (forall m r, s = m +:+ r -> str_all p m = true -> is_Some (k m r) ->
               is_Some (k (Py.take_while p s) (Py.drop_while p s))) ->
  Re.star p k s = k (Py.take_while p s) (Py.drop_while p s).
Proof.
  revert k. induction s as [| c s IH]; intros k Hk; [reflexivity |].
  cbn [Re.star Py.take_while Py.drop_while] in *. destruct (p c) eqn:Hc; [| reflexivity].
  rewrite IH.
  - destruct (k (String c (Py.take_while p s)) (Py.drop_while p s)) eqn:Hlong; [reflexivity |].
    destruct (k "" (String c s)) eqn:Hshort; [| reflexivity].
    exfalso. destruct (Hk "" (String c s)) as [x Hx]; [reflexivity | reflexivity | eauto |].
    congruence.
  - intros m r -> Hm Hsome. apply (Hk (String c m) r); [reflexivity | | exact Hsome].
    cbn [str_all]. rewrite Hc, Hm. reflexivity.
Qed.

(** In particular when what follows cannot start with a character of the
    class. *)
Lemma star_commit p k s :
  (forall m c r, p c = true -> k m (String c r) = None) ->
  Re.star p k s = k (Py.take_while p s) (Py.drop_while p s).
Proof.
  intros Hk. revert k Hk. induction s as [| c s IH]; intros k Hk; [reflexivity |].
  cbn [Re.star Py.take_while Py.drop_while]. destruct (p c) eqn:Hc; [| reflexivity].
  rewrite IH by (intros; apply Hk; assumption).
  destruct (k (String c (Py.take_while p s)) (Py.drop_while p s)); [reflexivity |].
  apply Hk. exact Hc.
Qed.

Lemma count_take_digits (n : nat) k s :
  Re.count n Py.isdecimal k s
  = match take_digits n s with Some (m, r) => k m r | None => None end.
Proof.
  revert k s. induction n as [| n IH]; intros k s; [reflexivity |].
  cbn [Re.count take_digits]. destruct s as [| c s]; [reflexivity |].
  destruct (Py.isdecimal c); [| reflexivity]. rewrite IH.
  destruct (take_digits n s) as [[m r] |]; reflexivity.
Qed.

Lemma eol_at_eol (x : R) s : Re.eol x s = if at_eol s then Some x else None.
Proof. destruct s as [| c [| c' s]]; reflexivity. Qed.
End ReFacts.

(** ** The matcher never has to go back *)

Lemma space_not_digit (c : ascii) : Py.isspace c = true -> Py.isdecimal c = false.
Proof.
  unfold Py.isspace, Py.isdecimal. intros H.
  destruct (48 <=? Py.ord c) eqn:H1; [| reflexivity].
  destruct (Py.ord c <=? 57) eqn:H2; [| reflexivity].
  exfalso. apply Z.leb_le in H1, H2.
  repeat (apply orb_true_iff in H as [H | H]);
    try (apply andb_true_iff in H as [Ha Hb]; apply Z.leb_le in Ha, Hb; lia);
    apply Z.eqb_eq in H; lia.
Qed.

Lemma take_digits_shape (n : nat) (s m r : string) :
  take_digits n s = Some (m, r) ->
  s = m +:+ r /\ str_all Py.isdecimal m = true /\ String.length m = n.
Proof.
  revert s m r. induction n as [| n IH]; intros s m r; cbn [take_digits].
  - intros [= <- <-]. auto.
  - destruct s as [| c s]; [discriminate |].
    destruct (Py.isdecimal c) eqn:Hc; [| discriminate].
    destruct (take_digits n s) as [[m' r'] |] eqn:Ht; [| discriminate].
    intros [= <- <-]. destruct (IH _ _ _ Ht) as (-> & Hall & Hlen).
    cbn [str_all String.length]. rewrite Hc, Hall, Hlen. auto.
Qed.

Lemma take_digits_space (n : nat) (c : ascii) (s : string) :
  Py.isspace c = true -> take_digits (S n) (String c s) = None.
Proof. intros H. cbn [take_digits]. rewrite (space_not_digit c H). reflexivity. Qed.

(** Dropping leading characters cannot break the end of the line. *)
Lemma line_end_tail (c : ascii) (s : string) :
  is_Some (line_end (String c s)) -> is_Some (line_end s).
Proof.
  unfold line_end. cbn [Py.drop_while Py.take_while].
  destruct (not_newline c) eqn:Hc.
  - destruct (at_eol (Py.drop_while not_newline s)); [intros _; eauto | auto].
  - destruct s as [| c' s]; [intros _; cbn; eauto |].
    cbn [at_eol]. intros [x Hx]. discriminate.
Qed.

Lemma line_end_suffix (m s : string) : is_Some (line_end (m +:+ s)) -> is_Some (line_end s).
Proof.
  induction m as [| c m IH]; [auto |]. rewrite str_app_cons.
  intros H. apply IH, (line_end_tail c), H.
Qed.

Lemma line_end_lstrip (s : string) : is_Some (line_end s) -> is_Some (line_end (Py.lstrip s)).
Proof.
  intros H. apply (line_end_suffix (Py.take_while Py.isspace s)).
  unfold Py.lstrip. rewrite take_drop_while. exact H.
Qed.

Section ScanFacts.
Context {R : Type}.

(** Group 3 and the end of the line. *)
Lemma description_scan (f : string -> R) (s : string) :
  Re.star (fun c => negb (Py.is_newline c)) (fun g3 => Re.eol (f g3)) s = f <$> line_end s.
Proof.
  change (fun c => negb (Py.is_newline c)) with not_newline.
  rewrite star_commit.
  - rewrite eol_at_eol. unfold line_end.
    destruct (at_eol (Py.drop_while not_newline s)); reflexivity.
  - intros m c r Hc. rewrite eol_at_eol. destruct r as [| c' r]; [| reflexivity].
    cbn [at_eol]. unfold not_newline in Hc. destruct (Py.is_newline c); [discriminate | reflexivity].
Qed.

(** Whitespace, group 3 and the end of the line. *)
Lemma tail_scan (f : string -> R) (s : string) :
  Re.star Py.isspace
    (fun _ => Re.star (fun c => negb (Py.is_newline c)) (fun g3 => Re.eol (f g3))) s
  = f <$> line_end (Py.lstrip s).
Proof.
  rewrite star_greedy.
  - apply description_scan.
  - intros m r -> Hm. rewrite !description_scan.
    change (Py.drop_while Py.isspace (m +:+ r)) with (Py.lstrip (m +:+ r)).
    unfold Py.lstrip. rewrite drop_while_app by exact Hm.
    rewrite !fmap_is_Some. apply line_end_lstrip.
Qed.

(** The optional task id and what follows it. *)
Lemma task_id_scan (f : option string -> string -> R) (s : string) :
  Re.opt (Re.count 5 Py.isdecimal)
    (fun g2 => Re.star Py.isspace
       (fun _ => Re.star (fun c => negb (Py.is_newline c)) (fun g3 => Re.eol (f g2 g3)))) s
  = match take_digits 5 s with
    | Some (tid, r1) =>
        match line_end (Py.lstrip r1) with
        | Some description => Some (f (Some tid) description)
        | None => f None <$> line_end (Py.lstrip s)
        end
    | None => f None <$> line_end (Py.lstrip s)
    end.
Proof.
  unfold Re.opt. rewrite count_take_digits.
  destruct (take_digits 5 s) as [[tid r1] |].
  - rewrite tail_scan. destruct (line_end (Py.lstrip r1)); [reflexivity |].
    cbn [fmap option_fmap option_map]. apply tail_scan.
  - apply tail_scan.
Qed.

(** When the task id is there, the alternative without it cannot match. *)
Lemma task_id_no_fallback (s tid r1 : string) :
  take_digits 5 s = Some (tid, r1) ->
  line_end (Py.lstrip r1) = None -> line_end (Py.lstrip s) = None.
Proof.
  intros Ht Hnone. destruct (line_end (Py.lstrip s)) as [d |] eqn:Hs; [| reflexivity].
  exfalso. apply take_digits_shape in Ht as (-> & Hall & Hlen).
  assert (Hstop : Py.lstrip (tid +:+ r1) = tid +:+ r1).
  { apply drop_while_stop. destruct tid as [| c t]; [discriminate |].
    rewrite str_app_cons. cbn [str_all] in Hall. apply andb_true_iff in Hall as [Hc _].
    destruct (Py.isspace c) eqn:Hsp; [| reflexivity].
    rewrite (space_not_digit c Hsp) in Hc. discriminate. }
  rewrite Hstop in Hs.
  assert (H : is_Some (line_end (Py.lstrip r1))).
  { apply line_end_lstrip, (line_end_suffix tid). rewrite Hs. eauto. }
  rewrite Hnone in H. destruct H as [x Hx]. discriminate.
Qed.

(** The result of [task_id_scan] on the rest [r] with leading whitespace
    removed is defined as soon as it is on [r]. *)
Lemma task_id_scan_lstrip (f : option string -> string -> R) (r : string) :
  let K := fun s : string =>
    match take_digits 5 s with
    | Some (tid, r1) =>
        match line_end (Py.lstrip r1) with
        | Some description => Some (f (Some tid) description)
        | None => f None <$> line_end (Py.lstrip s)
        end
    | None => f None <$> line_end (Py.lstrip s)
    end in
  is_Some (K r) -> is_Some (K (Py.lstrip r)).
Proof.
  intros K HK.
  assert (Hidem : Py.lstrip (Py.lstrip r) = Py.lstrip r) by apply drop_while_idem.
  assert (Hcases : Py.lstrip r = r \/ is_Some (line_end (Py.lstrip r))).
  { destruct r as [| c r']; [left; reflexivity |].
    destruct (Py.isspace c) eqn:Hsp.
    - right. unfold K in HK. rewrite take_digits_space in HK by exact Hsp.
      apply fmap_is_Some in HK. exact HK.
    - left. apply drop_while_stop. exact Hsp. }
  destruct Hcases as [-> | Hend]; [exact HK |].
  unfold K. rewrite Hidem. destruct Hend as [d Hd]. rewrite Hd.
  destruct (take_digits 5 (Py.lstrip r)) as [[tid r1] |]; [| cbn; eauto].
  destruct (line_end (Py.lstrip r1)); cbn; eauto.
Qed.

Lemma after_time_scan (f : option string -> string -> R) (s : string) :
  Re.plus Py.isspace
    (fun _ => Re.opt (Re.count 5 Py.isdecimal)
       (fun g2 => Re.star Py.isspace
          (fun _ => Re.star (fun c => negb (Py.is_newline c)) (fun g3 => Re.eol (f g2 g3))))) s
  = (fun r => f (fst r) (snd r)) <$> scan_after_time s.
Proof.
  unfold Re.plus, scan_after_time. destruct s as [| c s]; [reflexivity |].
  destruct (Py.isspace c); [| reflexivity].
  rewrite star_greedy.
  - rewrite task_id_scan. fold (Py.lstrip s).
    assert (Hidem : Py.lstrip (Py.lstrip s) = Py.lstrip s) by apply drop_while_idem.
    rewrite Hidem.
    destruct (take_digits 5 (Py.lstrip s)) as [[tid r1] |] eqn:Ht.
    + destruct (line_end (Py.lstrip r1)) eqn:Hl; [reflexivity |].
      pose proof (task_id_no_fallback _ _ _ Ht Hl) as Hnone.
      rewrite Hidem in Hnone. rewrite Hnone. reflexivity.
    + destruct (line_end (Py.lstrip s)); reflexivity.
  - intros m r -> Hm. rewrite !task_id_scan. rewrite drop_while_app by exact Hm.
    apply task_id_scan_lstrip.
Qed.

Lemma upto_one (p : ascii -> bool) (k : @Re.cont R) (s : string) :
  Re.upto 1 p k s
  = match s with
    | String c s' =>
        if p c then
          match k (String c "") s' with
          | Some r => Some r
          | None => k "" s
          end
        else k "" s
    | EmptyString => k "" s
    end.
Proof. destruct s; reflexivity. Qed.

Lemma take_digits_one (s : string) :
  take_digits 1 s
  = match s with
    | String c s' => if Py.isdecimal c then Some (String c "", s') else None
    | EmptyString => None
    end.
Proof. destruct s as [| c s]; [reflexivity |]. cbn. destruct (Py.isdecimal c); reflexivity. Qed.

Lemma str_app_empty (s : string) : s +:+ "" = s.
Proof. induction s as [| c s IH]; [reflexivity |]. rewrite str_app_cons, IH. reflexivity. Qed.

Lemma minutes_scan (k : string -> string -> option R) (s : string) :
  Re.lit ":" (Re.count 2 Py.isdecimal k) s
  = match s with
    | String c s3 =>
        if Ascii.eqb c ":" then
          match take_digits 2 s3 with
          | Some (mm, s4) => k mm s4
          | None => None
          end
        else None
    | EmptyString => None
    end.
Proof.
  destruct s as [| c s3]; [reflexivity |]. cbn [Re.lit].
  destruct (Ascii.eqb c ":"); [apply count_take_digits | reflexivity].
Qed.

(** The time. *)
Lemma time_scan (k : string -> string -> string -> option R) (s : string) :
  Re.between 1 2 Py.isdecimal (fun hh => Re.lit ":" (Re.count 2 Py.isdecimal (k hh))) s
  = match scan_time s with
    | Some (hh, mm, rest) => k hh mm rest
    | None => None
    end.
Proof.
  unfold Re.between, scan_time. rewrite count_take_digits.
  destruct (take_digits 1 s) as [[d1 s1] |]; [| reflexivity].
  change (2 - 1)%nat with 1%nat. rewrite upto_one, take_digits_one.
  destruct s1 as [| c s1].
  - rewrite minutes_scan. reflexivity.
  - destruct (Py.isdecimal c) eqn:Hc; cbn [fst snd].
    + assert (Hcolon : Ascii.eqb c ":" = false).
      { apply Ascii.eqb_neq. intros ->. discriminate. }
      rewrite !minutes_scan, Hcolon.
      destruct s1 as [| c' s3]; [reflexivity |].
      destruct (Ascii.eqb c' ":"); [| reflexivity].
      destruct (take_digits 2 s3) as [[mm s4] |]; [| reflexivity].
      destruct (k (d1 +:+ String c "") mm s4); reflexivity.
    + rewrite minutes_scan, str_app_empty.
      destruct (Ascii.eqb c ":"); [| reflexivity].
      destruct (take_digits 2 s1) as [[mm s4] |]; reflexivity.
Qed.
End ScanFacts.

(** [LINE_PATTERN] computes what the one-pass reading computes. *)
Lemma LINE_PATTERN_scan (line : string) : LINE_PATTERN line = scan_line line.
Proof.
  unfold LINE_PATTERN, scan_line. rewrite star_commit.
  - rewrite (time_scan
               (fun hh mm =>
                  Re.plus Py.isspace
                    (fun _ => Re.opt (Re.count 5 Py.isdecimal)
                       (fun g2 => Re.star Py.isspace
                          (fun _ => Re.star (fun c => negb (Py.is_newline c))
                             (fun g3 => Re.eol
                                (Py.take_while Py.isspace line +:+ hh +:+ ":" +:+ mm,
                                 g2, g3))))))).
    destruct (scan_time (Py.drop_while Py.isspace line)) as [[[hh mm] rest] |]; [| reflexivity].
    rewrite (after_time_scan
               (fun g2 g3 => (Py.take_while Py.isspace line +:+ hh +:+ ":" +:+ mm, g2, g3))).
    destruct (scan_after_time rest) as [[tid description] |]; reflexivity.
  - intros m c r Hc. unfold Re.between. rewrite count_take_digits.
    rewrite take_digits_space by exact Hc. reflexivity.
Qed.

(** ** The fields of a parsed line *)

Lemma digit_not_space (c : ascii) : Py.isdecimal c = true -> Py.isspace c = false.
Proof.
  intros Hd. destruct (Py.isspace c) eqn:Hs; [| reflexivity].
  rewrite (space_not_digit c Hs) in Hd. discriminate.
Qed.

Lemma digit_not_colon (c : ascii) : Py.isdecimal c = true -> Ascii.eqb c ":" = false.
Proof. intros Hd. apply Ascii.eqb_neq. intros ->. discriminate. Qed.

Lemma take_digits_app (n : nat) (m r : string) :
  digits m -> String.length m = n -> take_digits n (m +:+ r) = Some (m, r).
Proof.
  unfold digits. revert n. induction m as [| c m IH]; intros n Hall Hlen.
  - cbn in Hlen. subst n. reflexivity.
  - cbn [String.length] in Hlen. subst n. cbn [str_all] in Hall.
    apply andb_true_iff in Hall as [Hc Hm]. rewrite str_app_cons. cbn [take_digits].
    rewrite Hc, (IH _ Hm eq_refl). reflexivity.
Qed.

Lemma take_digits_extend (n : nat) (s m r x : string) :
  take_digits n s = Some (m, r) -> take_digits n (s +:+ x) = Some (m, r +:+ x).
Proof.
  intros H. apply take_digits_shape in H as (-> & Hall & Hlen).
  rewrite str_app_assoc. apply take_digits_app; assumption.
Qed.

Lemma scan_time_shape (s hh mm rest : string) :
  scan_time s = Some (hh, mm, rest) ->
  s = hh +:+ ":" +:+ mm +:+ rest
  /\ digits hh /\ (1 <= String.length hh <= 2)%nat /\ digits mm /\ String.length mm = 2%nat.
Proof.
  unfold scan_time. destruct (take_digits 1 s) as [[d1 s1] |] eqn:H1; [| discriminate].
  apply take_digits_shape in H1 as (-> & Hd1 & Hl1).
  destruct (take_digits 1 s1) as [[d2 s2] |] eqn:H2; cbn [fst snd].
  - apply take_digits_shape in H2 as (-> & Hd2 & Hl2).
    destruct s2 as [| c s3]; [discriminate |].
    destruct (Ascii.eqb_spec c ":") as [-> |]; [| discriminate].
    destruct (take_digits 2 s3) as [[mm' s4] |] eqn:H3; [| discriminate].
    apply take_digits_shape in H3 as (-> & Hd3 & Hl3).
    intros [= <- <- <-]. rewrite !str_app_assoc. split; [reflexivity |].
    assert (Hlen : String.length (d1 +:+ d2) = 2%nat).
    { destruct d1 as [| a [| ? ?]]; try discriminate.
      destruct d2 as [| b [| ? ?]]; try discriminate. reflexivity. }
    split; [| split; [lia | split; assumption]].
    unfold digits in *. destruct d1 as [| a [| ? ?]]; try discriminate.
    rewrite str_app_cons, str_app_nil. cbn [str_all] in *. rewrite Hd2.
    apply andb_true_iff in Hd1 as [-> _]. reflexivity.
  - destruct s1 as [| c s3]; [discriminate |].
    destruct (Ascii.eqb_spec c ":") as [-> |]; [| discriminate].
    destruct (take_digits 2 s3) as [[mm' s4] |] eqn:H3; [| discriminate].
    apply take_digits_shape in H3 as (-> & Hd3 & Hl3).
    intros [= <- <- <-]. split; [reflexivity |].
    split; [assumption | split; [lia | split; assumption]].
Qed.

Lemma scan_time_app (hh mm rest : string) :
  digits hh -> (1 <= String.length hh <= 2)%nat -> digits mm -> String.length mm = 2%nat ->
  scan_time (hh +:+ ":" +:+ mm +:+ rest) = Some (hh, mm, rest).
Proof.
  unfold digits. intros Hhh Hlen Hmm Hlmm. unfold scan_time.
  assert (Hcolon : forall x, take_digits 1 (String ":" x) = None) by reflexivity.
  destruct hh as [| a [| b [| ? ?]]]; cbn [String.length] in Hlen; try lia.
  - cbn [str_all] in Hhh. apply andb_true_iff in Hhh as [Ha _].
    rewrite !str_app_cons, !str_app_nil. rewrite take_digits_one, Ha, Hcolon.
    cbn [fst snd]. rewrite Ascii.eqb_refl.
    rewrite (take_digits_app 2 mm rest Hmm Hlmm). reflexivity.
  - cbn [str_all] in Hhh. apply andb_true_iff in Hhh as [Ha Hb].
    apply andb_true_iff in Hb as [Hb _].
    rewrite !str_app_cons, !str_app_nil. rewrite take_digits_one, Ha.
    rewrite take_digits_one, Hb.
    cbn [fst snd]. rewrite Ascii.eqb_refl.
    rewrite (take_digits_app 2 mm rest Hmm Hlmm). reflexivity.
Qed.

Lemma line_end_value (s description : string) :
  line_end s = Some description ->
  description = Py.take_while not_newline s /\ str_all not_newline description = true.
Proof.
  unfold line_end. destruct (at_eol (Py.drop_while not_newline s)); [| discriminate].
  intros [= <-]. split; [reflexivity | apply take_while_all].
Qed.

Lemma line_end_whole (description : string) :
  str_all not_newline description = true -> line_end description = Some description.
Proof.
  intros H. unfold line_end.
  pose proof (drop_while_app not_newline description "" H) as Hd.
  pose proof (take_while_app not_newline description "" H) as Ht.
  rewrite str_app_empty in Hd, Ht. cbn [Py.drop_while Py.take_while] in Hd, Ht.
  rewrite Hd, Ht, str_app_empty. reflexivity.
Qed.

Lemma take_while_no_space (s : string) :
  Py.lstrip s = s -> Py.lstrip (Py.take_while not_newline s) = Py.take_while not_newline s.
Proof.
  intros Hs. apply drop_while_stop. destruct s as [| c s]; [exact I |].
  cbn [Py.take_while]. destruct (not_newline c); [| exact I].
  unfold Py.lstrip in Hs. cbn [Py.drop_while] in Hs.
  destruct (Py.isspace c) eqn:Hsp; [| reflexivity].
  exfalso. pose proof (take_drop_while Py.isspace s) as Hlen.
  apply (f_equal String.length) in Hlen. rewrite Hs in Hlen.
  assert (Happ : forall a b, String.length (a +:+ b) = (String.length a + String.length b)%nat).
  { clear. induction a as [| x a IH]; intros b; [reflexivity |].
    rewrite str_app_cons. cbn [String.length]. rewrite IH. reflexivity. }
  rewrite Happ in Hlen. cbn [String.length] in Hlen. lia.
Qed.

Lemma scan_after_time_shape (s : string) (tid : option string) (description : string) :
  scan_after_time s = Some (tid, description) ->
  match tid with
  | Some t => digits t /\ String.length t = 5%nat
  | None => take_digits 5 description = None
  end
  /\ str_all not_newline description = true
  /\ Py.lstrip description = description.
Proof.
  unfold scan_after_time. destruct s as [| c s]; [discriminate |].
  destruct (Py.isspace c); [| discriminate].
  assert (Hidem : forall x, Py.lstrip (Py.lstrip x) = Py.lstrip x)
    by (intros x; apply drop_while_idem).
  destruct (take_digits 5 (Py.lstrip s)) as [[t r1] |] eqn:Ht.
  - destruct (line_end (Py.lstrip r1)) as [d |] eqn:Hl; [| discriminate].
    intros [= <- <-]. apply take_digits_shape in Ht as (_ & Hall & Hlen).
    apply line_end_value in Hl as [-> Hnl].
    split; [split; assumption |]. split; [exact Hnl |].
    apply take_while_no_space, Hidem.
  - destruct (line_end (Py.lstrip s)) as [d |] eqn:Hl; [| discriminate].
    intros [= <- <-]. apply line_end_value in Hl as [-> Hnl].
    split; [| split; [exact Hnl | apply take_while_no_space, Hidem]].
    destruct (take_digits 5 (Py.take_while not_newline (Py.lstrip s))) as [[m r] |] eqn:Hd;
      [| reflexivity].
    apply (take_digits_extend _ _ _ _ (Py.drop_while not_newline (Py.lstrip s))) in Hd.
    rewrite take_drop_while in Hd. congruence.
Qed.

Lemma strip_time (ws hh mm : string) :
  str_all Py.isspace ws = true ->
  digits hh -> (1 <= String.length hh)%nat -> digits mm -> String.length mm = 2%nat ->
  Py.strip (ws +:+ hh +:+ ":" +:+ mm) = hh +:+ ":" +:+ mm.
Proof.
  unfold digits. intros Hws Hhh Hlen Hmm Hlmm. unfold Py.strip, Py.lstrip.
  rewrite drop_while_app by exact Hws.
  destruct hh as [| a hh]; [cbn in Hlen; lia |].
  cbn [str_all] in Hhh. apply andb_true_iff in Hhh as [Ha Hhh].
  rewrite str_app_cons. cbn [Py.drop_while]. rewrite (digit_not_space a Ha).
  rewrite <- str_app_cons. unfold Py.rstrip.
  destruct mm as [| x [| y [| ? ?]]]; try discriminate.
  cbn [str_all] in Hmm. apply andb_true_iff in Hmm as [Hx Hy].
  apply andb_true_iff in Hy as [Hy _].
  assert (Hrs : forall pre : string,
             Py.rstrip_of Py.isspace (pre +:+ String x (String y ""))
             = pre +:+ String x (String y "")).
  { induction pre as [| c pre IH].
    - rewrite str_app_nil. cbn [Py.rstrip_of]. rewrite (digit_not_space y Hy). reflexivity.
    - rewrite str_app_cons. cbn [Py.rstrip_of]. rewrite IH.
      destruct pre; reflexivity. }
  rewrite <- !str_app_assoc. apply Hrs.
Qed.

(** What [parse_line] returns is well formed. *)
Lemma parse_line_fields (line time_str : string) (tid : option string) (description : string) :
  parse_line line = Some (time_str, tid, description) ->
  parsed_fields time_str tid description.
Proof.
  unfold parse_line. rewrite LINE_PATTERN_scan. unfold scan_line.
  destruct (scan_time (Py.drop_while Py.isspace line)) as [[[hh mm] rest] |] eqn:Ht;
    [| discriminate].
  destruct (scan_after_time rest) as [[tid' d] |] eqn:Ha; [| discriminate].
  intros [= <- <- <-].
  apply scan_time_shape in Ht as (_ & Hhh & Hlen & Hmm & Hlmm).
  apply scan_after_time_shape in Ha. split; [| exact Ha].
  exists hh, mm. rewrite strip_time by (try apply take_while_all; try assumption; lia).
  auto.
Qed.

Lemma lstrip_digits (t rest : string) :
  digits t -> t <> "" -> Py.lstrip (t +:+ rest) = t +:+ rest.
Proof.
  unfold digits. intros Ht Hne. destruct t as [| c t]; [congruence |].
  cbn [str_all] in Ht. apply andb_true_iff in Ht as [Hc _].
  apply drop_while_stop. rewrite str_app_cons. apply digit_not_space, Hc.
Qed.

Lemma scan_after_time_task (tid description : string) :
  digits tid -> String.length tid = 5%nat ->
  str_all not_newline description = true -> Py.lstrip description = description ->
  scan_after_time (" " +:+ tid +:+ " " +:+ description) = Some (Some tid, description).
Proof.
  intros Hd Hlen Hnl Hls. rewrite str_app_cons, str_app_nil. unfold scan_after_time.
  change (Py.isspace " ") with true. cbv iota.
  rewrite lstrip_digits by (try assumption; intros ->; discriminate).
  rewrite (take_digits_app 5 tid (" " +:+ description) Hd Hlen).
  rewrite str_app_cons, str_app_nil.
  change (Py.lstrip (String " " description)) with (Py.lstrip description).
  rewrite Hls, (line_end_whole description Hnl). reflexivity.
Qed.

Lemma scan_after_time_plain (description : string) :
  take_digits 5 description = None ->
  str_all not_newline description = true -> Py.lstrip description = description ->
  scan_after_time (" " +:+ description) = Some (None, description).
Proof.
  intros Hnone Hnl Hls. rewrite str_app_cons, str_app_nil. unfold scan_after_time.
  change (Py.isspace " ") with true. cbv iota.
  rewrite Hls, Hnone, (line_end_whole description Hnl). reflexivity.
Qed.

(** Fields of that form, put back into a line, parse to themselves. *)
Lemma parse_reassembled (time_str : string) (tid : option string) (description : string) :
  parsed_fields time_str tid description ->
  parse_line (reassemble time_str tid description) = Some (time_str, tid, description).
Proof.
  intros ((hh & mm & -> & Hhh & Hlen & Hmm & Hlmm) & Htid & Hnl & Hls).
  assert (Hfront : forall rest : string,
             Py.drop_while Py.isspace ((hh +:+ ":" +:+ mm) +:+ rest)
             = hh +:+ ":" +:+ mm +:+ rest
             /\ Py.take_while Py.isspace ((hh +:+ ":" +:+ mm) +:+ rest) = "").
  { intros rest. rewrite !str_app_assoc. apply drop_while_stop.
    destruct hh as [| a hh]; [cbn in Hlen; lia |].
    unfold digits in Hhh. cbn [str_all] in Hhh. apply andb_true_iff in Hhh as [Ha _].
    rewrite str_app_cons. apply digit_not_space, Ha. }
  assert (Hstrip : Py.strip ("" +:+ hh +:+ ":" +:+ mm) = hh +:+ ":" +:+ mm)
    by (apply strip_time; try assumption; [reflexivity | lia]).
  unfold parse_line. rewrite LINE_PATTERN_scan. unfold scan_line, reassemble.
  destruct tid as [t |].
  - destruct Htid as [Ht Hlt]. destruct (Hfront (" " +:+ t +:+ " " +:+ description)) as [-> ->].
    rewrite scan_time_app by assumption.
    rewrite scan_after_time_task by assumption. rewrite Hstrip. reflexivity.
  - destruct (Hfront (" " +:+ description)) as [-> ->].
    rewrite scan_time_app by assumption.
    rewrite scan_after_time_plain by assumption. rewrite Hstrip. reflexivity.
Qed.

(** C7: when [parse_line] succeeds on a line with (time, task id,
    description), the line rebuilt from them (the time, the task id when
    there is one, the description, separated by single spaces) parses to
    the same three fields. *)
Theorem parse_line_round_trip (line time_str : string) (tid : option string)
    (description : string) :
  parse_line line = Some (time_str, tid, description) ->
  parse_line (reassemble time_str tid description) = Some (time_str, tid, description).
Proof. intros H. apply parse_reassembled, (parse_line_fields line), H. Qed.

(** A line with leading whitespace, a one-digit hour, extra spaces, six
    digits after the time and a trailing space. *)
Lemma parse_line_round_trip_witness :
  parse_line "  8:00   123456 x " = Some ("8:00", Some "12345", "6 x ")
  /\ parse_line (reassemble "8:00" (Some "12345") "6 x ") = Some ("8:00", Some "12345", "6 x ").
Proof.
  split; [reflexivity |].
  apply (parse_line_round_trip "  8:00   123456 x "). reflexivity.
Defined.

(** ** Reading the hour and the minute *)

Lemma split_digits (s : string) : digits s -> Py.split ":" s = [s].
Proof.
  unfold digits. induction s as [| c s IH]; [reflexivity |].
  cbn [str_all Py.split]. intros H. apply andb_true_iff in H as [Hc Hs].
  rewrite (digit_not_colon c Hc), (IH Hs). reflexivity.
Qed.

Lemma split_time (hh mm : string) :
  digits hh -> digits mm -> Py.split ":" (hh +:+ ":" +:+ mm) = [hh; mm].
Proof.
  unfold digits. intros Hhh Hmm. induction hh as [| c hh IH].
  - rewrite str_app_nil, str_app_cons, str_app_nil. cbn [Py.split].
    rewrite Ascii.eqb_refl, (split_digits mm Hmm). reflexivity.
  - cbn [str_all] in Hhh. apply andb_true_iff in Hhh as [Hc Hhh].
    rewrite str_app_cons. cbn [Py.split]. rewrite (digit_not_colon c Hc), (IH Hhh).
    reflexivity.
Qed.

Lemma rstrip_digits (s : string) : digits s -> Py.rstrip s = s.
Proof.
  unfold digits, Py.rstrip. induction s as [| c s IH]; [reflexivity |].
  cbn [str_all Py.rstrip_of]. intros H. apply andb_true_iff in H as [Hc Hs].
  rewrite (IH Hs), (digit_not_space c Hc). destruct s; reflexivity.
Qed.

Lemma int_digits_value (s : string) (acc : Z) :
  digits s -> 0 <= acc -> exists v, Py.int_digits acc false s = Some v /\ 0 <= v.
Proof.
  unfold digits. revert acc. induction s as [| c s IH]; intros acc Hs Hacc.
  - exists acc. auto.
  - cbn [str_all] in Hs. apply andb_true_iff in Hs as [Hc Hs]. cbn [Py.int_digits].
    rewrite Hc. apply IH; [exact Hs |].
    unfold Py.isdecimal in Hc. apply andb_true_iff in Hc as [H1 _]. apply Z.leb_le in H1.
    unfold Py.digit_value. lia.
Qed.

Lemma int_of_digits (s : string) :
  digits s -> s <> "" -> exists v, Py.int_of_str s = Some v /\ 0 <= v.
Proof.
  intros Hs Hne. unfold Py.int_of_str, Py.strip.
  assert (Hl : Py.lstrip s = s).
  { pose proof (lstrip_digits s "" Hs Hne) as H. rewrite str_app_empty in H. exact H. }
  rewrite Hl, (rstrip_digits s Hs).
  destruct s as [| c s]; [congruence |].
  unfold digits in Hs. cbn [str_all] in Hs. apply andb_true_iff in Hs as [Hc Hs].
  assert (Hplus : Ascii.eqb c "+" = false) by (apply Ascii.eqb_neq; intros ->; discriminate).
  assert (Hminus : Ascii.eqb c "-" = false) by (apply Ascii.eqb_neq; intros ->; discriminate).
  rewrite Hplus, Hminus. unfold Py.int_unsigned. rewrite Hc.
  apply int_digits_value; [exact Hs |].
  unfold Py.isdecimal in Hc. apply andb_true_iff in Hc as [H1 _]. apply Z.leb_le in H1.
  unfold Py.digit_value. lia.
Qed.

(** The conversion guarded by [try] never fails on a line that matches. *)
Lemma line_time_defined (line time_str : string) (tid : option string) (description : string) :
  parse_line line = Some (time_str, tid, description) ->
  exists h mi, line_time line = Some (h, mi) /\ 0 <= h /\ 0 <= mi.
Proof.
  intros Hp. unfold line_time. rewrite Hp.
  apply parse_line_fields in Hp as ((hh & mm & -> & Hhh & Hlen & Hmm & Hlmm) & _).
  unfold hour_minute. rewrite split_time by assumption. cbn [List.map].
  destruct (int_of_digits hh Hhh) as (h & -> & Hh); [intros ->; cbn in Hlen; lia |].
  destruct (int_of_digits mm Hmm) as (mi & -> & Hmi); [intros ->; discriminate |].
  exists h, mi. auto.
Qed.

Lemma get_timestamps_in_range (today : datetime) (lines : list string) :
  valid_date today ->
  (forall line h mi, line ∈ lines -> line_time line = Some (h, mi) -> h <= 23 /\ mi <= 59) ->
  get_timestamps today lines
  = Ok (omap (fun line => at_time today <$> line_time line) lines).
Proof.
  intros Hvalid. induction lines as [| line rest IH]; intros Hrange; [reflexivity |].
  assert (IH' : get_timestamps today rest
                = Ok (omap (fun line => at_time today <$> line_time line) rest)).
  { apply IH. intros l h mi Hin. apply Hrange. right. exact Hin. }
  cbn [omap list_omap]. destruct (parse_line line) as [[[t tid] d] |] eqn:Hp.
  - destruct (line_time_defined _ _ _ _ Hp) as (h & mi & Hlt & Hh & Hmi).
    rewrite Hlt. cbn [fmap option_fmap option_map].
    destruct (Hrange line h mi) as [Hh' Hmi']; [left | exact Hlt |].
    unfold line_time in Hlt. rewrite Hp in Hlt.
    rewrite (get_timestamps_match today line rest t tid d h mi Hp Hlt).
    rewrite datetime_new_ok by (assumption || lia). rewrite IH'. reflexivity.
  - assert (Hlt : line_time line = None) by (unfold line_time; rewrite Hp; reflexivity).
    rewrite (get_timestamps_skip today line rest Hp), IH', Hlt. reflexivity.
Qed.

Lemma timestamps_count (today : datetime) (lines : list string) :
  length (omap (fun line => at_time today <$> line_time line) lines)
  = length (List.filter matches_pattern lines).
Proof.
  induction lines as [| line rest IH]; [reflexivity |].
  cbn [omap list_omap List.filter]. unfold matches_pattern at 1.
  destruct (parse_line line) as [[[t tid] d] |] eqn:Hp.
  - destruct (line_time_defined _ _ _ _ Hp) as (h & mi & -> & _).
    cbn [fmap option_fmap option_map length]. rewrite IH. reflexivity.
  - assert (Hlt : line_time line = None) by (unfold line_time; rewrite Hp; reflexivity).
    rewrite Hlt. exact IH.
Qed.

Lemma get_timestamps_out_of_range (today : datetime) (line : string) (h mi : Z) :
  line_time line = Some (h, mi) -> ~ (0 <= h <= 23 /\ 0 <= mi <= 59) ->
  get_timestamps today [line] = Raised ValueError.
Proof.
  unfold line_time. destruct (parse_line line) as [[[t tid] d] |] eqn:Hp; [| discriminate].
  intros Hhm Hbad. rewrite (get_timestamps_match today line [] t tid d h mi Hp Hhm).
  rewrite datetime_new_out_of_range by exact Hbad. reflexivity.
Qed.

Lemma main_raises (float_repr : Py.float -> string) (today : datetime)
    (path answer content : string) (w : world) (e : exn) :
  files w !! path = Some content ->
  is_already_parsed (nonblank_lines content) = false ->
  get_timestamps today (nonblank_lines content) = Raised e ->
  main float_repr today path answer w = (Raised e, w).
Proof.
  intros Hfile Hparsed Hraise. unfold main, bind, get_lines. rewrite Hfile.
  unfold is_already_parsed_logged. rewrite Hparsed. unfold ret, lift. rewrite Hraise.
  reflexivity.
Qed.

(** C9: [get_timestamps] returns, without raising, one timestamp per line
    that matches the pattern (the day of [today] at the line's hour and
    minute) whenever every matching line has an hour of at most 23 and a
    minute of at most 59; the conversion to integers never fails on a
    matching line, so no such line is skipped; and the lines "24:00 task"
    and "08:99 task" match the pattern and make [get_timestamps] raise
    [ValueError], which [main] lets through before it writes anything. *)
Theorem get_timestamps_raises_out_of_range :
  (forall (today : datetime) (lines : list string),
      valid_date today ->
      (forall line h mi, line ∈ lines -> line_time line = Some (h, mi) -> h <= 23 /\ mi <= 59) ->
      exists timestamps,
        get_timestamps today lines = Ok timestamps
        /\ timestamps = omap (fun line => at_time today <$> line_time line) lines
        /\ length timestamps = length (List.filter matches_pattern lines))
  /\ (forall line : string, matches_pattern line = true -> is_Some (line_time line))
  /\ (forall today : datetime,
         matches_pattern "24:00 task" = true
         /\ get_timestamps today ["24:00 task"] = Raised ValueError)
  /\ (forall today : datetime,
         matches_pattern "08:99 task" = true
         /\ get_timestamps today ["08:99 task"] = Raised ValueError)
  /\ (forall (float_repr : Py.float -> string) (today : datetime)
         (path answer : string) (w : world),
         files w !! path = Some "24:00 task" ->
         main float_repr today path answer w = (Raised ValueError, w)).
Proof.
  assert (H24 : forall today, get_timestamps today ["24:00 task"] = Raised ValueError).
  { intros today. apply (get_timestamps_out_of_range today _ 24 0); [reflexivity | lia]. }
  split; [| split; [| split; [| split]]].
  - intros today lines Hvalid Hrange. eexists. split; [| split; [reflexivity |]].
    + apply get_timestamps_in_range; assumption.
    + apply timestamps_count.
  - intros line. unfold matches_pattern.
    destruct (parse_line line) as [[[t tid] d] |] eqn:Hp; [| discriminate].
    intros _. destruct (line_time_defined _ _ _ _ Hp) as (h & mi & -> & _). eauto.
  - intros today. split; [reflexivity | apply H24].
  - intros today. split; [reflexivity |].
    apply (get_timestamps_out_of_range today _ 8 99); [reflexivity | lia].
  - intros float_repr today path answer w Hfile.
    apply (main_raises _ _ _ _ "24:00 task"); [exact Hfile | reflexivity | apply H24].
Qed.

(** A log with a heading and three entries: three timestamps. *)
Lemma get_timestamps_raises_out_of_range_witness :
  exists timestamps,
    get_timestamps test_day log_with_heading = Ok timestamps
    /\ length timestamps = 3%nat.
Proof.
  assert (Hvalid : valid_date test_day) by (repeat split; vm_compute; discriminate).
  assert (Hrange : forall line h mi,
             line ∈ log_with_heading -> line_time line = Some (h, mi) -> h <= 23 /\ mi <= 59).
  { intros line h mi Hin. unfold log_with_heading in Hin.
    repeat (apply elem_of_cons in Hin as [-> | Hin]); [| | | | inversion Hin];
      vm_compute; intros [= <- <-]; split; discriminate. }
  destruct (proj1 get_timestamps_raises_out_of_range test_day log_with_heading Hvalid Hrange)
    as (timestamps & Hts & _ & Hlen).
  exists timestamps. split; [exact Hts | exact Hlen].
Defined.

(** ** Pairing lines and deltas *)

Lemma int_of_total_seconds (d : timedelta) : Py.int_of_float (total_seconds d) = d.
Proof. unfold Py.int_of_float, total_seconds, Py.float_of_int, inject_Z. cbn [Qnum Qden]. apply Z.quot_1_r. Qed.

Lemma results_by_index_past (deltas : list timedelta) (i : nat) (lines : list string) :
  deltas !! i = None -> results_by_index deltas i lines = [].
Proof.
  revert i. induction lines as [| line rest IH]; intros i Hi; [reflexivity |].
  cbn [results_by_index]. unfold result_at.
  assert (Hnext : deltas !! S i = None).
  { apply lookup_ge_None. apply lookup_ge_None in Hi. lia. }
  destruct (parse_line line) as [[[t tid] d] |]; [rewrite Hi |]; apply IH, Hnext.
Qed.

(** [get_tasks_results] gives the line at index [i] the delta at index [i]. *)
Lemma tasks_results_by_index (deltas : list timedelta) (i : nat) (lines : list string) :
  tasks_results_from i deltas lines = results_by_index deltas i lines.
Proof.
  revert i. induction lines as [| line rest IH]; intros i; [reflexivity |].
  cbn [tasks_results_from results_by_index]. unfold result_at.
  destruct (parse_line line) as [[[t tid] d] |]; [| apply IH].
  destruct (deltas !! i) as [dl |] eqn:Hi.
  - rewrite int_of_total_seconds, IH. reflexivity.
  - symmetry. apply results_by_index_past. apply lookup_ge_None.
    apply lookup_ge_None in Hi. lia.
Qed.

(** C1: [get_tasks_results] emits one result for each line at a position
    [i] below [len(deltas)] that parses, with [deltas[i]]; positions count
    every line, also those that do not parse.  On the log
    "# Saturday", "08:00 a", "09:00 b", "09:30 c" the deltas are 3600 and
    1800 seconds, and the only result is "a" with 1800 seconds: the delta
    of "09:00 b".  "08:00 a" does not get its own 3600 seconds and
    "09:00 b" gets no result. *)
Theorem tasks_results_pair_by_line_index :
  (forall (deltas : list timedelta) (lines : list string),
      get_tasks_results deltas lines = results_by_index deltas 0 lines)
  /\ get_timestamps test_day log_with_heading
     = Ok [at_time test_day (8, 0); at_time test_day (9, 0); at_time test_day (9, 30)]
  /\ get_deltas [at_time test_day (8, 0); at_time test_day (9, 0); at_time test_day (9, 30)]
     = [3600; 1800]
  /\ get_tasks_results [3600; 1800] log_with_heading
     = [{| task_id := None; delta_seconds := 1800; desc := "a" |}].
Proof.
  split; [intros deltas lines; apply tasks_results_by_index |].
  split; [vm_compute; reflexivity |]. split; vm_compute; reflexivity.
Qed.

(** ** The rational model against binary64 *)

Lemma zrange_forallb (p : Z -> bool) (lo : Z) (n : nat) (z : Z) :
  forallb p (zrange lo n) = true -> lo <= z < lo + Z.of_nat n -> p z = true.
Proof.
  revert lo. induction n as [| n IH]; intros lo Hall Hz; [lia |].
  cbn [zrange forallb] in Hall. apply andb_true_iff in Hall as [Hlo Hrest].
  destruct (Z.eq_dec z lo) as [-> | Hne]; [exact Hlo |].
  apply (IH (lo + 1) Hrest). lia.
Qed.

(** On every number of seconds within two hours, and on every whole
    number of minutes within a day, [int(seconds / 60)] computed in
    binary64 is the value of the model. *)
Lemma whole_minutes_binary64 (seconds : Z) :
  -7200 <= seconds <= 7200 \/ (exists k, seconds = 60 * k /\ -1440 <= k <= 1440) ->
  F64.whole_minutes seconds = Some (whole_minutes seconds).
Proof.
  assert (Hsmall : forallb agree_on_seconds (zrange (-7200) (Z.to_nat 14401)) = true)
    by (vm_compute; reflexivity).
  assert (Hday : forallb (fun k => agree_on_seconds (60 * k)) (zrange (-1440) (Z.to_nat 2881))
                 = true)
    by (vm_compute; reflexivity).
  intros H.
  assert (Hagree : agree_on_seconds seconds = true).
  { destruct H as [H | (k & -> & H)].
    - apply (zrange_forallb _ _ _ _ Hsmall). lia.
    - apply (zrange_forallb (fun k => agree_on_seconds (60 * k)) _ _ _ Hday). lia. }
  unfold agree_on_seconds in Hagree.
  destruct (F64.whole_minutes seconds) as [v |]; [| discriminate].
  apply Z.eqb_eq in Hagree. congruence.
Qed.

(** On every total from minus one day to two days of minutes, the rounded
    hours computed in binary64 are the value of the model. *)
Lemma rounded_hours_binary64 (total_minutes : Z) :
  -1440 <= total_minutes <= 2880 ->
  exists v, F64.minutes_to_rounded_decimal_hours total_minutes = Some v
            /\ (v == minutes_to_rounded_decimal_hours total_minutes)%Q.
Proof.
  assert (Hall : forallb agree_on_minutes (zrange (-1440) (Z.to_nat 4321)) = true)
    by (vm_compute; reflexivity).
  intros H. pose proof (zrange_forallb _ _ _ total_minutes Hall ltac:(lia)) as Hagree.
  unfold agree_on_minutes in Hagree.
  destruct (F64.minutes_to_rounded_decimal_hours total_minutes) as [v |]; [| discriminate].
  exists v. split; [reflexivity |]. apply Qeq_bool_iff. exact Hagree.
Qed.

(** ** Where the pairing is right

    When every line matches the pattern, positions among the lines and
    positions among the timestamps coincide, and each line but the last
    gets the time to the next line. *)

Lemma results_by_index_lookup (deltas : list timedelta) (lines : list string)
    (k i : nat) (line : string) :
  (forall l, l ∈ lines -> matches_pattern l = true) ->
  lines !! i = Some line -> (k + i < length deltas)%nat ->
  results_by_index deltas k lines !! i = result_at deltas (k + i) line.
Proof.
  revert k i. induction lines as [| l0 rest IH]; intros k i Hall Hi Hlen; [discriminate |].
  assert (Hres : exists r, result_at deltas k l0 = Some r).
  { unfold result_at. pose proof (Hall l0 ltac:(left)) as Hm. unfold matches_pattern in Hm.
    destruct (parse_line l0) as [[[t tid] d] |]; [| discriminate].
    destruct (deltas !! k) as [dl |] eqn:Hk; [eauto |].
    apply lookup_ge_None in Hk. lia. }
  destruct Hres as [r Hr]. cbn [results_by_index]. rewrite Hr.
  destruct i as [| i].
  - cbn in Hi. injection Hi as ->. rewrite Nat.add_0_r. cbn. symmetry. exact Hr.
  - rewrite lookup_cons in Hi. rewrite lookup_cons.
    rewrite (IH (S k) i); [f_equal; lia | | exact Hi | lia].
    intros l Hl. apply Hall. right. exact Hl.
Qed.

Lemma pairwise_lookup {A : Type} (l : list A) (i : nat) (a b : A) :
  l !! i = Some a -> l !! S i = Some b -> pairwise l !! i = Some (a, b).
Proof.
  unfold pairwise. revert i. induction l as [| x l IH]; intros i Ha Hb; [discriminate |].
  cbn [tail]. destruct l as [| y l]; [discriminate |]. cbn [combine].
  destruct i as [| i].
  - cbn in *. congruence.
  - rewrite lookup_cons in Ha, Hb. rewrite lookup_cons. apply (IH i Ha Hb).
Qed.

Lemma get_deltas_lookup (timestamps : list datetime) (i : nat) (a b : datetime) :
  timestamps !! i = Some a -> timestamps !! S i = Some b ->
  get_deltas timestamps !! i = Some (datetime_sub b a).
Proof.
  intros Ha Hb. unfold get_deltas.
  assert (Hlen : (1 <? length timestamps)%nat = true).
  { apply Nat.ltb_lt. apply lookup_lt_Some in Hb. lia. }
  rewrite Hlen. rewrite list_lookup_fmap, (pairwise_lookup _ _ _ _ Ha Hb). reflexivity.
Qed.

Lemma get_timestamps_all_match (today : datetime) (lines : list string)
    (timestamps : list datetime) :
  (forall l, l ∈ lines -> matches_pattern l = true) ->
  get_timestamps today lines = Ok timestamps ->
  forall i line hm,
    lines !! i = Some line -> line_time line = Some hm ->
    timestamps !! i = Some (at_time today hm).
Proof.
  revert timestamps. induction lines as [| l0 rest IH]; intros ts Hall Hts i line hm Hi Hlt;
    [discriminate |].
  pose proof (Hall l0 ltac:(left)) as Hm. unfold matches_pattern in Hm.
  destruct (parse_line l0) as [[[t tid] d] |] eqn:Hp; [| discriminate].
  destruct (line_time_defined _ _ _ _ Hp) as (h & mi & Hlt0 & _).
  assert (Hhm : hour_minute t = Some (h, mi)) by (unfold line_time in Hlt0; rewrite Hp in Hlt0; exact Hlt0).
  rewrite (get_timestamps_match today l0 rest t tid d h mi Hp Hhm) in Hts.
  unfold datetime_new in Hts.
  destruct ((1 <=? year today) && (year today <=? 9999) && (1 <=? month today)
            && (month today <=? 12) && (1 <=? day today)
            && (day today <=? days_in_month (year today) (month today))
            && (0 <=? h) && (h <=? 23) && (0 <=? mi) && (mi <=? 59)); [| discriminate].
  destruct (get_timestamps today rest) as [ts' |] eqn:Hrest; [| discriminate].
  injection Hts as <-. destruct i as [| i].
  - cbn in Hi. injection Hi as <-. rewrite Hlt0 in Hlt. injection Hlt as <-. reflexivity.
  - rewrite lookup_cons in Hi. rewrite lookup_cons.
    apply (IH ts') with (line := line); [| reflexivity | exact Hi | exact Hlt].
    intros l Hl. apply Hall. right. exact Hl.
Qed.

(** On a log in which every line matches, the result for a line that has
    a next line carries the seconds from its own time to that of the next
    line. *)
Lemma tasks_results_aligned (today : datetime) (lines : list string)
    (timestamps : list datetime) (i : nat) (line next time_str : string)
    (tid : option string) (description : string) (h mi h' mi' : Z) :
  (forall l, l ∈ lines -> matches_pattern l = true) ->
  get_timestamps today lines = Ok timestamps ->
  lines !! i = Some line -> lines !! S i = Some next ->
  parse_line line = Some (time_str, tid, description) ->
  line_time line = Some (h, mi) -> line_time next = Some (h', mi') ->
  get_tasks_results (get_deltas timestamps) lines !! i
  = Some {| task_id := tid;
            delta_seconds := ((h' * 60 + mi') - (h * 60 + mi)) * 60;
            desc := description |}.
Proof.
  intros Hall Hts Hi Hnext Hp Hlt Hlt'.
  pose proof (get_timestamps_all_match _ _ _ Hall Hts i line _ Hi Hlt) as Ha.
  pose proof (get_timestamps_all_match _ _ _ Hall Hts (S i) next _ Hnext Hlt') as Hb.
  pose proof (get_deltas_lookup _ _ _ _ Ha Hb) as Hd.
  unfold get_tasks_results. rewrite tasks_results_by_index.
  rewrite (results_by_index_lookup _ _ 0 i line Hall Hi)
    by (apply lookup_lt_Some in Hd; lia).
  unfold result_at. rewrite Hp. cbn [Nat.add]. rewrite Hd.
  unfold at_time. cbn [fst snd]. rewrite datetime_sub_same_day. reflexivity.
Qed.

(** ** A run of [main] *)

(** The summary [main] appends to the sample log, and the two entries it
    sends when the user answers "y". *)
Lemma main_sample_run :
  let r := main quarter_repr test_day "log.md" " Y " sample_world in
  fst r = Ok tt
  /\ files (snd r) !! "log.md" = Some "08:00 standup
09:00 12345 Task A

10:15 #lunch
11:00 x


Summary:
60 = 1h 0m ~ 1.0h: 77488 standup
75 = 1h 15m ~ 1.25h: 12345 Task A
45 = 0h 45m ~ 0.75h: #lunch

total: 3h 0m (180)
total work: 2h 15m (135)
total work rounded hours: 2.25
total free:  0h 45m (45)
saldo: -5h 45m (-345)
working too little
already parsed"
  /\ sent (snd r)
     = [ {| issue_id := "77488"; spent_on := "2026-02-21"; hours := 1%Q;
            comments := "standup" |};
         {| issue_id := "12345"; spent_on := "2026-02-21"; hours := (5 # 4)%Q;
            comments := "Task A" |} ].
Proof. cbv zeta. repeat split; vm_compute; reflexivity. Qed.

(** Run again on its own output, [main] changes nothing. *)
Lemma main_sample_rerun :
  let w := snd (main quarter_repr test_day "log.md" "n" sample_world) in
  let r := main quarter_repr test_day "log.md" "n" w in
  fst r = Ok tt /\ files (snd r) = files w /\ sent (snd r) = sent w.
Proof. cbv zeta. repeat split; vm_compute; reflexivity. Qed.

(** ** Deltas between consecutive timestamps *)

Lemma datetime_sub_chain (a b c : datetime) :
  datetime_sub c a = datetime_sub c b + datetime_sub b a.
Proof. unfold datetime_sub. lia. Qed.

Lemma datetime_sub_self (a : datetime) : datetime_sub a a = 0.
Proof. unfold datetime_sub. lia. Qed.

Lemma get_deltas_map (timestamps : list datetime) :
  get_deltas timestamps
  = List.map (fun ij => datetime_sub (snd ij) (fst ij)) (pairwise timestamps).
Proof.
  unfold get_deltas. destruct timestamps as [|a [|b l]]; reflexivity.
Qed.

Lemma get_deltas_cons (a b : datetime) (l : list datetime) :
  get_deltas (a :: b :: l) = datetime_sub b a :: get_deltas (b :: l).
Proof. rewrite !get_deltas_map. reflexivity. Qed.

Lemma get_deltas_length (timestamps : list datetime) :
  length (get_deltas timestamps) = Nat.pred (length timestamps).
Proof.
  destruct timestamps as [|a l]; [reflexivity|].
  revert a. induction l as [|b l IH]; intros a; [reflexivity|].
  rewrite get_deltas_cons. cbn [length Nat.pred]. rewrite IH. reflexivity.
Qed.

Lemma get_deltas_sum (a : datetime) (l : list datetime) (z : datetime) :
  last (a :: l) = Some z -> Py.sum (get_deltas (a :: l)) = datetime_sub z a.
Proof.
  revert a. induction l as [|b l IH]; intros a Hz.
  - cbn in Hz. injection Hz as <-. rewrite datetime_sub_self. reflexivity.
  - rewrite get_deltas_cons, sum_cons.
    rewrite last_cons_cons in Hz. rewrite (IH b Hz).
    rewrite (datetime_sub_chain a b z). lia.
Qed.

(** X1. [get_deltas] returns one delta less than there are timestamps (none
    for an empty list); the delta at index [i] is the timestamp at [i + 1]
    minus the timestamp at [i]; and the deltas add up to the last timestamp
    minus the first. *)
Theorem get_deltas_consecutive (timestamps : list datetime) :
  length (get_deltas timestamps) = Nat.pred (length timestamps)
  /\ (forall (i : nat) (a b : datetime),
         timestamps !! i = Some a -> timestamps !! S i = Some b ->
         get_deltas timestamps !! i = Some (datetime_sub b a))
  /\ (forall first final : datetime,
         head timestamps = Some first -> last timestamps = Some final ->
         Py.sum (get_deltas timestamps) = datetime_sub final first).
Proof.
  split; [apply get_deltas_length|]. split.
  - intros i a b Ha Hb. exact (get_deltas_lookup timestamps i a b Ha Hb).
  - intros first final Hf Hl. destruct timestamps as [|a l]; [discriminate|].
    cbn in Hf. injection Hf as ->. exact (get_deltas_sum first l final Hl).
Qed.

(** ** What [get_timestamps] returns and when it raises *)

Lemma datetime_new_fields (y m d h mi : Z) (t : datetime) :
  datetime_new y m d h mi = Ok t ->
  t = {| year := y; month := m; day := d; hour := h; minute := mi |}
  /\ 0 <= h <= 23 /\ 0 <= mi <= 59.
Proof.
  unfold datetime_new. intros H.
  destruct ((1 <=? y) && (y <=? 9999) && (1 <=? m) && (m <=? 12)
            && (1 <=? d) && (d <=? days_in_month y m)
            && (0 <=? h) && (h <=? 23) && (0 <=? mi) && (mi <=? 59)) eqn:E;
    [|discriminate].
  injection H as <-. split; [reflexivity|].
  repeat (apply andb_prop in E; destruct E as [E ?]).
  lia.
Qed.

Lemma datetime_new_raises (y m d h mi : Z) (e : exn) :
  datetime_new y m d h mi = Raised e -> e = ValueError.
Proof.
  unfold datetime_new.
  destruct (_ && _); intros H; [discriminate|]. injection H as <-. reflexivity.
Qed.

Lemma line_time_parse (line time_str : string) (tid : option string) (description : string) :
  parse_line line = Some (time_str, tid, description) ->
  line_time line = hour_minute time_str.
Proof. intros H. unfold line_time. rewrite H. reflexivity. Qed.

Lemma line_time_no_match (line : string) : parse_line line = None -> line_time line = None.
Proof. intros H. unfold line_time. rewrite H. reflexivity. Qed.

(** The loop of [get_timestamps], one line at a time, in terms of the time
    read on the line. *)
Lemma get_timestamps_cons (today : datetime) (line : string) (rest : list string) :
  get_timestamps today (line :: rest)
  = match line_time line with
    | None => get_timestamps today rest
    | Some (h, mi) =>
        match datetime_new (year today) (month today) (day today) h mi with
        | Raised e => Raised e
        | Ok ts =>
            match get_timestamps today rest with
            | Raised e => Raised e
            | Ok timestamps => Ok (ts :: timestamps)
            end
        end
    end.
Proof.
  destruct (parse_line line) as [[[time_str tid] description]|] eqn:Hp.
  - rewrite (line_time_parse _ _ _ _ Hp).
    destruct (hour_minute time_str) as [[h mi]|] eqn:Hhm.
    + exact (get_timestamps_match today line rest time_str tid description h mi Hp Hhm).
    + cbn [get_timestamps]. rewrite Hp, Hhm. reflexivity.
  - rewrite (line_time_no_match _ Hp). exact (get_timestamps_skip today line rest Hp).
Qed.

Lemma matches_line_time (line : string) :
  matches_pattern line = true <-> is_Some (line_time line).
Proof.
  unfold matches_pattern.
  destruct (parse_line line) as [[[time_str tid] description]|] eqn:Hp.
  - split; [intros _|reflexivity].
    destruct (line_time_defined line time_str tid description Hp) as (h & mi & -> & _).
    eexists; reflexivity.
  - rewrite (line_time_no_match _ Hp). split; [discriminate|]. intros [x Hx]. discriminate.
Qed.

Lemma get_timestamps_ok (today : datetime) (lines : list string)
    (timestamps : list datetime) :
  get_timestamps today lines = Ok timestamps ->
  Forall (on_day today) timestamps
  /\ length timestamps = length (List.filter matches_pattern lines)
  /\ forall line h mi, line ∈ lines -> line_time line = Some (h, mi) -> h <= 23 /\ mi <= 59.
Proof.
  revert timestamps. induction lines as [|line rest IH]; intros timestamps H.
  - cbn in H. injection H as <-. split; [constructor|]. split; [reflexivity|].
    intros line h mi Hin. inversion Hin.
  - rewrite get_timestamps_cons in H. cbn [List.filter].
    destruct (line_time line) as [[h mi]|] eqn:Hlt.
    + assert (Hm : matches_pattern line = true).
      { apply matches_line_time. rewrite Hlt. eexists; reflexivity. }
      rewrite Hm.
      destruct (datetime_new (year today) (month today) (day today) h mi) as [t|e] eqn:Hnew;
        [|discriminate].
      destruct (get_timestamps today rest) as [ts|e] eqn:Hrest; [|discriminate].
      injection H as <-.
      destruct (IH ts eq_refl) as (Hall & Hlen & Hrange).
      destruct (datetime_new_fields _ _ _ _ _ _ Hnew) as (-> & Hh & Hmi).
      split; [|split].
      * constructor; [|exact Hall]. unfold on_day. cbn. lia.
      * cbn [length]. rewrite Hlen. reflexivity.
      * intros l h' mi' Hin Hl. apply elem_of_cons in Hin as [->|Hin].
        -- rewrite Hlt in Hl. injection Hl as <- <-. lia.
        -- exact (Hrange l h' mi' Hin Hl).
    + assert (Hm : matches_pattern line = false).
      { destruct (matches_pattern line) eqn:E; [|reflexivity].
        apply matches_line_time in E. rewrite Hlt in E. destruct E as [x Hx]. discriminate. }
      rewrite Hm. destruct (IH timestamps H) as (Hall & Hlen & Hrange).
      split; [exact Hall|]. split; [exact Hlen|].
      intros l h' mi' Hin Hl. apply elem_of_cons in Hin as [->|Hin].
      * rewrite Hlt in Hl. discriminate.
      * exact (Hrange l h' mi' Hin Hl).
Qed.

Lemma get_timestamps_raised (today : datetime) (lines : list string) (e : exn) :
  get_timestamps today lines = Raised e -> e = ValueError.
Proof.
  induction lines as [|line rest IH]; intros H; [discriminate|].
  rewrite get_timestamps_cons in H.
  destruct (line_time line) as [[h mi]|]; [|exact (IH H)].
  destruct (datetime_new (year today) (month today) (day today) h mi) as [t|e'] eqn:Hnew.
  - destruct (get_timestamps today rest) as [ts|e'']; [discriminate|].
    injection H as <-. apply IH. reflexivity.
  - injection H as <-. exact (datetime_new_raises _ _ _ _ _ _ Hnew).
Qed.

(** X2. On a date that exists, [get_timestamps] returns normally exactly
    when every line that matches the pattern reads an hour of at most 23
    and a minute of at most 59; the timestamps it returns are then one per
    matching line, all on the given date; and the only exception it ever
    raises is [ValueError]. *)
Theorem get_timestamps_ok_iff_in_range (today : datetime) (lines : list string) :
  valid_date today ->
  ((exists timestamps, get_timestamps today lines = Ok timestamps)
   <-> (forall line h mi, line ∈ lines -> line_time line = Some (h, mi) -> h <= 23 /\ mi <= 59))
  /\ (forall timestamps,
         get_timestamps today lines = Ok timestamps ->
         Forall (on_day today) timestamps
         /\ length timestamps = length (List.filter matches_pattern lines))
  /\ (forall e, get_timestamps today lines = Raised e -> e = ValueError).
Proof.
  intros Hvalid. split; [split|split].
  - intros [timestamps H]. apply (get_timestamps_ok today lines timestamps H).
  - intros Hrange. eexists. exact (get_timestamps_in_range today lines Hvalid Hrange).
  - intros timestamps H.
    destruct (get_timestamps_ok today lines timestamps H) as (Hall & Hlen & _). by split.
  - apply get_timestamps_raised.
Qed.

Lemma get_timestamps_ok_iff_in_range_witness :
  ((exists timestamps, get_timestamps test_day ["08:00 a"; "note"; "24:00 b"] = Ok timestamps)
   <-> (forall line h mi, line ∈ ["08:00 a"; "note"; "24:00 b"] ->
          line_time line = Some (h, mi) -> h <= 23 /\ mi <= 59))
  /\ (forall timestamps,
         get_timestamps test_day ["08:00 a"; "note"; "24:00 b"] = Ok timestamps ->
         Forall (on_day test_day) timestamps
         /\ length timestamps
            = length (List.filter matches_pattern ["08:00 a"; "note"; "24:00 b"]))
  /\ (forall e, get_timestamps test_day ["08:00 a"; "note"; "24:00 b"] = Raised e ->
        e = ValueError).
Proof.
  apply (get_timestamps_ok_iff_in_range test_day ["08:00 a"; "note"; "24:00 b"]).
  repeat split; vm_compute; discriminate.
Defined.

(** ** The deltas of one day *)

Lemma pairwise_elem_of {A : Type} (l : list A) (a b : A) :
  (a, b) ∈ pairwise l -> a ∈ l /\ b ∈ l.
Proof.
  unfold pairwise. intros H. apply list_elem_of_In in H.
  split; apply list_elem_of_In.
  - exact (in_combine_l _ _ _ _ H).
  - apply in_combine_r in H. destruct l; [inversion H|]. right. exact H.
Qed.

Lemma get_deltas_elem_of (timestamps : list datetime) (d : Z) :
  d ∈ get_deltas timestamps ->
  exists a b, a ∈ timestamps /\ b ∈ timestamps /\ d = datetime_sub b a.
Proof.
  rewrite get_deltas_map. intros H.
  apply list_elem_of_In, in_map_iff in H. destruct H as ([a b] & <- & Hin).
  apply list_elem_of_In, pairwise_elem_of in Hin. destruct Hin as [Ha Hb].
  exists a, b. by repeat split.
Qed.

Lemma datetime_sub_on_day (today a b : datetime) :
  on_day today a -> on_day today b ->
  datetime_sub b a = 60 * (minute_of_day b - minute_of_day a)
  /\ -1439 <= minute_of_day b - minute_of_day a <= 1439.
Proof.
  unfold on_day, datetime_sub, minute_of_day.
  intros (-> & -> & -> & Hh & Hm) (-> & -> & -> & Hh' & Hm'). lia.
Qed.

Lemma results_delta_elem_of (deltas : list Z) (i : nat) (lines : list string)
    (tr : TaskResult) :
  tr ∈ results_by_index deltas i lines ->
  delta_seconds tr ∈ deltas
  /\ exists line time_str, line ∈ lines
       /\ parse_line line = Some (time_str, task_id tr, desc tr).
Proof.
  revert i. induction lines as [|line rest IH]; intros i H; [inversion H|].
  cbn [results_by_index] in H.
  assert (Hrest : tr ∈ results_by_index deltas (S i) rest ->
            delta_seconds tr ∈ deltas
            /\ exists line0 time_str, line0 ∈ line :: rest
                 /\ parse_line line0 = Some (time_str, task_id tr, desc tr)).
  { intros Hin. destruct (IH _ Hin) as (Hd & l & ts & Hl & Hp).
    split; [exact Hd|]. exists l, ts. split; [by right|exact Hp]. }
  destruct (result_at deltas i line) as [r|] eqn:Hr; [|exact (Hrest H)].
  apply elem_of_cons in H as [->|H]; [|exact (Hrest H)].
  unfold result_at in Hr.
  destruct (parse_line line) as [[[time_str tid] description]|] eqn:Hp; [|discriminate].
  destruct (deltas !! i) as [d|] eqn:Hd; [|discriminate].
  injection Hr as <-. cbn. split.
  - exact (list_elem_of_lookup_2 _ _ _ Hd).
  - exists line, time_str. split; [by left|exact Hp].
Qed.

Lemma day_deltas (today : datetime) (lines : list string) (timestamps : list datetime) :
  get_timestamps today lines = Ok timestamps ->
  Forall minutes_within_a_day (get_deltas timestamps).
Proof.
  intros H. destruct (get_timestamps_ok today lines timestamps H) as (Hall & _ & _).
  rewrite Forall_forall in Hall. apply Forall_forall. intros d Hd.
  destruct (get_deltas_elem_of timestamps d Hd) as (a & b & Ha & Hb & ->).
  destruct (datetime_sub_on_day today a b (Hall a Ha) (Hall b Hb)) as [Heq Hr].
  exists (minute_of_day b - minute_of_day a). by split.
Qed.

(** X3. In a run, every delta is a whole number of minutes and shorter than
    a day in either direction (negative when a line's time is earlier than
    the time of the line before it); every result carries one of these
    deltas, so [int(delta_seconds / 60)] loses no seconds. *)
Theorem day_deltas_whole_minutes (today : datetime) (lines : list string)
    (timestamps : list datetime) :
  get_timestamps today lines = Ok timestamps ->
  Forall minutes_within_a_day (get_deltas timestamps)
  /\ Forall (fun tr => minutes_within_a_day (delta_seconds tr)
                       /\ 60 * whole_minutes (delta_seconds tr) = delta_seconds tr)
       (get_tasks_results (get_deltas timestamps) lines).
Proof.
  intros H. pose proof (day_deltas today lines timestamps H) as Hd.
  split; [exact Hd|].
  apply Forall_forall. intros tr Htr.
  unfold get_tasks_results in Htr. rewrite tasks_results_by_index in Htr.
  destruct (results_delta_elem_of _ _ _ _ Htr) as [Hin _].
  rewrite Forall_forall in Hd. pose proof (Hd _ Hin) as Hk.
  split; [exact Hk|]. destruct Hk as (k & -> & _).
  rewrite whole_minutes_quot. rewrite (Z.mul_comm 60 k), Z.quot_mul by lia. lia.
Qed.

Lemma day_deltas_whole_minutes_witness :
  Forall minutes_within_a_day
    (get_deltas [at_time test_day (9, 0); at_time test_day (8, 0); at_time test_day (9, 30)])
  /\ Forall (fun tr => minutes_within_a_day (delta_seconds tr)
                       /\ 60 * whole_minutes (delta_seconds tr) = delta_seconds tr)
       (get_tasks_results
          (get_deltas [at_time test_day (9, 0); at_time test_day (8, 0); at_time test_day (9, 30)])
          ["09:00 a"; "08:00 b"; "09:30 c"]).
Proof.
  apply (day_deltas_whole_minutes test_day ["09:00 a"; "08:00 b"; "09:30 c"]).
  vm_compute. reflexivity.
Defined.

(** ** How many results there are *)

Lemma results_by_index_length (deltas : list Z) (i : nat) (lines : list string) :
  (length (results_by_index deltas i lines) <= length deltas - i)%nat
  /\ (length (results_by_index deltas i lines) <= length (List.filter matches_pattern lines))%nat.
Proof.
  revert i. induction lines as [|line rest IH]; intros i; [cbn; lia|].
  cbn [results_by_index List.filter]. destruct (IH (S i)) as [IH1 IH2].
  assert (Hm : matches_pattern line
               = match parse_line line with Some _ => true | None => false end)
    by reflexivity.
  rewrite Hm. unfold result_at.
  destruct (parse_line line) as [[[time_str tid] description]|].
  - destruct (deltas !! i) as [d|] eqn:Hd.
    + apply lookup_lt_Some in Hd. cbn [length]. lia.
    + cbn [length]. lia.
  - lia.
Qed.

(** X4. [get_tasks_results] returns at most one result per delta and at
    most one per line that matches the pattern, and none when there are no
    deltas; each result takes its task id and description from one of the
    lines and its seconds from one of the deltas. *)
Theorem tasks_results_bounds (deltas : list Z) (lines : list string) :
  (length (get_tasks_results deltas lines) <= length deltas)%nat
  /\ (length (get_tasks_results deltas lines) <= length (List.filter matches_pattern lines))%nat
  /\ get_tasks_results [] lines = []
  /\ (forall tr, tr ∈ get_tasks_results deltas lines ->
        delta_seconds tr ∈ deltas
        /\ exists line time_str, line ∈ lines
             /\ parse_line line = Some (time_str, task_id tr, desc tr)).
Proof.
  unfold get_tasks_results. rewrite !tasks_results_by_index.
  destruct (results_by_index_length deltas 0 lines) as [H1 H2].
  split; [lia|]. split; [exact H2|]. split.
  - apply results_by_index_past. reflexivity.
  - intros tr Htr. exact (results_delta_elem_of deltas 0 lines tr Htr).
Qed.

(** X5. In a run there are fewer results than lines that match the pattern:
    the last matching line starts a period that has no end, and gets no
    result. *)
Theorem last_line_has_no_result (today : datetime) (lines : list string)
    (timestamps : list datetime) :
  get_timestamps today lines = Ok timestamps ->
  (length (get_tasks_results (get_deltas timestamps) lines)
   <= Nat.pred (length (List.filter matches_pattern lines)))%nat.
Proof.
  intros H. destruct (get_timestamps_ok today lines timestamps H) as (_ & Hlen & _).
  rewrite <- Hlen, <- get_deltas_length.
  unfold get_tasks_results. rewrite tasks_results_by_index.
  destruct (results_by_index_length (get_deltas timestamps) 0 lines) as [H1 _]. lia.
Qed.

Lemma last_line_has_no_result_witness :
  (length (get_tasks_results
             (get_deltas [at_time test_day (8, 0)%Z; at_time test_day (9, 0)%Z;
                          at_time test_day (9, 30)%Z])
             log_with_heading)
   <= Nat.pred (length (List.filter matches_pattern log_with_heading)))%nat.
Proof.
  apply (last_line_has_no_result test_day log_with_heading).
  vm_compute. reflexivity.
Defined.

(** ** The fields of a parsed line *)

Lemma str_all_app (p : ascii -> bool) (s t : string) :
  str_all p (s +:+ t) = str_all p s && str_all p t.
Proof.
  induction s as [|c s IH]; [reflexivity|].
  rewrite str_app_cons. cbn [str_all]. rewrite IH, andb_assoc. reflexivity.
Qed.

Lemma digit_value_range (c : ascii) : Py.isdecimal c = true -> 0 <= Py.digit_value c <= 9.
Proof.
  unfold Py.isdecimal, Py.digit_value. intros H.
  apply andb_true_iff in H as [H1 H2]. apply Z.leb_le in H1. apply Z.leb_le in H2. lia.
Qed.

Lemma int_digits_bound (s : string) (acc : Z) :
  digits s -> 0 <= acc ->
  exists v, Py.int_digits acc false s = Some v
            /\ acc * 10 ^ Z.of_nat (String.length s) <= v
               < (acc + 1) * 10 ^ Z.of_nat (String.length s).
Proof.
  unfold digits. revert acc. induction s as [|c s IH]; intros acc Hs Hacc.
  - exists acc. split; [reflexivity|]. cbn [String.length]. change (10 ^ Z.of_nat 0) with 1. lia.
  - cbn [str_all] in Hs. apply andb_true_iff in Hs as [Hc Hs]. cbn [Py.int_digits].
    rewrite Hc. pose proof (digit_value_range c Hc) as Hdv.
    destruct (IH (10 * acc + Py.digit_value c) Hs) as (v & Hv & Hlo & Hhi); [lia|].
    exists v. split; [exact Hv|].
    cbn [String.length]. rewrite Nat2Z.inj_succ, Z.pow_succ_r by lia.
    assert (Hp : 0 < 10 ^ Z.of_nat (String.length s)) by (apply Z.pow_pos_nonneg; lia).
    nia.
Qed.

Lemma int_of_digits_bound (s : string) :
  digits s -> s <> "" ->
  exists v, Py.int_of_str s = Some v /\ 0 <= v < 10 ^ Z.of_nat (String.length s).
Proof.
  intros Hs Hne. unfold Py.int_of_str, Py.strip.
  assert (Hl : Py.lstrip s = s).
  { pose proof (lstrip_digits s "" Hs Hne) as H. rewrite str_app_empty in H. exact H. }
  rewrite Hl, (rstrip_digits s Hs).
  destruct s as [|c s]; [congruence|].
  unfold digits in Hs. cbn [str_all] in Hs. apply andb_true_iff in Hs as [Hc Hs].
  assert (Hplus : Ascii.eqb c "+" = false) by (apply Ascii.eqb_neq; intros ->; discriminate).
  assert (Hminus : Ascii.eqb c "-" = false) by (apply Ascii.eqb_neq; intros ->; discriminate).
  rewrite Hplus, Hminus. unfold Py.int_unsigned. rewrite Hc.
  pose proof (digit_value_range c Hc) as Hdv.
  destruct (int_digits_bound s (Py.digit_value c) Hs) as (v & Hv & Hlo & Hhi); [lia|].
  exists v. split; [exact Hv|].
  cbn [String.length]. rewrite Nat2Z.inj_succ, Z.pow_succ_r by lia.
  assert (Hp : 0 < 10 ^ Z.of_nat (String.length s)) by (apply Z.pow_pos_nonneg; lia).
  nia.
Qed.

Lemma pow10_le_100 (n : nat) : (n <= 2)%nat -> 10 ^ Z.of_nat n <= 100.
Proof.
  intros H. destruct n as [|[|[|n]]]; [vm_compute; discriminate ..|lia].
Qed.

(** X6. Whatever [parse_line] returns is well formed: the time is one or
    two digits, a colon and two digits, with no whitespace around it; a
    task id is exactly five digits; the description has no newline and no
    leading whitespace; and the hour and the minute read from the time are
    numbers from 0 to 99, so the conversion in [get_timestamps] cannot
    fail. *)
Theorem parse_line_well_formed (line time_str : string) (tid : option string)
    (description : string) :
  parse_line line = Some (time_str, tid, description) ->
  parsed_fields time_str tid description
  /\ Py.strip time_str = time_str
  /\ exists h mi, hour_minute time_str = Some (h, mi) /\ 0 <= h <= 99 /\ 0 <= mi <= 99.
Proof.
  intros Hp. pose proof (parse_line_fields line time_str tid description Hp) as Hf.
  split; [exact Hf|].
  destruct Hf as ((hh & mm & -> & Hhh & Hlen & Hmm & Hlmm) & _).
  split.
  - pose proof (strip_time "" hh mm eq_refl Hhh) as Hs. rewrite str_app_nil in Hs.
    apply Hs; [lia|exact Hmm|exact Hlmm].
  - unfold hour_minute. rewrite split_time by assumption. cbn [List.map].
    destruct (int_of_digits_bound hh Hhh) as (h & -> & Hh); [intros ->; cbn in Hlen; lia|].
    destruct (int_of_digits_bound mm Hmm) as (mi & -> & Hmi); [intros ->; discriminate|].
    exists h, mi. split; [reflexivity|].
    pose proof (pow10_le_100 (String.length hh)) as H1.
    pose proof (pow10_le_100 (String.length mm)) as H2.
    lia.
Qed.

Lemma parse_line_well_formed_witness :
  parsed_fields "8:05" (Some "12345") "6 x "
  /\ Py.strip "8:05" = "8:05"
  /\ exists h mi, hour_minute "8:05" = Some (h, mi) /\ 0 <= h <= 99 /\ 0 <= mi <= 99.
Proof.
  apply (parse_line_well_formed "  8:05   123456 x "). reflexivity.
Defined.

(** X7. Whitespace before the time does not matter: a line parses to the
    same fields with any whitespace put in front of it, and fails to parse
    with it when it fails without. *)
Theorem parse_line_leading_whitespace (ws line : string) :
  str_all Py.isspace ws = true ->
  parse_line (ws +:+ line) = parse_line line.
Proof.
  intros Hws. unfold parse_line. rewrite !LINE_PATTERN_scan. unfold scan_line.
  rewrite (drop_while_app Py.isspace ws line Hws).
  rewrite (take_while_app Py.isspace ws line Hws).
  destruct (scan_time (Py.drop_while Py.isspace line)) as [[[hh mm] rest]|] eqn:Ht;
    [|reflexivity].
  destruct (scan_after_time rest) as [[tid d]|]; [|reflexivity].
  apply scan_time_shape in Ht as (_ & Hhh & Hlen & Hmm & Hlmm).
  rewrite !strip_time;
    try assumption; try lia; try apply take_while_all; [reflexivity|].
  rewrite str_all_app, Hws. apply take_while_all.
Qed.

Lemma parse_line_leading_whitespace_witness :
  parse_line ("   " +:+ "08:00 12345 Task A") = parse_line "08:00 12345 Task A".
Proof.
  apply (parse_line_leading_whitespace "   " "08:00 12345 Task A"). reflexivity.
Defined.

(** ** The lines read from the file *)

Lemma rstrip_of_sub (p q : ascii -> bool) (s : string) :
  (forall c, p c = true -> q c = true) ->
  Py.rstrip_of q (Py.rstrip_of p s) = Py.rstrip_of q s.
Proof.
  intros Hpq. induction s as [|c s IH]; [reflexivity|].
  cbn [Py.rstrip_of]. destruct (Py.rstrip_of p s) as [|a r] eqn:Hr.
  - cbn [Py.rstrip_of] in IH. rewrite <- IH.
    destruct (p c) eqn:Hc.
    + rewrite (Hpq c Hc). reflexivity.
    + cbn [Py.rstrip_of]. reflexivity.
  - rewrite <- IH. reflexivity.
Qed.

Lemma lstrip_rstrip_of (p : ascii -> bool) (s : string) :
  (forall c, p c = true -> Py.isspace c = true) ->
  Py.lstrip (Py.rstrip_of p s) = Py.rstrip_of p (Py.lstrip s).
Proof.
  intros Hp. unfold Py.lstrip. induction s as [|c s IH]; [reflexivity|].
  cbn [Py.rstrip_of Py.drop_while]. destruct (Py.isspace c) eqn:Hc.
  - rewrite <- IH. destruct (Py.rstrip_of p s) as [|a r].
    + destruct (p c); cbn [Py.drop_while]; rewrite ?Hc; reflexivity.
    + cbn [Py.drop_while]. rewrite Hc. reflexivity.
  - assert (Hpc : p c = false).
    { destruct (p c) eqn:E; [|reflexivity]. rewrite (Hp c E) in Hc. discriminate. }
    cbn [Py.rstrip_of]. rewrite Hpc.
    destruct (Py.rstrip_of p s); cbn [Py.drop_while]; rewrite Hc; reflexivity.
Qed.

Lemma newline_isspace (c : ascii) : Py.is_newline c = true -> Py.isspace c = true.
Proof.
  unfold Py.is_newline, Py.isspace. intros H. apply Z.eqb_eq in H. rewrite H. reflexivity.
Qed.

(** Taking the newline off a line does not change what [strip] makes of it. *)
Lemma strip_rstrip_newline (s : string) :
  Py.strip (Py.rstrip_of Py.is_newline s) = Py.strip s.
Proof.
  unfold Py.strip, Py.rstrip.
  rewrite (lstrip_rstrip_of Py.is_newline s newline_isspace).
  apply rstrip_of_sub, newline_isspace.
Qed.

Lemma file_lines_no_newline (s : string) :
  Forall (fun l => str_all not_newline (Py.rstrip_of Py.is_newline l) = true) (file_lines s).
Proof.
  induction s as [|c s IH]; [constructor|].
  cbn [file_lines]. destruct (Py.is_newline c) eqn:Hc.
  - constructor; [|exact IH]. cbn [Py.rstrip_of]. rewrite Hc. reflexivity.
  - destruct (file_lines s) as [|h t].
    + constructor; [|constructor]. cbn [Py.rstrip_of]. rewrite Hc.
      cbn [str_all]. unfold not_newline. rewrite Hc. reflexivity.
    + inversion IH as [|? ? Hh Ht]; subst. constructor; [|exact Ht].
      cbn [Py.rstrip_of]. destruct (Py.rstrip_of Py.is_newline h) as [|a r].
      * rewrite Hc. cbn [str_all]. unfold not_newline. rewrite Hc. reflexivity.
      * cbn [str_all] in Hh |- *. unfold not_newline at 1. rewrite Hc. exact Hh.
Qed.

Lemma nonblank_lines_clean (content : string) :
  Forall (fun l => str_all not_newline l = true /\ Py.strip l <> "") (nonblank_lines content).
Proof.
  unfold nonblank_lines. apply Forall_forall. intros l Hl.
  apply list_elem_of_In, in_map_iff in Hl. destruct Hl as (raw & <- & Hraw).
  apply filter_In in Hraw. destruct Hraw as [Hin Hnb].
  split.
  - pose proof (file_lines_no_newline (universal_newlines content)) as H.
    rewrite Forall_forall in H. apply H, list_elem_of_In, Hin.
  - rewrite strip_rstrip_newline. intros E. rewrite E in Hnb. discriminate.
Qed.

(** X8. [get_lines] on a file that exists changes nothing and returns
    lines that contain no newline and are not blank (each has a character
    that is not whitespace); on a missing file it raises
    [FileNotFoundError] after logging one error, and changes nothing
    else. *)
Theorem get_lines_clean_or_missing (path : string) (w : world) :
  match files w !! path with
  | Some content =>
      exists lines,
        get_lines path w = (Ok lines, w)
        /\ Forall (fun l => str_all not_newline l = true /\ Py.strip l <> "") lines
  | None =>
      get_lines path w
      = (Raised FileNotFoundError, only_logged (LogError ("Log file not found: " +:+ path)) w)
  end.
Proof.
  unfold get_lines. destruct (files w !! path) as [content|].
  - exists (nonblank_lines content). split; [reflexivity|apply nonblank_lines_clean].
  - reflexivity.
Qed.

(** ** A file that ends with the marker *)

Lemma universal_newlines_cons (c : ascii) (s : string) :
  universal_newlines (String c s)
  = if Py.ord c =? 13 then
      match s with
      | String c' s'' =>
          if Py.is_newline c' then String c' (universal_newlines s'')
          else String "010" (universal_newlines s)
      | EmptyString => String "010" EmptyString
      end
    else String c (universal_newlines s).
Proof. reflexivity. Qed.

Lemma universal_newlines_marker (pre : string) :
  exists x, universal_newlines (pre +:+ "
already parsed") = x +:+ "
already parsed".
Proof.
  enough (H : (exists x, universal_newlines (pre +:+ "
already parsed") = x +:+ "
already parsed")
              /\ forall c, exists x, universal_newlines (String c pre +:+ "
already parsed") = x +:+ "
already parsed") by apply H.
  induction pre as [|a pre [IH1 IH2]].
  - split; [exists ""; reflexivity|].
    intros c. rewrite str_app_cons, str_app_nil.
    rewrite (universal_newlines_cons c (String "010" "already parsed")).
    destruct (Py.ord c =? 13).
    + exists "". reflexivity.
    + exists (String c ""). reflexivity.
  - split; [apply IH2|].
    intros c. rewrite !str_app_cons.
    rewrite (universal_newlines_cons c (String a (pre +:+ String "010" "already parsed"))).
    destruct (Py.ord c =? 13).
    + destruct (Py.is_newline a).
      * destruct IH1 as [x Hx]. exists (String a x). rewrite Hx. reflexivity.
      * destruct (IH2 a) as [x Hx]. exists (String "010" x).
        rewrite str_app_cons in Hx. rewrite Hx. reflexivity.
    + destruct (IH2 a) as [x Hx]. exists (String c x).
      rewrite str_app_cons in Hx. rewrite Hx. reflexivity.
Qed.

Lemma file_lines_newline_nonempty (a : string) : file_lines (a +:+ "
") <> [].
Proof.
  destruct a as [|c a]; [discriminate|].
  rewrite str_app_cons. cbn [file_lines].
  destruct (Py.is_newline c); [discriminate|]. destruct (file_lines _); discriminate.
Qed.

Lemma file_lines_app_newline (a b : string) :
  file_lines (a +:+ String "010" b) = file_lines (a +:+ "
") ++ file_lines b.
Proof.
  induction a as [|c a IH]; [reflexivity|].
  rewrite !str_app_cons. cbn [file_lines]. rewrite IH.
  destruct (Py.is_newline c); [reflexivity|].
  pose proof (file_lines_newline_nonempty a) as Hne.
  destruct (file_lines (a +:+ "
")) as [|h t]; [congruence|]. reflexivity.
Qed.

Lemma nonblank_lines_marker (pre : string) :
  last (nonblank_lines (pre +:+ "
already parsed")) = Some "already parsed".
Proof.
  unfold nonblank_lines. destruct (universal_newlines_marker pre) as [x ->].
  change ("
already parsed") with (String "010" "already parsed").
  rewrite file_lines_app_newline.
  rewrite List.filter_app, List.map_app.
  change (List.map (Py.rstrip_of Py.is_newline)
            (List.filter (fun line => negb (String.eqb (Py.strip line) ""))
               (file_lines "already parsed")))
    with ["already parsed"].
  apply last_snoc.
Qed.

Lemma summary_text_marker (float_repr : Py.float -> string) (grouped_tasks : Grouped)
    (total_delta_work total_delta_free : Z) :
  exists body,
    summary_text float_repr grouped_tasks total_delta_work total_delta_free
    = body +:+ "
already parsed".
Proof.
  destruct (summary_text_end float_repr grouped_tasks total_delta_work total_delta_free)
    as [before ->].
  destruct (closing_remark_line grouped_tasks total_delta_work) as [remark ->].
  exists (before +:+ saldo_line grouped_tasks total_delta_work +:+ remark).
  rewrite !str_app_assoc. reflexivity.
Qed.

Lemma appended_summary_is_marked (float_repr : Py.float -> string) (old : string)
    (grouped_tasks : Grouped) (total_delta_work total_delta_free : Z) :
  is_already_parsed
    (nonblank_lines
       (old +:+ summary_text float_repr grouped_tasks total_delta_work total_delta_free))
  = true.
Proof.
  destruct (summary_text_marker float_repr grouped_tasks total_delta_work total_delta_free)
    as [body ->].
  rewrite <- str_app_assoc. unfold is_already_parsed.
  rewrite nonblank_lines_marker. reflexivity.
Qed.

(** X9. What [append_result] writes is read back as an already processed
    file: after the call, [get_lines] succeeds on the path and
    [is_already_parsed] is true of the lines, whatever the file held before
    (also when it did not exist) and whatever is summarised. *)
Theorem append_result_marks_file (float_repr : Py.float -> string) (path : string)
    (grouped_tasks : Grouped) (total_delta_work total_delta_free : Z) (w : world) :
  let w' :=
    snd (append_result float_repr path grouped_tasks total_delta_work total_delta_free w) in
  exists lines, get_lines path w' = (Ok lines, w') /\ is_already_parsed lines = true.
Proof.
  cbn zeta. unfold append_result, append_file. cbn [snd].
  unfold get_lines. cbn [files]. rewrite lookup_insert_eq.
  eexists. split; [reflexivity|]. apply appended_summary_is_marked.
Qed.

(** ** Submission *)

Lemma world_eta (w : world) :
  {| files := files w; sent := sent w; logged := logged w |} = w.
Proof. destruct w; reflexivity. Qed.

Lemma for_each_log {A : Type} (f : A -> log_event) (l : list A) (w : world) :
  for_each (fun x => log_record (f x)) l w
  = (Ok tt, {| files := files w; sent := sent w; logged := logged w ++ List.map f l |}).
Proof.
  revert w. induction l as [|x l IH]; intros w.
  - cbn. rewrite app_nil_r, world_eta. reflexivity.
  - cbn [for_each]. unfold bind at 1. unfold log_record at 1. rewrite IH.
    cbn [files sent logged List.map]. rewrite <- app_assoc. reflexivity.
Qed.

Lemma send_time_entries_run (grouped_tasks : Grouped) (date : datetime) (w : world) :
  send_time_entries grouped_tasks date w
  = (Ok tt, {| files := files w;
               sent := sent w ++ omap (time_entry_of date) (Dict.values grouped_tasks);
               logged := logged w |}).
Proof.
  unfold send_time_entries. generalize (Dict.values grouped_tasks) as l.
  intros l. revert w. induction l as [|e l IH]; intros w.
  - cbn. rewrite app_nil_r, world_eta. reflexivity.
  - cbn [for_each omap list_omap]. unfold bind at 1. unfold time_entry_of at 1.
    destruct (truthy (entry_task_id e) && negb (Qle_bool (rounded_hours e) 0)).
    + unfold create_time_entry at 1. rewrite IH. cbn [files sent logged].
      rewrite <- app_assoc. reflexivity.
    + unfold ret at 1. rewrite IH. reflexivity.
Qed.

Lemma omap_length_le {A B : Type} (f : A -> option B) (l : list A) :
  (length (omap f l) <= length l)%nat.
Proof.
  induction l as [|x l IH]; [reflexivity|].
  cbn [omap list_omap length]. destruct (f x); cbn [length]; lia.
Qed.

Lemma time_entry_of_Some (date : datetime) (e : entry) (te : time_entry) :
  time_entry_of date e = Some te <->
  exists tid, entry_task_id e = Some tid /\ tid <> "" /\ (0 < rounded_hours e)%Q
              /\ te = {| issue_id := tid; spent_on := strftime_ymd date;
                         hours := rounded_hours e; comments := joined_desc e |}.
Proof.
  unfold time_entry_of. split.
  - destruct (truthy (entry_task_id e) && negb (Qle_bool (rounded_hours e) 0)) eqn:E;
      [|discriminate].
    intros [= <-]. apply andb_true_iff in E as [Ht Hq].
    destruct (entry_task_id e) as [[|c t]|]; try discriminate.
    exists (String c t). split; [reflexivity|]. split; [discriminate|]. split; [|reflexivity].
    apply negb_true_iff in Hq. apply Qnot_le_lt. intros Hle.
    apply Qle_bool_iff in Hle. congruence.
  - intros (tid & Htid & Hne & Hpos & ->). rewrite Htid.
    destruct tid as [|c t]; [congruence|]. cbn [truthy andb default id].
    assert (Hq : Qle_bool (rounded_hours e) 0 = false).
    { destruct (Qle_bool (rounded_hours e) 0) eqn:E; [|reflexivity].
      apply Qle_bool_iff in E. exfalso. exact (Qlt_not_le _ _ Hpos E). }
    rewrite Hq. reflexivity.
Qed.

(** ** The runs of [main] *)

Lemma main_missing_file (float_repr : Py.float -> string) (today : datetime)
    (path answer : string) (w : world) :
  files w !! path = None ->
  main float_repr today path answer w
  = (Raised FileNotFoundError, only_logged (LogError ("Log file not found: " +:+ path)) w).
Proof.
  intros H. unfold main, bind at 1, get_lines. rewrite H. reflexivity.
Qed.

Lemma main_summary (float_repr : Py.float -> string) (today : datetime)
    (path answer content : string) (timestamps : list datetime) (w : world) :
  files w !! path = Some content ->
  is_already_parsed (nonblank_lines content) = false ->
  get_timestamps today (nonblank_lines content) = Ok timestamps ->
  main float_repr today path answer w
  = (Ok tt, after_summary float_repr today path answer content timestamps w).
Proof.
  intros Hfile Hparsed Hts. unfold main, after_summary.
  unfold bind at 1. unfold get_lines. rewrite Hfile.
  unfold bind at 1. unfold is_already_parsed_logged. rewrite Hparsed. unfold ret at 1.
  unfold bind at 1. unfold lift. rewrite Hts.
  unfold bind at 1. unfold get_tasks_results_logged.
  unfold bind at 1. rewrite for_each_log. unfold ret at 1.
  unfold bind at 1. unfold append_result, append_file. cbn [files sent logged].
  rewrite Hfile. cbn [default id].
  unfold bind at 1. unfold log_record at 1. cbn [files sent logged].
  destruct (declined answer).
  - unfold log_record. cbn [files sent logged].
    rewrite app_nil_r, <- !app_assoc. reflexivity.
  - rewrite send_time_entries_run. cbn [files sent logged].
    rewrite app_nil_r, <- !app_assoc. reflexivity.
Qed.

(** The four ways a run of [main] can go. *)
Lemma main_cases (float_repr : Py.float -> string) (today : datetime)
    (path answer : string) (w : world) :
  (files w !! path = None
   /\ main float_repr today path answer w
      = (Raised FileNotFoundError,
         only_logged (LogError ("Log file not found: " +:+ path)) w))
  \/ (exists content,
        files w !! path = Some content
        /\ is_already_parsed (nonblank_lines content) = true
        /\ main float_repr today path answer w
           = (Ok tt, only_logged (LogInfo "File already parsed") w))
  \/ (exists content e,
        files w !! path = Some content
        /\ is_already_parsed (nonblank_lines content) = false
        /\ main float_repr today path answer w = (Raised e, w))
  \/ (exists content timestamps,
        files w !! path = Some content
        /\ is_already_parsed (nonblank_lines content) = false
        /\ main float_repr today path answer w
           = (Ok tt, after_summary float_repr today path answer content timestamps w)).
Proof.
  destruct (files w !! path) as [content|] eqn:Hfile.
  - right. destruct (is_already_parsed (nonblank_lines content)) eqn:Hparsed.
    + left. exists content. split; [reflexivity|]. split; [exact Hparsed|].
      exact (main_already_parsed float_repr today path answer content w Hfile Hparsed).
    + right. destruct (get_timestamps today (nonblank_lines content)) as [ts|e] eqn:Hts.
      * right. exists content, ts. split; [reflexivity|]. split; [exact Hparsed|].
        exact (main_summary float_repr today path answer content ts w Hfile Hparsed Hts).
      * left. exists content, e. split; [reflexivity|]. split; [exact Hparsed|].
        exact (main_raises float_repr today path answer content w e Hfile Hparsed Hts).
  - left. split; [reflexivity|]. exact (main_missing_file float_repr today path answer w Hfile).
Qed.

(** X11. A run of [main] that returns normally leaves the log file marked
    as processed, also when the user declined the submission; any later
    run on the same path, whatever the date and the answer, only logs
    "File already parsed": it writes nothing and sends nothing. *)
Theorem main_runs_once (float_repr : Py.float -> string) (today : datetime)
    (path answer : string) (w w1 : world) :
  main float_repr today path answer w = (Ok tt, w1) ->
  (exists content,
      files w1 !! path = Some content /\ is_already_parsed (nonblank_lines content) = true)
  /\ forall (today' : datetime) (answer' : string),
       main float_repr today' path answer' w1
       = (Ok tt, only_logged (LogInfo "File already parsed") w1).
Proof.
  intros Hrun.
  assert (Hmarked : exists content,
             files w1 !! path = Some content
             /\ is_already_parsed (nonblank_lines content) = true).
  { destruct (main_cases float_repr today path answer w)
      as [[_ H]|[(content & Hfile & Hparsed & H)|[(content & e & _ & _ & H)
         |(content & ts & Hfile & _ & H)]]];
      rewrite H in Hrun; try discriminate; injection Hrun as <-.
    - exists content. split; [exact Hfile|exact Hparsed].
    - eexists. split.
      + unfold after_summary. cbn [files]. apply lookup_insert_eq.
      + apply appended_summary_is_marked. }
  split; [exact Hmarked|].
  destruct Hmarked as (content & Hfile & Hparsed). intros today' answer'.
  exact (main_already_parsed float_repr today' path answer' content w1 Hfile Hparsed).
Qed.

Lemma main_runs_once_witness :
  let w1 := snd (main quarter_repr test_day "log.md" "n" sample_world) in
  main quarter_repr test_day "log.md" "y" w1
  = (Ok tt, only_logged (LogInfo "File already parsed") w1).
Proof.
  cbn zeta.
  apply (main_runs_once quarter_repr test_day "log.md" "n" sample_world).
  vm_compute. reflexivity.
Defined.

(** ** The order and the minutes of the buckets *)

Lemma filter_filter_andb {A : Type} (f g : A -> bool) (l : list A) :
  List.filter f (List.filter g l) = List.filter (fun x => g x && f x) l.
Proof.
  induction l as [|x l IH]; [reflexivity|].
  cbn [List.filter]. destruct (g x); cbn [List.filter andb]; rewrite IH; reflexivity.
Qed.

Lemma group_step_contains (grouped : @Dict.t bucket) (tr : TaskResult) (key : string) :
  Dict.contains key (group_step grouped tr)
  = String.eqb (bucket_key tr) key || Dict.contains key grouped.
Proof.
  unfold Dict.contains. rewrite group_step_get.
  destruct (String.eqb (bucket_key tr) key); reflexivity.
Qed.

Lemma group_fold_order (tasks_results : list TaskResult) (grouped : @Dict.t bucket) :
  Dict.keys (foldl group_step grouped tasks_results)
  = Dict.keys grouped
    ++ List.filter (fun key => negb (Dict.contains key grouped))
         (first_occurrences (List.map bucket_key tasks_results)).
Proof.
  revert grouped. induction tasks_results as [|tr rest IH]; intros grouped.
  - cbn. rewrite app_nil_r. reflexivity.
  - cbn [foldl List.map first_occurrences]. rewrite IH.
    assert (Hf : List.filter (fun key => negb (Dict.contains key (group_step grouped tr)))
                   (first_occurrences (List.map bucket_key rest))
                 = List.filter (fun key => negb (Dict.contains key grouped))
                     (List.filter (fun key' => negb (String.eqb (bucket_key tr) key'))
                        (first_occurrences (List.map bucket_key rest)))).
    { rewrite filter_filter_andb. apply List.filter_ext. intros key.
      rewrite group_step_contains, negb_orb. reflexivity. }
    rewrite Hf, group_step_keys. cbn [List.filter].
    destruct (Dict.contains (bucket_key tr) grouped); cbn [negb].
    + reflexivity.
    + rewrite <- app_assoc. reflexivity.
Qed.

Lemma filter_true {A : Type} (l : list A) : List.filter (fun _ => true) l = l.
Proof. induction l as [|x l IH]; [reflexivity|]. cbn. rewrite IH. reflexivity. Qed.

(** X14. The buckets of [group_tasks] are in the order in which their keys
    first occur among the results, one bucket per distinct key;
    [apply_defaults] keeps that order, which is the order of the lines of
    the summary. *)
Theorem group_tasks_first_seen_order (tasks_results : list TaskResult)
    (defaults_map : gmap string string) :
  Dict.keys (group_tasks tasks_results)
  = first_occurrences (List.map group_key tasks_results)
  /\ Dict.keys (apply_defaults (group_tasks tasks_results) defaults_map)
     = first_occurrences (List.map group_key tasks_results).
Proof.
  assert (H : Dict.keys (group_tasks tasks_results)
              = first_occurrences (List.map group_key tasks_results)).
  { unfold group_tasks. rewrite dict_keys_map_values, group_fold_order.
    cbn [Dict.keys fmap list_fmap app]. change (Dict.contains ?k []) with false.
    cbn [negb]. rewrite filter_true. f_equal. apply List.map_ext. intros tr.
    symmetry. apply group_key_bucket_key. }
  split; [exact H|]. rewrite apply_defaults_keys. exact H.
Qed.

Lemma sum_app (xs ys : list Z) : Py.sum (xs ++ ys) = Py.sum xs + Py.sum ys.
Proof.
  induction xs as [|x xs IH]; [reflexivity|].
  cbn [app]. rewrite !sum_cons, IH. lia.
Qed.

Lemma alter_add_result_sum (tr : TaskResult) (key : string) (d : @Dict.t bucket) :
  Dict.contains key d = true ->
  Py.sum (List.map bucket_delta (Dict.values (Dict.alter (add_result tr) key d)))
  = Py.sum (List.map bucket_delta (Dict.values d)) + Z.quot (delta_seconds tr) 60.
Proof.
  unfold Dict.contains, Dict.values. induction d as [|[k b] d IH]; [discriminate|].
  cbn [Dict.get Dict.alter]. destruct (String.eqb k key).
  - intros _. cbn [fmap list_fmap List.map snd add_result bucket_delta].
    rewrite !sum_cons. lia.
  - intros H. cbn [fmap list_fmap List.map snd]. rewrite !sum_cons.
    cbn [fmap list_fmap] in IH. rewrite (IH H). lia.
Qed.

Lemma group_step_sum (grouped : @Dict.t bucket) (tr : TaskResult) :
  Py.sum (List.map bucket_delta (Dict.values (group_step grouped tr)))
  = Py.sum (List.map bucket_delta (Dict.values grouped)) + Z.quot (delta_seconds tr) 60.
Proof.
  rewrite group_step_unfold. rewrite alter_add_result_sum.
  - unfold Dict.setdefault. destruct (Dict.contains (bucket_key tr) grouped); [reflexivity|].
    unfold Dict.values. rewrite fmap_app, List.map_app, sum_app.
    cbn [fmap list_fmap List.map snd fresh_bucket bucket_delta]. rewrite sum_cons.
    change (Py.sum []) with 0. lia.
  - unfold Dict.contains. rewrite dict_get_setdefault.
    destruct (Dict.get (bucket_key tr) grouped); [reflexivity|].
    rewrite String.eqb_refl. reflexivity.
Qed.

Lemma group_fold_sum (tasks_results : list TaskResult) (grouped : @Dict.t bucket) :
  Py.sum (List.map bucket_delta (Dict.values (foldl group_step grouped tasks_results)))
  = Py.sum (List.map bucket_delta (Dict.values grouped))
    + Py.sum (List.map (fun tr => whole_minutes (delta_seconds tr)) tasks_results).
Proof.
  revert grouped. induction tasks_results as [|tr rest IH]; intros grouped.
  - cbn [foldl List.map]. change (Py.sum []) with 0. lia.
  - cbn [foldl List.map]. rewrite IH, group_step_sum, sum_cons, whole_minutes_quot. lia.
Qed.

Lemma alter_set_task_id_minutes (value key : string) (d : Grouped) :
  List.map task_total_mins (Dict.values (Dict.alter (set_task_id value) key d))
  = List.map task_total_mins (Dict.values d).
Proof.
  unfold Dict.values. induction d as [|[k e] d IH]; [reflexivity|].
  cbn [Dict.alter]. destruct (String.eqb k key).
  - reflexivity.
  - cbn [fmap list_fmap List.map snd]. cbn [fmap list_fmap] in IH. rewrite IH. reflexivity.
Qed.

Lemma apply_defaults_minutes (grouped_tasks : Grouped) (defaults_map : gmap string string) :
  bucket_minutes (apply_defaults grouped_tasks defaults_map) = bucket_minutes grouped_tasks.
Proof.
  unfold bucket_minutes. rewrite apply_defaults_fold.
  generalize (map_to_list defaults_map) as items. intros items. revert grouped_tasks.
  induction items as [|item items IH]; intros grouped_tasks; [reflexivity|].
  cbn [foldl]. rewrite IH. unfold default_step.
  destruct (Dict.contains (fst item) grouped_tasks); [|reflexivity].
  rewrite alter_set_task_id_minutes. reflexivity.
Qed.

Lemma group_tasks_minutes (tasks_results : list TaskResult) :
  bucket_minutes (group_tasks tasks_results)
  = Py.sum (List.map (fun tr => whole_minutes (delta_seconds tr)) tasks_results).
Proof.
  unfold bucket_minutes, group_tasks.
  assert (H : forall d : @Dict.t bucket,
             List.map task_total_mins (Dict.values (Dict.map_values finalize d))
             = List.map bucket_delta (Dict.values d)).
  { intros d. unfold Dict.values, Dict.map_values.
    induction d as [|[k b] d IH]; [reflexivity|].
    cbn [fmap list_fmap List.map snd fst finalize task_total_mins].
    cbn [fmap list_fmap] in IH. rewrite IH. reflexivity. }
  rewrite H, group_fold_sum. change (Py.sum (List.map bucket_delta (Dict.values []))) with 0.
  lia.
Qed.

(** X15. Grouping loses no minutes and counts none twice: the minutes of
    the buckets of [group_tasks] add up to the whole minutes
    [int(delta_seconds / 60)] of the results, added up; [apply_defaults]
    does not change them. *)
Theorem group_tasks_keeps_minutes (tasks_results : list TaskResult)
    (defaults_map : gmap string string) :
  bucket_minutes (group_tasks tasks_results)
  = Py.sum (List.map (fun tr => whole_minutes (delta_seconds tr)) tasks_results)
  /\ bucket_minutes (apply_defaults (group_tasks tasks_results) defaults_map)
     = bucket_minutes (group_tasks tasks_results).
Proof.
  split; [apply group_tasks_minutes|apply apply_defaults_minutes].
Qed.

Lemma totals_sum (tasks_results : list TaskResult) :
  fst (compute_totals tasks_results) + snd (compute_totals tasks_results)
  = Py.sum (List.map delta_seconds tasks_results).
Proof.
  unfold compute_totals. cbn [fst snd]. rewrite !sum_filter_seconds.
  rewrite (seconds_where_split (fun tr => Py.startswith "#" (desc tr))).
  rewrite <- sum_filter_seconds, filter_true. reflexivity.
Qed.

Lemma whole_minutes_sum (tasks_results : list TaskResult) :
  Forall (fun tr => 60 * whole_minutes (delta_seconds tr) = delta_seconds tr) tasks_results ->
  60 * Py.sum (List.map (fun tr => whole_minutes (delta_seconds tr)) tasks_results)
  = Py.sum (List.map delta_seconds tasks_results).
Proof.
  induction 1 as [|tr rest Htr _ IH]; [reflexivity|].
  cbn [List.map]. rewrite !sum_cons. lia.
Qed.

(** X16. In a run, the lines of the summary agree with its total: the
    minutes shown for the buckets add up to the minutes of the line
    "total:", which is the whole minutes of the work and free seconds
    together. *)
Theorem summary_minutes_add_up (today : datetime) (lines : list string)
    (timestamps : list datetime) (defaults_map : gmap string string) :
  get_timestamps today lines = Ok timestamps ->
  let tasks_results := get_tasks_results (get_deltas timestamps) lines in
  let totals := compute_totals tasks_results in
  bucket_minutes (apply_defaults (group_tasks tasks_results) defaults_map)
  = whole_minutes (fst totals + snd totals).
Proof.
  intros Hts. cbn zeta.
  rewrite apply_defaults_minutes, group_tasks_minutes, totals_sum.
  assert (Hall : Forall (fun tr => 60 * whole_minutes (delta_seconds tr) = delta_seconds tr)
                   (get_tasks_results (get_deltas timestamps) lines)).
  { apply Forall_forall. intros tr Htr.
    unfold get_tasks_results in Htr. rewrite tasks_results_by_index in Htr.
    destruct (results_delta_elem_of _ _ _ _ Htr) as [Hin _].
    pose proof (day_deltas today lines timestamps Hts) as Hd.
    rewrite Forall_forall in Hd. destruct (Hd _ Hin) as (k & -> & _).
    rewrite whole_minutes_quot, (Z.mul_comm 60 k), Z.quot_mul by lia. lia. }
  rewrite <- (whole_minutes_sum _ Hall), whole_minutes_quot.
  rewrite Z.mul_comm, Z.quot_mul by lia. reflexivity.
Qed.

Lemma summary_minutes_add_up_witness :
  let tasks_results :=
    get_tasks_results
      (get_deltas [at_time test_day (8, 0); at_time test_day (9, 0); at_time test_day (9, 30)])
      ["08:00 standup"; "09:00 12345 Task A"; "09:30 #lunch"] in
  let totals := compute_totals tasks_results in
  bucket_minutes (apply_defaults (group_tasks tasks_results) defaults)
  = whole_minutes (fst totals + snd totals).
Proof.
  apply (summary_minutes_add_up test_day
           ["08:00 standup"; "09:00 12345 Task A"; "09:30 #lunch"]).
  vm_compute. reflexivity.
Defined.

(** ** More on [apply_defaults] *)

Lemma dict_ext {V : Type} (d1 d2 : @Dict.t V) :
  Dict.keys d1 = Dict.keys d2 -> NoDup (Dict.keys d1) ->
  (forall key, Dict.get key d1 = Dict.get key d2) -> d1 = d2.
Proof.
  revert d2. induction d1 as [|[k v] d1 IH]; intros [|[k' v'] d2] Hkeys Hnd Hget;
    try discriminate; [reflexivity|].
  cbn in Hkeys. injection Hkeys as <- Hkeys.
  apply NoDup_cons in Hnd as [Hfresh Hnd].
  pose proof (Hget k) as Hk. cbn [Dict.get] in Hk. rewrite String.eqb_refl in Hk.
  injection Hk as <-. f_equal. apply IH; [exact Hkeys|exact Hnd|].
  intros key. destruct (String.eqb_spec k key) as [<-|Hne].
  - transitivity (@None V); [|symmetry].
    + apply dict_get_None. exact Hfresh.
    + apply dict_get_None. unfold Dict.keys in Hkeys |- *. rewrite <- Hkeys. exact Hfresh.
  - pose proof (Hget key) as Hk. cbn [Dict.get] in Hk.
    apply String.eqb_neq in Hne. rewrite Hne in Hk. exact Hk.
Qed.

Lemma set_task_id_twice (value value' : string) (e : entry) :
  set_task_id value (set_task_id value' e) = set_task_id value e.
Proof. reflexivity. Qed.

Lemma default_fold_get_all (items : list (string * string)) (grouped : Grouped) (key : string) :
  NoDup items.*1 ->
  Dict.get key (foldl default_step grouped items)
  = match Dict.get key grouped with
    | None => None
    | Some e =>
        Some (match Dict.get key items with
              | Some value => set_task_id value e
              | None => e
              end)
    end.
Proof.
  intros Hnd. destruct (Dict.get key grouped) as [e|] eqn:Hg.
  - destruct (default_fold_get items grouped key e Hnd Hg) as [Hin Hout].
    destruct (Dict.get key items) as [value|] eqn:Hi.
    + apply Hin, dict_get_elem_of, Hi.
    + apply Hout. apply dict_get_None in Hi. exact Hi.
  - apply dict_get_None. rewrite default_fold_keys. apply dict_get_None. exact Hg.
Qed.

(** X17. The result of [apply_defaults] does not depend on the order in
    which the defaults are visited: the loop run over the pairs of the
    mapping in any order gives the same dictionary; and applying the same
    defaults a second time changes nothing. *)
Theorem apply_defaults_any_order (grouped_tasks : Grouped)
    (defaults_map : gmap string string) :
  NoDup (Dict.keys grouped_tasks) ->
  (forall items : list (string * string),
      items ≡ₚ map_to_list defaults_map ->
      foldl default_step grouped_tasks items = apply_defaults grouped_tasks defaults_map)
  /\ apply_defaults (apply_defaults grouped_tasks defaults_map) defaults_map
     = apply_defaults grouped_tasks defaults_map.
Proof.
  intros Hnd. split.
  - intros items Hperm.
    assert (Hnd' : NoDup items.*1).
    { rewrite Hperm. apply NoDup_fst_map_to_list. }
    apply dict_ext.
    + rewrite default_fold_keys, apply_defaults_keys. reflexivity.
    + rewrite default_fold_keys. exact Hnd.
    + intros key. rewrite (default_fold_get_all items grouped_tasks key Hnd').
      destruct (Dict.get key grouped_tasks) as [e|] eqn:Hg.
      * rewrite (apply_defaults_get grouped_tasks defaults_map key e Hg). f_equal.
        destruct (Dict.get key items) as [value|] eqn:Hi.
        -- apply dict_get_elem_of in Hi. rewrite Hperm in Hi.
           apply elem_of_map_to_list in Hi. rewrite Hi. reflexivity.
        -- destruct (defaults_map !! key) as [value|] eqn:Hd; [|reflexivity].
           apply elem_of_map_to_list in Hd. rewrite <- Hperm in Hd.
           apply (dict_elem_of_get items key value Hnd') in Hd. congruence.
      * symmetry. apply dict_get_None. rewrite apply_defaults_keys.
        apply dict_get_None. exact Hg.
  - apply dict_ext.
    + rewrite !apply_defaults_keys. reflexivity.
    + rewrite !apply_defaults_keys. exact Hnd.
    + intros key. destruct (Dict.get key grouped_tasks) as [e|] eqn:Hg.
      * pose proof (apply_defaults_get grouped_tasks defaults_map key e Hg) as H1.
        rewrite (apply_defaults_get _ defaults_map key _ H1), H1. f_equal.
        destruct (defaults_map !! key); reflexivity.
      * assert (H1 : Dict.get key (apply_defaults grouped_tasks defaults_map) = None).
        { apply dict_get_None. rewrite apply_defaults_keys. apply dict_get_None. exact Hg. }
        rewrite H1. apply dict_get_None. rewrite apply_defaults_keys.
        apply dict_get_None. exact H1.
Qed.

Lemma apply_defaults_any_order_witness :
  let grouped := group_tasks [ {| task_id := None; delta_seconds := 3600; desc := "standup" |};
                               {| task_id := None; delta_seconds := 1800; desc := "review" |} ] in
  (forall items : list (string * string),
      items ≡ₚ map_to_list defaults ->
      foldl default_step grouped items = apply_defaults grouped defaults)
  /\ apply_defaults (apply_defaults grouped defaults) defaults
     = apply_defaults grouped defaults.
Proof.
  cbn zeta. apply apply_defaults_any_order. vm_compute.
  repeat constructor; set_solver.
Defined.

(** ** The steps of the quarter-hour rounding *)

Lemma round_quarters_unique (total_minutes k : Z) :
  2 * Z.abs (15 * k - total_minutes) <= 15 ->
  Py.round (Py.fmul (Py.fdiv (Py.float_of_int total_minutes) (Py.float_of_int 60))
                    (Py.float_of_int 4)) = k.
Proof.
  intros Hk. pose proof (round_quarters_near total_minutes) as Hr. cbn zeta in Hr. lia.
Qed.

(** ** Writing lines and reading them back *)

Lemma one_line_cons (c : ascii) (s : string) :
  one_line (String c s) = true ->
  Py.is_newline c = false /\ (Py.ord c =? 13) = false /\ one_line s = true.
Proof.
  unfold one_line. cbn [str_all]. intros H. apply andb_true_iff in H as [Hc Hs].
  apply andb_true_iff in Hc as [H1 H2].
  apply negb_true_iff in H1. apply negb_true_iff in H2. auto.
Qed.

Lemma universal_newlines_text (lines : list string) :
  Forall (fun l => one_line l = true) lines ->
  universal_newlines (text_of_lines lines) = text_of_lines lines.
Proof.
  induction 1 as [|l rest Hl _ IH]; [reflexivity|].
  cbn [text_of_lines foldr]. fold (text_of_lines rest).
  induction l as [|c l IHl].
  - rewrite str_app_nil, universal_newlines_cons.
    change (Py.ord "010" =? 13) with false. cbv iota. rewrite IH. reflexivity.
  - apply one_line_cons in Hl as (_ & Hcr & Hl).
    rewrite str_app_cons, universal_newlines_cons, Hcr, (IHl Hl). reflexivity.
Qed.

Lemma file_lines_line (l rest : string) :
  one_line l = true ->
  file_lines (l +:+ String "010" rest) = (l +:+ "
") :: file_lines rest.
Proof.
  induction l as [|c l IH]; intros Hl; [reflexivity|].
  apply one_line_cons in Hl as (Hnl & _ & Hl).
  rewrite !str_app_cons. cbn [file_lines]. rewrite Hnl, (IH Hl). reflexivity.
Qed.

Lemma file_lines_text (lines : list string) :
  Forall (fun l => one_line l = true) lines ->
  file_lines (text_of_lines lines) = List.map (fun l => l +:+ "
") lines.
Proof.
  induction 1 as [|l rest Hl _ IH]; [reflexivity|].
  cbn [text_of_lines foldr List.map]. fold (text_of_lines rest).
  rewrite (file_lines_line l _ Hl), IH. reflexivity.
Qed.

Lemma rstrip_newline_line (l : string) :
  one_line l = true -> Py.rstrip_of Py.is_newline (l +:+ "
") = l.
Proof.
  induction l as [|c l IH]; intros Hl; [reflexivity|].
  apply one_line_cons in Hl as (Hnl & _ & Hl).
  rewrite str_app_cons. cbn [Py.rstrip_of]. rewrite (IH Hl), Hnl.
  destruct l; reflexivity.
Qed.

(** X20. Lines written to a file, each ended by a newline, are read back
    by [get_lines] as they are, in order, when each is a single line (no
    line feed or carriage return in it) and is not blank. *)
Theorem get_lines_reads_back (path : string) (lines : list string) (w : world) :
  Forall (fun l => one_line l = true /\ Py.strip l <> "") lines ->
  files w !! path = Some (text_of_lines lines) ->
  get_lines path w = (Ok lines, w).
Proof.
  intros Hall Hfile. unfold get_lines. rewrite Hfile. f_equal. f_equal.
  unfold nonblank_lines.
  assert (Hone : Forall (fun l => one_line l = true) lines).
  { eapply Forall_impl; [exact Hall|]. intros l [H _]. exact H. }
  rewrite (universal_newlines_text lines Hone), (file_lines_text lines Hone).
  clear Hfile Hone. induction Hall as [|l rest [Hl Hnb] _ IH]; [reflexivity|].
  cbn [List.map List.filter].
  assert (Hs : Py.strip (l +:+ "
") = Py.strip l).
  { rewrite <- (strip_rstrip_newline (l +:+ "
")), (rstrip_newline_line l Hl). reflexivity. }
  rewrite Hs. apply String.eqb_neq in Hnb. rewrite Hnb. cbn [negb List.map].
  rewrite (rstrip_newline_line l Hl), IH. reflexivity.
Qed.

Lemma get_lines_reads_back_witness :
  get_lines "log.md"
    {| files := {[ "log.md" := text_of_lines ["08:00 a"; "  note"; "09:00 12345 b "] ]};
       sent := []; logged := [] |}
  = (Ok ["08:00 a"; "  note"; "09:00 12345 b "],
     {| files := {[ "log.md" := text_of_lines ["08:00 a"; "  note"; "09:00 12345 b "] ]};
        sent := []; logged := [] |}).
Proof.
  apply get_lines_reads_back.
  - repeat constructor; vm_compute; discriminate.
  - vm_compute. reflexivity.
Defined.

(** ** The total of a log in which every line matches *)

Lemma results_all_match (deltas : list Z) (lines : list string) (k : nat) :
  (forall l, l ∈ lines -> matches_pattern l = true) ->
  (length deltas <= k + length lines)%nat ->
  List.map delta_seconds (results_by_index deltas k lines) = drop k deltas.
Proof.
  revert k. induction lines as [|line rest IH]; intros k Hall Hlen.
  - cbn [results_by_index List.map]. symmetry. apply drop_ge. cbn [length] in Hlen. lia.
  - cbn [results_by_index]. unfold result_at.
    assert (Hm : matches_pattern line = true) by (apply Hall; left).
    unfold matches_pattern in Hm.
    destruct (parse_line line) as [[[time_str tid] description]|]; [|discriminate].
    assert (IH' : List.map delta_seconds (results_by_index deltas (S k) rest)
                  = drop (S k) deltas).
    { apply IH; [intros l Hl; apply Hall; by right|]. cbn [length] in Hlen. lia. }
    destruct (deltas !! k) as [d|] eqn:Hd.
    + cbn [List.map delta_seconds]. rewrite IH'. symmetry. apply drop_S. exact Hd.
    + rewrite IH'. apply lookup_ge_None in Hd.
      rewrite !drop_ge by lia. reflexivity.
Qed.

Lemma filter_all {A : Type} (p : A -> bool) (l : list A) :
  (forall x, x ∈ l -> p x = true) -> List.filter p l = l.
Proof.
  induction l as [|x l IH]; intros H; [reflexivity|].
  cbn [List.filter]. rewrite (H x) by left. rewrite IH; [reflexivity|].
  intros y Hy. apply H. by right.
Qed.

(** X21. In a log in which every line matches the pattern, the work and
    free seconds that [compute_totals] returns add up to the time from the
    first line to the last: sixty times the difference of their minutes
    since midnight. *)
Theorem totals_span_the_log (today : datetime) (lines : list string)
    (timestamps : list datetime) (first final : datetime) :
  (forall l, l ∈ lines -> matches_pattern l = true) ->
  get_timestamps today lines = Ok timestamps ->
  head timestamps = Some first -> last timestamps = Some final ->
  let totals := compute_totals (get_tasks_results (get_deltas timestamps) lines) in
  fst totals + snd totals = 60 * (minute_of_day final - minute_of_day first).
Proof.
  intros Hall Hts Hfirst Hlast. cbn zeta. rewrite totals_sum.
  destruct (get_timestamps_ok today lines timestamps Hts) as (Hday & Hlen & _).
  rewrite (filter_all matches_pattern lines Hall) in Hlen.
  unfold get_tasks_results. rewrite tasks_results_by_index.
  rewrite (results_all_match (get_deltas timestamps) lines 0 Hall)
    by (rewrite get_deltas_length; lia).
  rewrite drop_0.
  destruct timestamps as [|a l]; [discriminate|].
  cbn in Hfirst. injection Hfirst as ->.
  rewrite (get_deltas_sum first l final Hlast).
  rewrite Forall_forall in Hday.
  apply (datetime_sub_on_day today first final).
  - apply Hday. left.
  - apply Hday. apply last_Some in Hlast as [l' Hl']. rewrite Hl'.
    apply elem_of_app. right. left.
Qed.

Lemma totals_span_the_log_witness :
  let totals :=
    compute_totals
      (get_tasks_results
         (get_deltas [at_time test_day (8, 0); at_time test_day (9, 0); at_time test_day (9, 30)])
         ["08:00 standup"; "09:00 #lunch"; "09:30 end"]) in
  fst totals + snd totals
  = 60 * (minute_of_day (at_time test_day (9, 30)) - minute_of_day (at_time test_day (8, 0))).
Proof.
  apply (totals_span_the_log test_day ["08:00 standup"; "09:00 #lunch"; "09:30 end"]).
  - intros l Hl. repeat (apply elem_of_cons in Hl as [->|Hl]; [reflexivity|]). inversion Hl.
  - vm_compute. reflexivity.
  - reflexivity.
  - reflexivity.
Defined.

(** ** Where task ids come from *)

Lemma group_fold_task_id (tasks_results : list TaskResult) (grouped : @Dict.t bucket)
    (key : string) (b : bucket) (t : string) :
  Dict.get key (foldl group_step grouped tasks_results) = Some b ->
  bucket_task_id b = Some t ->
  (exists b0, Dict.get key grouped = Some b0 /\ bucket_task_id b0 = Some t)
  \/ (exists tr, tr ∈ tasks_results /\ task_id tr = Some t /\ t <> ""
                 /\ bucket_key tr = key).
Proof.
  revert grouped. induction tasks_results as [|tr rest IH]; intros grouped Hget Hid.
  - left. exists b. split; [exact Hget|exact Hid].
  - cbn [foldl] in Hget. destruct (IH _ Hget Hid) as [(b0 & Hb0 & Hid0)|(tr' & Hin & H)].
    + rewrite group_step_get in Hb0.
      destruct (String.eqb (bucket_key tr) key) eqn:Hk.
      * injection Hb0 as <-. cbn [add_result bucket_task_id] in Hid0.
        destruct (Dict.get key grouped) as [b1|] eqn:Hg.
        -- left. exists b1. split; [reflexivity|exact Hid0].
        -- right. exists tr. cbn [default id fresh_bucket bucket_task_id] in Hid0.
           split; [left|]. destruct (task_id tr) as [[|c s]|]; try discriminate.
           injection Hid0 as <-. split; [reflexivity|]. split; [discriminate|].
           apply String.eqb_eq, Hk.
      * left. exists b0. split; [exact Hb0|exact Hid0].
    + right. exists tr'. split; [by right|exact H].
Qed.

Lemma group_tasks_get (tasks_results : list TaskResult) (key : string) (e : entry) :
  (key, e) ∈ group_tasks tasks_results ->
  exists b, Dict.get key (foldl group_step [] tasks_results) = Some b /\ e = finalize b.
Proof.
  intros Hin.
  assert (Hnd : NoDup (Dict.keys (group_tasks tasks_results))).
  { unfold group_tasks. rewrite dict_keys_map_values. apply group_fold_NoDup. constructor. }
  pose proof (dict_elem_of_get _ _ _ Hnd Hin) as Hget.
  unfold group_tasks in Hget. rewrite dict_get_map_values in Hget.
  destruct (Dict.get key (foldl group_step [] tasks_results)) as [b|]; [|discriminate].
  injection Hget as <-. exists b. split; reflexivity.
Qed.

Lemma group_tasks_task_id (tasks_results : list TaskResult) (key : string) (e : entry)
    (t : string) :
  (key, e) ∈ group_tasks tasks_results -> entry_task_id e = Some t ->
  exists tr, tr ∈ tasks_results /\ task_id tr = Some t /\ t <> "" /\ bucket_key tr = key.
Proof.
  intros Hin Hid. destruct (group_tasks_get _ _ _ Hin) as (b & Hget & ->).
  cbn [finalize entry_task_id] in Hid.
  destruct (group_fold_task_id _ _ _ _ _ Hget Hid) as [(b0 & Hb0 & _)|H];
    [discriminate|exact H].
Qed.

(** No key of [config.defaults] starts with a digit or with [#]. *)
Lemma defaults_keys (key value : string) :
  defaults !! key = Some value ->
  exists c r, key = String c r /\ Py.isdecimal c = false /\ c <> "#"%char.
Proof.
  unfold defaults. intros H. apply elem_of_list_to_map_2 in H.
  repeat (apply elem_of_cons in H as [[= -> ->]|H];
          [eexists _, _; split; [reflexivity|split; [reflexivity|discriminate]]|]).
  inversion H.
Qed.

Lemma results_task_id (deltas : list Z) (lines : list string) (tr : TaskResult) :
  tr ∈ get_tasks_results deltas lines ->
  exists line time_str,
    line ∈ lines /\ parse_line line = Some (time_str, task_id tr, desc tr)
    /\ match task_id tr with
       | Some t => digits t /\ String.length t = 5%nat
       | None => True
       end.
Proof.
  intros Hin. unfold get_tasks_results in Hin. rewrite tasks_results_by_index in Hin.
  destruct (results_delta_elem_of _ _ _ _ Hin) as (_ & line & time_str & Hl & Hp).
  exists line, time_str. split; [exact Hl|]. split; [exact Hp|].
  destruct (parse_line_fields _ _ _ _ Hp) as (_ & Htid & _).
  destruct (task_id tr); [exact Htid|exact I].
Qed.

Lemma digits_key_no_default (t rest : string) :
  digits t -> t <> "" -> defaults !! (t +:+ rest) = None.
Proof.
  intros Ht Hne. destruct (defaults !! (t +:+ rest)) as [v|] eqn:Hd; [|reflexivity].
  destruct (defaults_keys _ _ Hd) as (c & r & Hkey & Hc & _).
  destruct t as [|a t]; [congruence|].
  rewrite str_app_cons in Hkey. injection Hkey as -> _.
  unfold digits in Ht. cbn [str_all] in Ht. apply andb_true_iff in Ht as [Ha _].
  congruence.
Qed.

(** X22. In a run, [config.defaults] only fills in task ids that are
    missing: a bucket that got a task id from its lines has a five-digit
    id, its key is not a key of the defaults, and [apply_defaults] leaves
    the bucket as it is. *)
Theorem defaults_keep_ids_of_lines (deltas : list Z) (lines : list string)
    (key : string) (e : entry) (t : string) :
  (key, e) ∈ group_tasks (get_tasks_results deltas lines) ->
  entry_task_id e = Some t ->
  digits t /\ String.length t = 5%nat
  /\ defaults !! key = None
  /\ Dict.get key (apply_defaults (group_tasks (get_tasks_results deltas lines)) defaults)
     = Some e.
Proof.
  intros Hin Hid.
  destruct (group_tasks_task_id _ _ _ _ Hin Hid) as (tr & Htr & Ht & Hne & Hkey).
  destruct (results_task_id _ _ _ Htr) as (line & time_str & _ & _ & Hd).
  rewrite Ht in Hd. destruct Hd as [Hdig Hlen].
  assert (Hnone : defaults !! key = None).
  { rewrite <- Hkey. unfold bucket_key. rewrite Ht.
    destruct t as [|c s]; [congruence|]. apply digits_key_no_default; [exact Hdig|discriminate]. }
  split; [exact Hdig|]. split; [exact Hlen|]. split; [exact Hnone|].
  assert (Hnd : NoDup (Dict.keys (group_tasks (get_tasks_results deltas lines)))).
  { unfold group_tasks. rewrite dict_keys_map_values. apply group_fold_NoDup. constructor. }
  rewrite (apply_defaults_get _ defaults key e (dict_elem_of_get _ _ _ Hnd Hin)), Hnone.
  reflexivity.
Qed.

Lemma defaults_keep_ids_of_lines_witness :
  let e := {| entry_delta := 60; entry_desc := {[ "standup" ]};
              entry_task_id := Some "12345";
              task_total_mins := 60; task_total_hours := 1; task_total_rest := 0;
              rounded_hours := 1%Q |} in
  digits "12345" /\ String.length "12345" = 5%nat
  /\ defaults !! "12345 standup" = None
  /\ Dict.get "12345 standup"
       (apply_defaults
          (group_tasks (get_tasks_results [3600] ["08:00 12345 standup"; "09:00 end"]))
          defaults)
     = Some e.
Proof.
  cbn zeta.
  apply (defaults_keep_ids_of_lines [3600] ["08:00 12345 standup"; "09:00 end"]
           "12345 standup").
  - vm_compute. left.
  - reflexivity.
Defined.

(** X23. [main] never makes up an issue id: every entry it sends carries
    either the task id written on a line of the log, or the id that
    [config.defaults] gives for the description of a line that has no
    task id. *)
Theorem sent_ids_come_from_the_log (float_repr : Py.float -> string) (today : datetime)
    (path answer content : string) (w : world) (te : time_entry) :
  files w !! path = Some content ->
  te ∈ sent (snd (main float_repr today path answer w)) ->
  te ∈ sent w
  \/ exists line time_str description,
       line ∈ nonblank_lines content
       /\ (parse_line line = Some (time_str, Some (issue_id te), description)
           \/ (parse_line line = Some (time_str, None, description)
               /\ defaults !! description = Some (issue_id te))).
Proof.
  intros Hfile Hte.
  destruct (main_cases float_repr today path answer w)
    as [[Hnone _]|[(c & _ & _ & H)|[(c & e & _ & _ & H)|(c & ts & Hc & _ & H)]]];
    [congruence|rewrite H in Hte; left; exact Hte ..|].
  rewrite H in Hte. replace c with content in * by congruence. clear Hc H.
  unfold after_summary in Hte. cbn [snd sent] in Hte.
  apply elem_of_app in Hte as [Hold|Hnew]; [left; exact Hold|]. right.
  destruct (declined answer); [inversion Hnew|].
  set (lines := nonblank_lines content) in *.
  set (trs := get_tasks_results (get_deltas ts) lines) in *.
  apply list_elem_of_omap in Hnew as (en & Hen & Hsome).
  apply time_entry_of_Some in Hsome as (tid & Htid & Hne & _ & ->). cbn [issue_id].
  unfold Dict.values in Hen. apply list_elem_of_fmap in Hen as ([key en'] & -> & Hin).
  cbn [snd] in Htid.
  assert (Hnd : NoDup (Dict.keys (group_tasks trs))).
  { unfold group_tasks. rewrite dict_keys_map_values. apply group_fold_NoDup. constructor. }
  assert (Hnd' : NoDup (Dict.keys (apply_defaults (group_tasks trs) defaults)))
    by (rewrite apply_defaults_keys; exact Hnd).
  pose proof (dict_elem_of_get _ _ _ Hnd' Hin) as Hget'.
  assert (Hkey : key ∈ Dict.keys (group_tasks trs)).
  { rewrite <- (apply_defaults_keys _ defaults).
    apply (list_elem_of_fmap_2 fst) in Hin. exact Hin. }
  destruct (Dict.get key (group_tasks trs)) as [e0|] eqn:Hget0;
    [|apply dict_get_None in Hget0; contradiction].
  rewrite (apply_defaults_get _ defaults key e0 Hget0) in Hget'.
  apply (inj Some) in Hget'. subst en'.
  destruct (defaults !! key) as [value|] eqn:Hd.
  - cbn [set_task_id entry_task_id] in Htid. injection Htid as ->.
    unfold group_tasks in Hkey. rewrite dict_keys_map_values in Hkey.
    apply group_fold_keys in Hkey as [Hnil|(tr & Htr & Hbk)]; [inversion Hnil|].
    destruct (results_task_id _ _ _ Htr) as (line & time_str & Hl & Hp & Hshape).
    exists line, time_str, (desc tr). split; [exact Hl|]. right.
    destruct (defaults_keys _ _ Hd) as (a & r & Hkr & Ha & Hhash).
    unfold bucket_key in Hbk. destruct (task_id tr) as [t|].
    + destruct Hshape as [Hdig Hlen]. exfalso.
      destruct t as [|b t]; [discriminate|].
      rewrite str_app_cons, Hkr in Hbk. injection Hbk as -> _.
      unfold digits in Hdig. cbn [str_all] in Hdig. apply andb_true_iff in Hdig as [Hb _].
      congruence.
    + destruct (desc tr) as [|b s] eqn:Hdesc.
      * exfalso. rewrite Hkr in Hbk. injection Hbk as <- _. congruence.
      * rewrite <- Hbk in Hd. split; [exact Hp|exact Hd].
  - destruct (group_tasks_task_id trs key e0 tid (dict_get_elem_of _ _ _ Hget0) Htid)
      as (tr & Htr & Ht & _ & _).
    destruct (results_task_id _ _ _ Htr) as (line & time_str & Hl & Hp & _).
    exists line, time_str, (desc tr). split; [exact Hl|]. left. rewrite <- Ht. exact Hp.
Qed.

Lemma sent_ids_come_from_the_log_witness :
  let te := {| issue_id := "77488"; spent_on := "2026-02-21"; hours := 1%Q;
               comments := "standup" |} in
  te ∈ sent sample_world
  \/ exists line time_str description,
       line ∈ nonblank_lines "08:00 standup
09:00 12345 Task A

10:15 #lunch
11:00 x
"
       /\ (parse_line line = Some (time_str, Some (issue_id te), description)
           \/ (parse_line line = Some (time_str, None, description)
               /\ defaults !! description = Some (issue_id te))).
Proof.
  cbn zeta.
  apply (sent_ids_come_from_the_log quarter_repr test_day "log.md" "y").
  - reflexivity.
  - vm_compute. left.
Defined.

(** ** The path of the log file *)

Lemma str_of_int_inj (a b : Z) : Py.str_of_int a = Py.str_of_int b -> a = b.
Proof.
  unfold Py.str_of_int. intros H.
  assert (Hne : forall z, Z.to_int z <> Decimal.Pos Decimal.Nil
                          /\ Z.to_int z <> Decimal.Neg Decimal.Nil).
  { intros [|p|p]; cbn; split; try discriminate; intros [= Hp];
      exact (DecimalPos.Unsigned.to_uint_nonnil p Hp). }
  apply (f_equal NilZero.int_of_string) in H.
  rewrite !NilZero.isi in H by apply Hne.
  injection H as H. exact (DecimalZ.to_int_inj a b H).
Qed.

Lemma str_app_inv_head (s a b : string) : s +:+ a = s +:+ b -> a = b.
Proof.
  induction s as [|c s IH]; [rewrite !str_app_nil; auto|].
  rewrite !str_app_cons. intros [= H]. exact (IH H).
Qed.

Lemma pad2_reads_back (n : Z) :
  1 <= n <= 31 ->
  exists a b, pad2 n = String a (String b "")
              /\ Py.int_of_str (String a (String b "")) = Some n.
Proof.
  intros Hn.
  assert (H : reads_back n = true).
  { apply (zrange_forallb reads_back 1 31 n); [vm_compute; reflexivity|lia]. }
  unfold reads_back in H.
  destruct (pad2 n) as [|a [|b [|? ?]]]; try discriminate.
  destruct (Py.int_of_str (String a (String b ""))) as [v|] eqn:Hv; [|discriminate].
  apply Z.eqb_eq in H. subst v. exists a, b. split; [reflexivity|exact Hv].
Qed.

Lemma pad2_app_inj (m n : Z) (r s : string) :
  1 <= m <= 31 -> 1 <= n <= 31 -> pad2 m +:+ r = pad2 n +:+ s -> m = n.
Proof.
  intros Hm Hn H.
  destruct (pad2_reads_back m Hm) as (a & b & Ea & Ha).
  destruct (pad2_reads_back n Hn) as (c & d & Ec & Hc).
  rewrite Ea, Ec in H. rewrite !str_app_cons, !str_app_nil in H.
  injection H as -> -> _. congruence.
Qed.

Lemma weekday_range (d : datetime) : 0 <= weekday d <= 6.
Proof. unfold weekday. pose proof (Z.mod_pos_bound (ymd2ord (year d) (month d) (day d) + 6) 7). lia. Qed.

Lemma day_of_week_defined (n : Z) : 0 <= n <= 6 -> is_Some (NUMBER_TO_DAY_OF_WEEK n).
Proof.
  intros H.
  assert (Hc : n = 0 \/ n = 1 \/ n = 2 \/ n = 3 \/ n = 4 \/ n = 5 \/ n = 6) by lia.
  destruct Hc as [->|[->|[->|[->|[->|[->| ->]]]]]]; eexists; reflexivity.
Qed.

Lemma get_path_parts (home : list string) (today : datetime) :
  exists day_of_the_week,
    NUMBER_TO_DAY_OF_WEEK (weekday today) = Some day_of_the_week
    /\ get_path home today
       = Some (home ++ ["logtime"; Py.str_of_int (year today); pad2 (month today);
                        strftime_ymd today +:+ " " +:+ day_of_the_week +:+ ".md"]).
Proof.
  destruct (day_of_week_defined (weekday today) (weekday_range today)) as [dow Hdow].
  exists dow. split; [exact Hdow|]. unfold get_path. rewrite Hdow. reflexivity.
Qed.

(** ** Which buckets count as free time *)

(** ** Lines that do not match *)

(** X25. [get_timestamps] ignores the lines that do not match the
    pattern: it returns (or raises) the same with those lines removed. *)
Theorem get_timestamps_ignores_other_lines (today : datetime) (lines : list string) :
  get_timestamps today (List.filter matches_pattern lines) = get_timestamps today lines.
Proof.
  induction lines as [|line rest IH]; [reflexivity|].
  cbn [List.filter]. destruct (matches_pattern line) eqn:Hm.
  - rewrite !get_timestamps_cons, IH. reflexivity.
  - rewrite IH, (get_timestamps_cons today line rest).
    destruct (line_time line) as [hm|] eqn:Hlt; [|reflexivity].
    assert (Hs : is_Some (line_time line)) by (rewrite Hlt; eexists; reflexivity).
    apply matches_line_time in Hs. congruence.
Qed.

(** X26. In a log in which every line matches the pattern, the results
    are paired as the docstring says: there is one result for every line
    but the last, and the result at index [i] has the task id and the
    description of line [i] and the seconds from the time of line [i] to
    the time of line [i + 1]. *)
Theorem results_pair_when_all_match (today : datetime) (lines : list string)
    (timestamps : list datetime) :
  (forall l, l ∈ lines -> matches_pattern l = true) ->
  get_timestamps today lines = Ok timestamps ->
  length (get_tasks_results (get_deltas timestamps) lines) = Nat.pred (length lines)
  /\ forall (i : nat) (line next time_str : string) (tid : option string)
       (description : string) (h mi h' mi' : Z),
       lines !! i = Some line -> lines !! S i = Some next ->
       parse_line line = Some (time_str, tid, description) ->
       line_time line = Some (h, mi) -> line_time next = Some (h', mi') ->
       get_tasks_results (get_deltas timestamps) lines !! i
       = Some {| task_id := tid;
                 delta_seconds := ((h' * 60 + mi') - (h * 60 + mi)) * 60;
                 desc := description |}.
Proof.
  intros Hall Hts. split.
  - destruct (get_timestamps_ok today lines timestamps Hts) as (_ & Hlen & _).
    rewrite (filter_all matches_pattern lines Hall) in Hlen.
    unfold get_tasks_results. rewrite tasks_results_by_index.
    rewrite <- (length_map delta_seconds).
    rewrite (results_all_match (get_deltas timestamps) lines 0 Hall)
      by (rewrite get_deltas_length; lia).
    rewrite drop_0, get_deltas_length, Hlen. reflexivity.
  - intros i line next time_str tid description h mi h' mi' Hi Hn Hp Hl Hl'.
    exact (tasks_results_aligned today lines timestamps i line next time_str tid
             description h mi h' mi' Hall Hts Hi Hn Hp Hl Hl').
Qed.

Lemma results_pair_when_all_match_witness :
  get_tasks_results
    (get_deltas [at_time test_day (8, 0); at_time test_day (9, 0); at_time test_day (9, 30)])
    ["08:00 a"; "09:00 12345 b"; "09:30 c"] !! 1%nat
  = Some {| task_id := Some "12345";
            delta_seconds := ((9 * 60 + 30) - (9 * 60 + 0)) * 60;
            desc := "b" |}.
Proof.
  refine (proj2 (results_pair_when_all_match test_day
                   ["08:00 a"; "09:00 12345 b"; "09:30 c"] _ _ _)
            1%nat "09:00 12345 b" "09:30 c" "09:00" (Some "12345") "b" 9 0 9 30
            _ _ _ _ _); try reflexivity.
  intros l Hl. repeat (apply elem_of_cons in Hl as [->|Hl]; [reflexivity|]). inversion Hl.
Defined.

(** ** The minutes of a bucket in a run *)

Lemma quot_minutes_under_exact (key : string) (tasks_results : list TaskResult) :
  Forall (fun tr => 60 * whole_minutes (delta_seconds tr) = delta_seconds tr) tasks_results ->
  quot_minutes_under key tasks_results = minutes_under key tasks_results
  /\ 60 * quot_minutes_under key tasks_results
     = seconds_where (fun tr => String.eqb (bucket_key tr) key) tasks_results.
Proof.
  induction 1 as [|tr rest Htr _ [IH1 IH2]]; [split; reflexivity|].
  cbn [quot_minutes_under minutes_under seconds_where].
  rewrite whole_minutes_quot in Htr.
  assert (Hdiv : delta_seconds tr / 60 = Z.quot (delta_seconds tr) 60).
  { rewrite <- Htr at 1. rewrite Z.mul_comm, Z.div_mul by lia. reflexivity. }
  destruct (String.eqb (bucket_key tr) key); rewrite ?Hdiv; split; lia.
Qed.

(** X27. In a run, the minutes of a bucket are exactly the seconds of the
    results filed under its key, divided by sixty: nothing is lost to the
    truncation of [int(delta_seconds / 60)], also when a delta is
    negative. *)
Theorem run_bucket_minutes (today : datetime) (lines : list string)
    (timestamps : list datetime) (key : string) (e : entry) :
  get_timestamps today lines = Ok timestamps ->
  (key, e) ∈ group_tasks (get_tasks_results (get_deltas timestamps) lines) ->
  let tasks_results := get_tasks_results (get_deltas timestamps) lines in
  task_total_mins e = minutes_under key tasks_results
  /\ 60 * task_total_mins e
     = seconds_where (fun tr => String.eqb (bucket_key tr) key) tasks_results.
Proof.
  intros Hts Hin. cbn zeta.
  destruct (group_tasks_get _ _ _ Hin) as (b & Hget & ->).
  destruct (group_fold_get _ _ _ _ Hget) as [Hdelta _].
  cbn [Dict.get fmap option_fmap option_map default id] in Hdelta.
  cbn [finalize task_total_mins]. rewrite Hdelta.
  assert (Hall : Forall (fun tr => 60 * whole_minutes (delta_seconds tr) = delta_seconds tr)
                   (get_tasks_results (get_deltas timestamps) lines)).
  { apply Forall_forall. intros tr Htr.
    unfold get_tasks_results in Htr. rewrite tasks_results_by_index in Htr.
    destruct (results_delta_elem_of _ _ _ _ Htr) as [Hd _].
    pose proof (day_deltas today lines timestamps Hts) as Hday.
    rewrite Forall_forall in Hday. destruct (Hday _ Hd) as (k & -> & _).
    rewrite whole_minutes_quot, (Z.mul_comm 60 k), Z.quot_mul by lia. lia. }
  destruct (quot_minutes_under_exact key _ Hall) as [H1 H2]. lia.
Qed.

Lemma run_bucket_minutes_witness :
  let tasks_results :=
    get_tasks_results
      (get_deltas [at_time test_day (9, 0); at_time test_day (8, 0); at_time test_day (9, 30)])
      ["09:00 a"; "08:00 b"; "09:30 c"] in
  let e := {| entry_delta := -60; entry_desc := {[ "a" ]}; entry_task_id := None;
              task_total_mins := -60; task_total_hours := -1; task_total_rest := 0;
              rounded_hours := (-1)%Q |} in
  task_total_mins e = minutes_under "a" tasks_results
  /\ 60 * task_total_mins e
     = seconds_where (fun tr => String.eqb (bucket_key tr) "a") tasks_results.
Proof.
  cbn zeta.
  apply (run_bucket_minutes test_day ["09:00 a"; "08:00 b"; "09:30 c"]).
  - vm_compute. reflexivity.
  - vm_compute. left.
Defined.

(** ** The whole minutes of a delta, within a day and beyond

    On every number of seconds from 0 to a day, [int(seconds / 60)]
    computed in binary64 is the quotient [seconds div 60]. *)

Lemma whole_minutes_binary64_day (seconds : Z) :
  0 <= seconds <= 86400 ->
  F64.whole_minutes seconds = Some (seconds / 60).
Proof.
  assert (Hall : forallb (fun s => match F64.whole_minutes s with
                                   | Some v => v =? s / 60
                                   | None => false
                                   end) (zrange 0 (Z.to_nat 86401)) = true)
    by (vm_compute; reflexivity).
  intros H. pose proof (zrange_forallb _ _ _ seconds Hall ltac:(lia)) as Hs.
  cbv beta in Hs.
  destruct (F64.whole_minutes seconds) as [v|]; [|discriminate].
  apply Z.eqb_eq in Hs. congruence.
Qed.

(** C2, as stated, fails: the minutes of a result are [int(delta_seconds /
    60)] with a binary64 quotient, which for a delta of 60 * 2^50 + 56
    seconds is rounded up to 2^50 + 1, one more than the floor. *)
Lemma whole_minutes_not_floor :
  F64.whole_minutes (60 * 2 ^ 50 + 56) = Some (2 ^ 50 + 1)
  /\ (60 * 2 ^ 50 + 56) / 60 = 2 ^ 50.
Proof. split; vm_compute; reflexivity. Qed.

(** C2, amended: [group_tasks] files every result under its key, which is
    the task id, a space and the description when a task id is present,
    else the description, else "#no-desc"; there is one bucket per key;
    for results with deltas from 0 to 86400 seconds (a day) a bucket's
    total minutes are the sum of [delta_seconds div 60] over the results
    under its key (the quotient that binary64 computes on that range), its
    description set holds the non-empty descriptions of those results, and
    its rounded hours are [minutes_to_rounded_decimal_hours] of its total
    minutes.  The two lines "08:00 12345 Task A" and "09:00 12345 Task A"
    give, on any day, the single bucket "12345 Task A" with task id
    "12345", 60 minutes and 1.0 rounded hours, and the defaults of the
    configuration leave it as it is. *)
Theorem group_tasks_buckets :
  (forall tr : TaskResult, group_key tr = bucket_key tr)
  /\ (forall tasks_results : list TaskResult,
         Forall (fun tr => 0 <= delta_seconds tr <= 86400) tasks_results ->
         let grouped := group_tasks tasks_results in
         NoDup (Dict.keys grouped)
         /\ (forall key : string,
                key ∈ Dict.keys grouped
                <-> exists tr, tr ∈ tasks_results /\ bucket_key tr = key)
         /\ (forall (key : string) (e : entry),
                (key, e) ∈ grouped ->
                task_total_mins e = minutes_under key tasks_results
                /\ entry_desc e = descs_under key tasks_results
                /\ rounded_hours e = minutes_to_rounded_decimal_hours (task_total_mins e))
         /\ (forall tr : TaskResult,
                tr ∈ tasks_results ->
                F64.whole_minutes (delta_seconds tr) = Some (delta_seconds tr / 60)))
  /\ (forall today : datetime,
         valid_date today ->
         exists timestamps,
           get_timestamps today task_a_lines = Ok timestamps
           /\ let grouped :=
                group_tasks (get_tasks_results (get_deltas timestamps) task_a_lines) in
              grouped
              = [("12345 Task A",
                  {| entry_delta := 60; entry_desc := {[ "Task A" ]};
                     entry_task_id := Some "12345";
                     task_total_mins := 60; task_total_hours := 1; task_total_rest := 0;
                     rounded_hours := 1%Q |})]
              /\ apply_defaults grouped defaults = grouped).
Proof.
  split; [exact group_key_bucket_key |]. split.
  - intros trs Hday grouped. unfold grouped, group_tasks.
    assert (Hnonneg : Forall (fun tr => 0 <= delta_seconds tr) trs).
    { eapply Forall_impl; [exact Hday |]. cbn. intros tr H. lia. }
    rewrite dict_keys_map_values.
    split; [apply group_fold_NoDup; constructor |]. split; [| split].
    + intros key. rewrite group_fold_keys. split.
      * intros [H | H]; [inversion H | exact H].
      * auto.
    + intros key e Hin.
      assert (Hget : Dict.get key (Dict.map_values finalize (foldl group_step [] trs)) = Some e).
      { apply dict_elem_of_get; [| exact Hin].
        rewrite dict_keys_map_values. apply group_fold_NoDup. constructor. }
      rewrite dict_get_map_values in Hget.
      destruct (Dict.get key (foldl group_step [] trs)) as [b |] eqn:Hb; [| discriminate].
      injection Hget as <-. destruct (group_fold_get _ _ _ _ Hb) as [Hdelta Hdesc].
      cbn [Dict.get fmap option_fmap option_map default] in Hdelta, Hdesc.
      rewrite quot_minutes_under_nonneg in Hdelta by exact Hnonneg.
      cbn [finalize task_total_mins entry_desc rounded_hours].
      split; [lia |]. split; [| reflexivity]. rewrite Hdesc. set_solver.
    + intros tr Htr. rewrite Forall_forall in Hday.
      apply whole_minutes_binary64_day, Hday, Htr.
  - intros today Hvalid. destruct (task_a_pipeline today Hvalid) as [ts [Hts Hdeltas]].
    exists ts. split; [exact Hts |]. rewrite Hdeltas. cbv zeta.
    split; vm_compute; reflexivity.
Qed.

(** Three results under two keys: "12345 a" collects 1 + 2 minutes. *)
Lemma group_tasks_buckets_witness :
  let trs := [ {| task_id := Some "12345"; delta_seconds := 119; desc := "a" |};
               {| task_id := None; delta_seconds := 600; desc := "" |};
               {| task_id := Some "12345"; delta_seconds := 120; desc := "a" |} ] in
  Dict.keys (group_tasks trs) = ["12345 a"; "#no-desc"]
  /\ forall e, ("12345 a", e) ∈ group_tasks trs ->
       task_total_mins e = 3 /\ entry_desc e = {[ "a" ]}.
Proof.
  intros trs. split; [reflexivity |]. intros e Hin.
  assert (Hday : Forall (fun tr => 0 <= delta_seconds tr <= 86400) trs).
  { unfold trs. repeat constructor; cbn; lia. }
  destruct (proj1 (proj2 group_tasks_buckets) trs Hday) as (_ & _ & H & _).
  destruct (H _ _ Hin) as (Hmins & Hdesc & _). split.
  - rewrite Hmins. reflexivity.
  - rewrite Hdesc. vm_compute. reflexivity.
Defined.

(** ** The quarter-hour rounding, within the totals of a day and beyond *)

Lemma whole_minutes_under_quot (key : string) (tasks_results : list TaskResult) :
  whole_minutes_under key tasks_results = quot_minutes_under key tasks_results.
Proof.
  induction tasks_results as [| tr rest IH]; [reflexivity |].
  cbn [whole_minutes_under quot_minutes_under]. rewrite IH, whole_minutes_quot. reflexivity.
Qed.

(** C3, as stated, fails: for 15 * 2^49 + 8 minutes the code returns 2^47
    hours, and 2^47 + 1/4 is a quarter hour nearer to the exact hours. *)
Lemma rounding_not_nearest :
  let total_minutes := 15 * 2 ^ 49 + 8 in
  (Qred <$> F64.minutes_to_rounded_decimal_hours total_minutes) = Some (inject_Z (2 ^ 47))
  /\ (Qabs ((inject_Z (2 ^ 47) + (1 # 4)) - (total_minutes # 60))
      < Qabs (inject_Z (2 ^ 47) - (total_minutes # 60)))%Q.
Proof. split; vm_compute; reflexivity. Qed.

(** C3, amended: for a total from -1440 to 2880 minutes,
    [minutes_to_rounded_decimal_hours] is [round(total_minutes/60 * 4) / 4],
    a multiple of a quarter that is at least as close to [total_minutes /
    60] as any other multiple of a quarter, and it is the value that
    binary64 computes; it maps 0, 15, 30, 45, 60, 7, 8 to 0.0, 0.25, 0.5,
    0.75, 1.0, 0.0, 0.25; and every bucket of [group_tasks] has as total
    minutes the whole minutes accumulated under its key, with
    [task_total_hours = total div 60] and [task_total_rest = total mod 60],
    so that hours * 60 + rest is the total and the rest is from 0 to 59. *)
Theorem quarter_hour_rounding_and_split :
  (forall total_minutes : Z,
      -1440 <= total_minutes <= 2880 ->
      let k := Py.round (Py.fmul (Py.fdiv (Py.float_of_int total_minutes) (Py.float_of_int 60))
                                 (Py.float_of_int 4)) in
      minutes_to_rounded_decimal_hours total_minutes = Qred (k # 4)
      /\ (forall j : Z,
             (Qabs ((k # 4) - (total_minutes # 60)) <= Qabs ((j # 4) - (total_minutes # 60)))%Q)
      /\ exists v, F64.minutes_to_rounded_decimal_hours total_minutes = Some v
                   /\ (v == k # 4)%Q)
  /\ (minutes_to_rounded_decimal_hours 0 = 0
      /\ minutes_to_rounded_decimal_hours 15 = 1 # 4
      /\ minutes_to_rounded_decimal_hours 30 = 1 # 2
      /\ minutes_to_rounded_decimal_hours 45 = 3 # 4
      /\ minutes_to_rounded_decimal_hours 60 = 1
      /\ minutes_to_rounded_decimal_hours 7 = 0
      /\ minutes_to_rounded_decimal_hours 8 = 1 # 4)%Q
  /\ (forall (tasks_results : list TaskResult) (key : string) (values : entry),
         (key, values) ∈ group_tasks tasks_results ->
         let total := whole_minutes_under key tasks_results in
         task_total_mins values = total
         /\ task_total_hours values = total / 60
         /\ task_total_rest values = total mod 60
         /\ task_total_hours values * 60 + task_total_rest values = total
         /\ 0 <= task_total_rest values < 60).
Proof.
  split; [| split].
  - intros m Hm k. split; [apply rounded_hours_quarters |]. split.
    + intros j. pose proof (round_quarters_near m) as H. cbv zeta in H. fold k in H.
      unfold Qle, Qabs, Qminus, Qplus, Qopp. cbn [Qnum Qden].
      destruct (Z.lt_trichotomy j k) as [Hj | [Hj | Hj]]; lia.
    + destruct (rounded_hours_binary64 m Hm) as (v & Hv & Hq).
      exists v. split; [exact Hv |].
      rewrite Hq, (rounded_hours_quarters m). apply Qred_correct.
  - repeat split; reflexivity.
  - intros trs key values Hin total.
    assert (Hnd : NoDup (Dict.keys (group_tasks trs))).
    { unfold group_tasks. rewrite dict_keys_map_values. apply group_fold_NoDup. constructor. }
    pose proof (dict_elem_of_get _ _ _ Hnd Hin) as Hget.
    unfold group_tasks in Hget. rewrite dict_get_map_values in Hget.
    destruct (Dict.get key (foldl group_step [] trs)) as [b |] eqn:Hb; [| discriminate].
    injection Hget as <-. destruct (group_fold_get _ _ _ _ Hb) as [Hdelta _].
    cbn [Dict.get fmap option_fmap option_map default id] in Hdelta.
    unfold total. rewrite whole_minutes_under_quot.
    cbn [finalize task_total_mins task_total_hours task_total_rest]. rewrite Hdelta.
    replace (0 + quot_minutes_under key trs) with (quot_minutes_under key trs) by lia.
    pose proof (Z.div_mod (quot_minutes_under key trs) 60 ltac:(lia)).
    pose proof (Z.mod_pos_bound (quot_minutes_under key trs) 60 ltac:(lia)).
    repeat split; lia.
Qed.

(** 53 minutes are nearer to one hour than to three quarters. *)
Lemma quarter_hour_rounding_and_split_witness :
  let k := Py.round (Py.fmul (Py.fdiv (Py.float_of_int 53) (Py.float_of_int 60))
                             (Py.float_of_int 4)) in
  minutes_to_rounded_decimal_hours 53 = Qred (k # 4)
  /\ (forall j : Z, (Qabs ((k # 4) - (53 # 60)) <= Qabs ((j # 4) - (53 # 60)))%Q)
  /\ exists v, F64.minutes_to_rounded_decimal_hours 53 = Some v /\ (v == k # 4)%Q.
Proof.
  apply (proj1 quarter_hour_rounding_and_split 53). lia.
Defined.

(** ** The saldo and the closing remark *)











(** X10. [send_time_entries] never touches the files or the log and keeps
    the entries already sent.  Every entry it creates comes from a bucket
    with a non-empty task id and rounded hours above zero, and carries
    that id, those hours, the date of the log and the bucket's
    descriptions, so a bucket without a task id or with zero rounded hours
    is never sent; there are at most as many new entries as buckets; and
    when it returns normally, every bucket with a non-empty task id and
    rounded hours above zero has its entry among the new ones. *)
Theorem send_time_entries_sends (grouped_tasks : Grouped) (date : datetime) (w : world) :
  let r := send_time_entries grouped_tasks date w in
  files (snd r) = files w
  /\ logged (snd r) = logged w
  /\ exists new : list time_entry,
       sent (snd r) = sent w ++ new
       /\ (length new <= length grouped_tasks)%nat
       /\ (forall te, te ∈ new ->
             issue_id te <> "" /\ (0 < hours te)%Q /\ spent_on te = strftime_ymd date
             /\ exists key e, (key, e) ∈ grouped_tasks
                  /\ entry_task_id e = Some (issue_id te)
                  /\ rounded_hours e = hours te /\ joined_desc e = comments te)
       /\ (fst r = Ok tt ->
           forall key e tid,
             (key, e) ∈ grouped_tasks -> entry_task_id e = Some tid -> tid <> "" ->
             (0 < rounded_hours e)%Q ->
             {| issue_id := tid; spent_on := strftime_ymd date;
                hours := rounded_hours e; comments := joined_desc e |} ∈ new).
Proof.
  cbn zeta. rewrite send_time_entries_run. cbn [fst snd files sent logged].
  split; [reflexivity |]. split; [reflexivity |].
  exists (omap (time_entry_of date) (Dict.values grouped_tasks)).
  split; [reflexivity |]. split; [| split].
  - etransitivity; [apply omap_length_le |]. unfold Dict.values. rewrite length_fmap. lia.
  - intros te Hte. apply list_elem_of_omap in Hte as (e & He & Hsome).
    apply time_entry_of_Some in Hsome as (tid & Htid & Hne & Hpos & ->). cbn.
    split; [exact Hne |]. split; [exact Hpos |]. split; [reflexivity |].
    unfold Dict.values in He. apply list_elem_of_fmap in He as ([key e'] & -> & Hin).
    exists key, e'. by repeat split.
  - intros _ key e tid Hin Htid Hne Hpos. apply list_elem_of_omap. exists e. split.
    + unfold Dict.values. apply list_elem_of_fmap. exists (key, e). by split.
    + apply time_entry_of_Some. exists tid. by repeat split.
Qed.

(** X12. [main] only ever appends to the log file: every other file is
    untouched and the text the log file held is kept as the beginning of
    what it holds afterwards.  A run that stops before the summary writes
    nothing: a missing log file is not created ([FileNotFoundError]), a
    file already processed is left as it is, and so is a file with a time
    that [get_timestamps] rejects.  The log records already there are
    kept. *)
Theorem main_only_appends (float_repr : Py.float -> string) (today : datetime)
    (path answer : string) (w : world) :
  let r := main float_repr today path answer w in
  (forall other : string, other <> path -> files (snd r) !! other = files w !! other)
  /\ (forall content : string,
         files w !! path = Some content ->
         exists block, files (snd r) !! path = Some (content +:+ block))
  /\ (files w !! path = None -> fst r = Raised FileNotFoundError /\ files (snd r) = files w)
  /\ (forall content : string,
         files w !! path = Some content ->
         is_already_parsed (nonblank_lines content) = true -> files (snd r) = files w)
  /\ (forall (content : string) (e : exn),
         files w !! path = Some content ->
         is_already_parsed (nonblank_lines content) = false ->
         get_timestamps today (nonblank_lines content) = Raised e ->
         fst r = Raised e /\ files (snd r) = files w)
  /\ exists events, logged (snd r) = logged w ++ events.
Proof.
  cbn zeta.
  destruct (main_cases float_repr today path answer w)
    as [[Hfile H]|[(content & Hfile & Hparsed & H)|[(content & e & Hfile & Hparsed & H)
       |(content & ts & Hfile & Hparsed & H)]]].
  - rewrite H; cbn [fst snd only_logged files logged].
    split; [reflexivity|]. split; [intros content Hc; congruence|].
    split; [intros _; split; reflexivity|]. split; [reflexivity|].
    split; [intros content e Hc; congruence|]. eexists. reflexivity.
  - rewrite H; cbn [fst snd only_logged files logged].
    split; [reflexivity|].
    split; [intros content' Hc; exists ""; rewrite str_app_empty; exact Hc|].
    split; [congruence|]. split; [reflexivity|].
    split; [intros content' e Hc Hp; congruence|]. eexists. reflexivity.
  - rewrite H; cbn [fst snd only_logged files logged].
    split; [reflexivity|].
    split; [intros content' Hc; exists ""; rewrite str_app_empty; exact Hc|].
    split; [congruence|]. split; [reflexivity|].
    split.
    { intros content' e' Hc Hp Hts.
      rewrite (main_raises float_repr today path answer content' w e' Hc Hp Hts) in H.
      injection H as ->. split; reflexivity. }
    exists []. rewrite app_nil_r. reflexivity.
  - split; [|split; [|split; [|split; [|split]]]].
    + rewrite H. unfold after_summary. cbn [snd files].
      intros other Hne. apply lookup_insert_ne. congruence.
    + rewrite H. unfold after_summary. cbn [snd files].
      intros content' Hc. rewrite lookup_insert_eq. eexists.
      replace content' with content by congruence. reflexivity.
    + congruence.
    + intros content' Hc Hp. congruence.
    + intros content' e' Hc Hp Hts.
      rewrite (main_raises float_repr today path answer content' w e' Hc Hp Hts) in H.
      discriminate.
    + rewrite H. unfold after_summary. cbn [snd logged]. eexists. reflexivity.
Qed.

(** X13. [main] sends time entries only in a run that reaches the prompt
    and gets the answer y or Y (whitespace around it aside): nothing is
    sent when the answer is anything else, when the log file is missing or
    already processed, or when [get_timestamps] rejects a time.  The
    entries already sent are kept, and each new one has a non-empty issue
    id, hours above zero and the date of the log. *)
Theorem main_sends_on_yes_only (float_repr : Py.float -> string) (today : datetime)
    (path answer : string) (w : world) :
  let r := main float_repr today path answer w in
  exists new : list time_entry,
    sent (snd r) = sent w ++ new
    /\ (Py.strip answer <> "y" -> Py.strip answer <> "Y" -> new = [])
    /\ (files w !! path = None -> new = [])
    /\ (forall content : string,
           files w !! path = Some content ->
           is_already_parsed (nonblank_lines content) = true -> new = [])
    /\ (forall (content : string) (e : exn),
           files w !! path = Some content ->
           get_timestamps today (nonblank_lines content) = Raised e -> new = [])
    /\ Forall (fun te => issue_id te <> "" /\ (0 < hours te)%Q
                         /\ spent_on te = strftime_ymd today) new.
Proof.
  cbn zeta.
  destruct (main_cases float_repr today path answer w)
    as [[Hfile H]|[(content & Hfile & Hparsed & H)|[(content & e & Hfile & Hparsed & H)
       |(content & ts & Hfile & Hparsed & H)]]].
  - rewrite H. exists []. cbn [snd only_logged sent]. rewrite app_nil_r.
    split; [reflexivity|]. repeat (split; [intros; reflexivity|]). constructor.
  - rewrite H. exists []. cbn [snd only_logged sent]. rewrite app_nil_r.
    split; [reflexivity|]. repeat (split; [intros; reflexivity|]). constructor.
  - rewrite H. exists []. cbn [snd]. rewrite app_nil_r.
    split; [reflexivity|]. repeat (split; [intros; reflexivity|]). constructor.
  - eexists. split; [rewrite H; unfold after_summary; cbn [snd sent]; reflexivity|].
    split; [|split; [|split; [|split]]].
    + intros Hy HY. unfold declined.
      destruct (String.eqb_spec (Py.strip answer) "y"); [congruence|].
      destruct (String.eqb_spec (Py.strip answer) "Y"); [congruence|]. reflexivity.
    + congruence.
    + intros content' Hc Hp. congruence.
    + intros content' e' Hc Hts. exfalso.
      assert (content' = content) by congruence. subst content'.
      rewrite (main_raises float_repr today path answer content w e' Hc Hparsed Hts) in H.
      discriminate.
    + destruct (declined answer); [constructor|].
      apply Forall_forall. intros te Hte.
      apply list_elem_of_omap in Hte as (en & _ & Hsome).
      apply time_entry_of_Some in Hsome as (tid & _ & Hne & Hpos & ->). cbn. auto.
Qed.

(** X18. For totals from -1440 to 2880 minutes, the quarter-hour rounding
    as binary64 computes it is the value of the model and moves in step
    with the minutes: more minutes never give fewer rounded hours,
    fifteen minutes more give exactly a quarter of an hour more, and a
    whole number of quarters of an hour is returned unchanged. *)
Theorem rounded_hours_steps (m m' : Z) :
  -1440 <= m -> m <= m' -> m' <= 2880 ->
  exists v v' : Q,
    F64.minutes_to_rounded_decimal_hours m = Some v
    /\ F64.minutes_to_rounded_decimal_hours m' = Some v'
    /\ (v == minutes_to_rounded_decimal_hours m)%Q
    /\ (v' == minutes_to_rounded_decimal_hours m')%Q
    /\ (v <= v')%Q
    /\ (m' = m + 15 -> (v' == v + (1 # 4))%Q)
    /\ (forall k : Z, m = 15 * k -> (v == k # 4)%Q).
Proof.
  intros Hlo Hle Hhi.
  destruct (rounded_hours_binary64 m ltac:(lia)) as (v & Hv & Hq).
  destruct (rounded_hours_binary64 m' ltac:(lia)) as (v' & Hv' & Hq').
  exists v, v'. split; [exact Hv|]. split; [exact Hv'|].
  split; [exact Hq|]. split; [exact Hq'|].
  pose proof (round_quarters_near m) as Hr. pose proof (round_quarters_near m') as Hr'.
  cbn zeta in Hr, Hr'.
  split; [|split].
  - rewrite Hq, Hq', !rounded_hours_quarters, !Qred_correct.
    unfold Qle. cbn [Qnum Qden]. lia.
  - intros Hm'. rewrite Hq, Hq', !rounded_hours_quarters, !Qred_correct.
    rewrite (round_quarters_unique m' (Py.round
        (Py.fmul (Py.fdiv (Py.float_of_int m) (Py.float_of_int 60)) (Py.float_of_int 4)) + 1))
      by lia.
    unfold Qeq, Qplus. cbn [Qnum Qden]. lia.
  - intros k Hk. rewrite Hq, rounded_hours_quarters, Qred_correct.
    rewrite (round_quarters_unique m k) by lia. reflexivity.
Qed.

Lemma rounded_hours_steps_witness :
  exists v v' : Q,
    F64.minutes_to_rounded_decimal_hours 8 = Some v
    /\ F64.minutes_to_rounded_decimal_hours 23 = Some v'
    /\ (v == minutes_to_rounded_decimal_hours 8)%Q
    /\ (v' == minutes_to_rounded_decimal_hours 23)%Q
    /\ (v <= v')%Q
    /\ (23 = 8 + 15 -> (v' == v + (1 # 4))%Q)
    /\ (forall k : Z, 8 = 15 * k -> (v == k # 4)%Q).
Proof.
  apply (rounded_hours_steps 8 23); lia.
Defined.

(** X19. [get_path] never fails on the day number: every date has a path.
    For a year of four digits the path is the home directory, [logtime],
    the year, the two-digit month and a file named by the date and the
    day of the week.  Two dates that exist have the same path only if
    they are the same day, so no two days share a log file.  For
    2026-02-21, a Saturday, the file is [2026-02-21 SA.md]. *)
Theorem get_path_one_file_per_day (home : list string) :
  (forall today : datetime, is_Some (get_path home today))
  /\ (forall today : datetime,
         1000 <= year today <= 9999 ->
         exists day_of_the_week,
           NUMBER_TO_DAY_OF_WEEK (weekday today) = Some day_of_the_week
           /\ get_path home today
              = Some (home ++ ["logtime"; Py.str_of_int (year today); pad2 (month today);
                               strftime_ymd today +:+ " " +:+ day_of_the_week +:+ ".md"]))
  /\ (forall d1 d2 : datetime,
         valid_date d1 -> valid_date d2 ->
         get_path home d1 = get_path home d2 ->
         year d1 = year d2 /\ month d1 = month d2 /\ day d1 = day d2)
  /\ get_path home test_day = Some (home ++ ["logtime"; "2026"; "02"; "2026-02-21 SA.md"]).
Proof.
  split; [|split; [|split; [|reflexivity]]].
  - intros today. destruct (get_path_parts home today) as (dow & _ & ->). eexists; reflexivity.
  - intros today _. apply get_path_parts.
  - intros d1 d2 (Hy1 & Hm1 & Hd1) (Hy2 & Hm2 & Hd2) H.
    destruct (get_path_parts home d1) as (w1 & _ & E1).
    destruct (get_path_parts home d2) as (w2 & _ & E2).
    rewrite E1, E2 in H. injection H as H. apply app_inv_head in H.
    injection H as Hy Hm Hf.
    apply str_of_int_inj in Hy.
    assert (Hmonth : month d1 = month d2).
    { apply (pad2_app_inj _ _ "" ""); [lia|lia|]. rewrite !str_app_empty. exact Hm. }
    split; [exact Hy|]. split; [exact Hmonth|].
    unfold strftime_ymd in Hf. rewrite Hy, Hmonth in Hf.
    rewrite !str_app_assoc in Hf.
    do 4 apply str_app_inv_head in Hf.
    assert (Hdim : forall y m, days_in_month y m <= 31).
    { intros y m. unfold days_in_month.
      destruct (m =? 2); [destruct (is_leap y); lia|].
      destruct ((m =? 4) || (m =? 6) || (m =? 9) || (m =? 11)); lia. }
    pose proof (Hdim (year d1) (month d1)). pose proof (Hdim (year d2) (month d2)).
    apply (pad2_app_inj _ _ _ _) in Hf; [exact Hf|lia|lia].
Qed.

(** ** Which buckets count as free time *)

Lemma compute_totals_cons (tr : TaskResult) (rest : list TaskResult) :
  compute_totals (tr :: rest)
  = if Py.startswith "#" (desc tr)
    then (fst (compute_totals rest), delta_seconds tr + snd (compute_totals rest))
    else (delta_seconds tr + fst (compute_totals rest), snd (compute_totals rest)).
Proof.
  unfold compute_totals. cbn [List.filter fst snd].
  destruct (Py.startswith "#" (desc tr)); cbn [negb List.map]; rewrite sum_cons; reflexivity.
Qed.

(** X24. In a run, the key of a result starts with [#] (so that the
    bucket is shown as free time and left out of the rounded work hours)
    exactly when the line has no task id and its description is empty or
    starts with [#].  [compute_totals] goes by the description alone: it
    adds the seconds of a result to the free total when the description
    starts with [#], and to the work total when it does not, task id or
    not. *)
Theorem free_time_keys (deltas : list Z) (lines : list string) (tr : TaskResult) :
  tr ∈ get_tasks_results deltas lines ->
  (Py.startswith "#" (group_key tr) = true
   <-> task_id tr = None /\ (desc tr = "" \/ marks_free_time (desc tr)))
  /\ (marks_free_time (desc tr) ->
      forall rest : list TaskResult,
        compute_totals (tr :: rest)
        = (fst (compute_totals rest), delta_seconds tr + snd (compute_totals rest)))
  /\ (~ marks_free_time (desc tr) ->
      forall rest : list TaskResult,
        compute_totals (tr :: rest)
        = (delta_seconds tr + fst (compute_totals rest), snd (compute_totals rest))).
Proof.
  intros Hin. split; [|split].
  - destruct (results_task_id _ _ _ Hin) as (line & time_str & _ & _ & Hshape).
    rewrite group_key_bucket_key. unfold bucket_key.
    destruct (task_id tr) as [t|].
    + destruct Hshape as [Hdig Hlen].
      destruct t as [|c t]; [discriminate|].
      unfold digits in Hdig. cbn [str_all] in Hdig. apply andb_true_iff in Hdig as [Hc _].
      rewrite str_app_cons. cbn [Py.startswith]. split.
      * intros H. apply Ascii.eqb_eq in H. subst c. discriminate.
      * intros [H _]. discriminate.
    + destruct (desc tr) as [|c s] eqn:Hdesc.
      * split; [intros _; split; [reflexivity|left; reflexivity]|reflexivity].
      * rewrite startswith_hash. split.
        -- intros H. split; [reflexivity|right; exact H].
        -- intros [_ [H|H]]; [discriminate|exact H].
  - intros Hfree rest. rewrite compute_totals_cons.
    apply startswith_hash in Hfree. rewrite Hfree. reflexivity.
  - intros Hwork rest. rewrite compute_totals_cons.
    destruct (Py.startswith "#" (desc tr)) eqn:E; [|reflexivity].
    apply startswith_hash in E. contradiction.
Qed.

(** A line with a time and nothing else: no task id, no description. *)
Lemma free_time_keys_witness :
  let tr := {| task_id := None; delta_seconds := 3600; desc := "" |} in
  (Py.startswith "#" (group_key tr) = true
   <-> task_id tr = None /\ (desc tr = "" \/ marks_free_time (desc tr)))
  /\ (marks_free_time (desc tr) ->
      forall rest : list TaskResult,
        compute_totals (tr :: rest)
        = (fst (compute_totals rest), delta_seconds tr + snd (compute_totals rest)))
  /\ (~ marks_free_time (desc tr) ->
      forall rest : list TaskResult,
        compute_totals (tr :: rest)
        = (delta_seconds tr + fst (compute_totals rest), snd (compute_totals rest))).
Proof.
  cbn zeta. apply (free_time_keys [3600] ["08:00  "; "09:00 end"]).
  vm_compute. left.
Defined.
